(** * hr_risk: attrition-risk scoring and attendance-anomaly detection

    A shallow embedding of the analytical core of the dashboard
    (modules/utils.py, modules/risk_model.py, modules/attendance_check.py and
    the re-bucketing pass of app.py), with the properties of its
    specification stated and proved against it.

    Numbers.  The program computes with Python floats.  A float is modelled
    as a real number or NaN ([pyfloat]); rounding error and the infinities
    are not modelled, with one exception: the z-scores of
    attendance_check.py, whose zero test on the standard deviation depends
    on rounding, are computed on binary64 floats ([PrimFloat.float]) in the
    order numpy and pandas follow.  Comparisons follow IEEE/numpy: every
    ordered comparison with NaN is false. *)

From Stdlib Require Import PrimFloat.
From Stdlib Require Import Reals Lra Lia ZArith List String Bool Arith.
From Stdlib Require Import DecimalString FinFun Sorted.
Import ListNotations.

Set Implicit Arguments.

(** ** Python and pandas values *)

Module Py.

Open Scope R_scope.

(** A Python float: a finite value or NaN. *)
Inductive pyfloat : Type :=
| Fin (x : R)
| NaN.

Definition Rltb (x y : R) : bool := if Rlt_dec x y then true else false.
Definition Rleb (x y : R) : bool := if Rle_dec x y then true else false.
Definition Reqb (x y : R) : bool := if Req_dec_T x y then true else false.

(** [a < b], [a <= b], [a > b], [a >= b], [a == b] on floats. *)
Definition flt (a b : pyfloat) : bool :=
  match a, b with Fin x, Fin y => Rltb x y | _, _ => false end.
Definition fle (a b : pyfloat) : bool :=
  match a, b with Fin x, Fin y => Rleb x y | _, _ => false end.
Definition fgt (a b : pyfloat) : bool := flt b a.
Definition fge (a b : pyfloat) : bool := fle b a.
Definition feq (a b : pyfloat) : bool :=
  match a, b with Fin x, Fin y => Reqb x y | _, _ => false end.

(** Arithmetic: NaN is absorbing. *)
Definition flift1 (f : R -> R) (a : pyfloat) : pyfloat :=
  match a with Fin x => Fin (f x) | NaN => NaN end.
Definition flift2 (f : R -> R -> R) (a b : pyfloat) : pyfloat :=
  match a, b with Fin x, Fin y => Fin (f x y) | _, _ => NaN end.
Definition fadd := flift2 Rplus.
Definition fsub := flift2 Rminus.
Definition fmul := flift2 Rmult.

(** The builtins [max(a, b)] and [min(a, b)]: the first argument is kept
    unless the second compares strictly better, so a NaN first argument is
    returned as it is. *)
Definition py_max (a b : pyfloat) : pyfloat := if fgt b a then b else a.
Definition py_min (a b : pyfloat) : pyfloat := if flt b a then b else a.

(** [numpy.rint]: nearest integer, ties to even. *)
Definition rint (x : R) : Z :=
  let f := Int_part x in
  let d := x - IZR f in
  if Rltb d (1/2) then f
  else if Rltb (1/2) d then (f + 1)%Z
  else if Z.even f then f else (f + 1)%Z.

(** [numpy.round(a, 1)]. *)
Definition np_round1 (a : pyfloat) : pyfloat :=
  flift1 (fun x => IZR (rint (x * 10)) / 10) a.

(** A value held in a dataframe cell. *)
Inductive cell : Type :=
| CNum (x : R)          (* int64 / float64 *)
| CNaN                  (* missing: NaN, NaT *)
| CStr (s : string)     (* text *)
| CTime (t : Z).        (* Timestamp, nanoseconds since the epoch *)

Definition cell_eq_dec (a b : cell) : {a = b} + {a <> b}.
Proof.
  destruct a as [x| |s|t], b as [y| |u|v];
    try (right; discriminate); try (left; reflexivity).
  - destruct (Req_dec_T x y) as [->|n]; [left; reflexivity|right; congruence].
  - destruct (string_dec s u) as [->|n]; [left; reflexivity|right; congruence].
  - destruct (Z.eq_dec t v) as [->|n]; [left; reflexivity|right; congruence].
Defined.

Definition cell_eqb (a b : cell) : bool :=
  if cell_eq_dec a b then true else false.

(** [Series.isna()] on one cell. *)
Definition isna (c : cell) : bool :=
  match c with CNaN => true | _ => false end.

(** Exceptions the modelled code raises. *)
Inductive exn : Type :=
| ValueError (msg : string)
| LibraryError.  (* an exception raised inside pandas / scikit-learn *)

Inductive result (A : Type) : Type :=
| Ok (a : A)
| Raise (e : exn).
Arguments Ok {A} a.
Arguments Raise {A} e.

Definition bind {A B} (m : result A) (k : A -> result B) : result B :=
  match m with Ok a => k a | Raise e => Raise e end.

(** A row is a labelled record; a dataframe is its column index and its
    rows, in positional order (the default RangeIndex of the readers). *)
Definition Row := list (string * cell).

Fixpoint row_get (r : Row) (c : string) : option cell :=
  match r with
  | [] => None
  | (k, v) :: r' => if String.eqb k c then Some v else row_get r' c
  end.

Record DataFrame : Type := mkDF { columns : list string; rows : list Row }.

(** [c in df.columns]. *)
Definition has_column (df : DataFrame) (c : string) : bool :=
  existsb (String.eqb c) (columns df).

(** [df[c]] as a list of cells; a cell a row does not carry reads as
    missing. *)
Definition cell_at (r : Row) (c : string) : cell :=
  match row_get r c with Some v => v | None => CNaN end.
Definition column (df : DataFrame) (c : string) : list cell :=
  map (fun r => cell_at r c) (rows df).

End Py.

Import Py.

(** ** Risk tiers and [pandas.cut] *)

Module Cut.

Open Scope R_scope.

Inductive Tier : Type := Low | Medium | High.

(** [numpy.searchsorted(bins, x, side='left')] on increasing [bins]: the
    number of edges strictly below [x]. *)
Definition searchsorted_left (bins : list R) (x : R) : nat :=
  List.length (filter (fun b => Rltb b x) bins).

Fixpoint increasing (bins : list R) : bool :=
  match bins with
  | a :: ((b :: _) as tl) => Rltb a b && increasing tl
  | _ => true
  end.

(** [pandas.cut(x, bins, labels)] on one value, with the defaults
    [right=True, include_lowest=False]: the intervals are
    (b0, b1], (b1, b2], ...; a value in none of them, or NaN, has no
    category ([None]). *)
Definition cut1 (bins : list R) (labels : list Tier) (p : pyfloat)
  : option Tier :=
  match p with
  | NaN => None
  | Fin x =>
      let i := searchsorted_left bins x in
      if (i =? 0)%nat || (i =? List.length bins)%nat then None
      else nth_error labels (i - 1)
  end.

(** [pandas.cut] on a series: edges that do not strictly increase are
    rejected (a ValueError raised by pandas). *)
Definition cut (xs : list pyfloat) (bins : list R) (labels : list Tier)
  : result (list (option Tier)) :=
  if increasing bins then Ok (map (cut1 bins labels) xs)
  else Raise LibraryError.

Definition tier_labels : list Tier := [Low; Medium; High].

(** The edges [[-0.1, med, high, 100]]. *)
Definition tier_bins (med high : R) : list R := [-(1/10); med; high; 100].

End Cut.

Import Cut.

(** ** modules/utils.py *)

Module Utils.

Open Scope string_scope.

(** Decimal rendering of the integers that appear in messages. *)
Definition str_of_nat (n : nat) : string :=
  DecimalString.NilEmpty.string_of_uint (Nat.to_uint n).
Definition str_of_Z (z : Z) : string :=
  DecimalString.NilZero.string_of_int (Z.to_int z).

(** [repr] of a list of column names, as an f-string prints it.  Column
    names are quoted with single quotes; names holding a quote or a
    backslash (none of the required names does) are not modelled. *)
Definition repr_str (s : string) : string := "'" ++ s ++ "'".
Definition repr_list (l : list string) : string :=
  "[" ++ String.concat ", " (map repr_str l) ++ "]".

(** [[c for c in required if c not in df.columns]] *)
Definition missing_columns (df : DataFrame) (required : list string)
  : list string :=
  filter (fun c => negb (has_column df c)) required.

Definition missing_message (missing : list string) : string :=
  "必須カラムが不足しています: " ++ repr_list missing.

Definition ensure_columns (df : DataFrame) (required : list string)
  : result unit :=
  let missing := missing_columns df required in
  match missing with
  | [] => Ok tt
  | _ :: _ => Raise (ValueError (missing_message missing))
  end.

(** [float(np.clip(x, 0.0, 1.0))] *)
Definition clip01 (x : pyfloat) : pyfloat :=
  flift1 (fun v => Rmin (Rmax v 0) 1) x.

(** A series cell back from a float. *)
Definition cell_of_float (a : pyfloat) : cell :=
  match a with Fin x => CNum x | NaN => CNaN end.

(** [df[c] = values]: positional assignment of a column. *)
Fixpoint row_set (r : Row) (c : string) (v : cell) : Row :=
  match r with
  | [] => [(c, v)]
  | (k, w) :: r' =>
      if String.eqb k c then (k, v) :: r' else (k, w) :: row_set r' c v
  end.

Fixpoint set_column_rows (rs : list Row) (c : string) (vs : list cell)
  : list Row :=
  match rs, vs with
  | r :: rs', v :: vs' => row_set r c v :: set_column_rows rs' c vs'
  | _, _ => rs
  end.

Definition set_column (df : DataFrame) (c : string) (vs : list cell)
  : DataFrame :=
  mkDF (if has_column df c then columns df else (columns df ++ [c])%list)
       (set_column_rows (rows df) c vs).

(** [df.rename(columns={old: new})] *)
Definition rename_key (old new k : string) : string :=
  if String.eqb k old then new else k.
Definition rename_column (df : DataFrame) (old new : string) : DataFrame :=
  mkDF (map (rename_key old new) (columns df))
       (map (map (fun kv => (rename_key old new (fst kv), snd kv))) (rows df)).

Section Parsers.

(** What pandas' own parsers make of a text cell, and of a cell that is
    neither a timestamp nor missing when a date is asked for. *)
Variable numeric_of_str : string -> option R.
Variable parse_datetime : cell -> option Z.

(** [pd.to_numeric(series, errors="coerce")] on one cell. *)
Definition to_numeric (c : cell) : pyfloat :=
  match c with
  | CNum x => Fin x
  | CNaN => NaN
  | CStr s => match numeric_of_str s with Some x => Fin x | None => NaN end
  | CTime t => Fin (IZR t)
  end.

(** A datetime64 value. *)
Inductive timestamp : Type := TS (ns : Z) | NaT.

(** [pd.to_datetime(series, errors="coerce")] on one cell. *)
Definition to_datetime_coerce (c : cell) : timestamp :=
  match c with
  | CTime t => TS t
  | CNaN => NaT
  | _ => match parse_datetime c with Some t => TS t | None => NaT end
  end.

(** [pd.to_datetime(series)]: an unparseable value raises. *)
Definition to_datetime (c : cell) : result timestamp :=
  match c with
  | CTime t => Ok (TS t)
  | CNaN => Ok NaT
  | _ => match parse_datetime c with
         | Some t => Ok (TS t)
         | None => Raise LibraryError
         end
  end.

(** *** count_out_of_range (the same nested helper in both validators)

    A mask entry is [Some b] for a boolean and [None] for a missing entry.
    The series [s] is float64, so [s < min_v] and [s > max_v] are numpy
    comparisons: they give [False] at a NaN, never a missing entry. *)
Definition mask_or (m : list (option bool)) (b : list bool)
  : list (option bool) :=
  map (fun mb => match fst mb with
                 | Some x => Some (x || snd mb)
                 | None => None
                 end) (combine m b).

Definition fillna_true (m : list (option bool)) : list bool :=
  map (fun e => match e with Some b => b | None => true end) m.

Definition count_true (m : list bool) : nat :=
  List.length (filter (fun b => b) m).

Definition count_out_of_range (series : list cell) (min_v max_v : option R)
  : nat :=
  let s := map to_numeric series in
  let mask := map (fun _ => Some false) s in
  let mask := match min_v with
              | Some lo => mask_or mask (map (fun v => flt v (Fin lo)) s)
              | None => mask
              end in
  let mask := match max_v with
              | Some hi => mask_or mask (map (fun v => fgt v (Fin hi)) s)
              | None => mask
              end in
  count_true (fillna_true mask).

(** [df[required].isna().sum()] for one column. *)
Definition null_count (df : DataFrame) (c : string) : nat :=
  List.length (filter isna (column df c)).

(** [{col: int(cnt) for col, cnt in null_counts.items() if cnt > 0}] *)
Definition bad_null (df : DataFrame) (required : list string)
  : list (string * nat) :=
  filter (fun e => (0 <? snd e)%nat)
         (map (fun c => (c, null_count df c)) required).

Definition repr_dict (d : list (string * nat)) : string :=
  "{" ++ String.concat ", "
           (map (fun e => repr_str (fst e) ++ ": " ++ str_of_nat (snd e)) d)
      ++ "}".

Definition null_message (d : list (string * nat)) : string :=
  "必須カラムに欠損があります: " ++ repr_dict d.

Record Report : Type := mkReport { errors : list string; warnings : list string }.

Definition hr_required : list string :=
  ["社員ID"; "年齢"; "勤続年数"; "平均残業時間h"; "有給取得率"; "評価(1-5)";
   "昇給回数"; "部署異動回数"].

Definition ranges : list (string * (Z * Z)) :=
  [("年齢", (15, 80)%Z); ("勤続年数", (0, 50)%Z);
   ("平均残業時間h", (0, 200)%Z); ("有給取得率", (0, 100)%Z);
   ("評価(1-5)", (1, 5)%Z); ("昇給回数", (0, 50)%Z);
   ("部署異動回数", (0, 50)%Z)].

Definition range_warning (col : string) (n_bad : nat) (lo hi : Z) : string :=
  col ++ " の範囲外データが " ++ str_of_nat n_bad
      ++ " 件あります（想定範囲: " ++ str_of_Z lo ++ "〜" ++ str_of_Z hi
      ++ "）。".

(** [Series.duplicated().any()] *)
Fixpoint has_duplicates (l : list cell) : bool :=
  match l with
  | [] => false
  | x :: l' => existsb (cell_eqb x) l' || has_duplicates l'
  end.

Definition validate_hr (df : DataFrame) : Report :=
  let missing := missing_columns df hr_required in
  match missing with
  | _ :: _ => mkReport [missing_message missing] []
  | [] =>
      let bad := bad_null df hr_required in
      let errors := match bad with [] => [] | _ => [null_message bad] end in
      let range_warnings :=
        flat_map (fun e =>
          let '(col, (lo, hi)) := e in
          let n_bad := count_out_of_range (column df col)
                         (Some (IZR lo)) (Some (IZR hi)) in
          if (0 <? n_bad)%nat then [range_warning col n_bad lo hi] else [])
          ranges in
      let dup_warnings :=
        if has_duplicates (column df "社員ID")
        then ["社員IDに重複があります。集計時の解釈に注意してください。"]
        else [] in
      mkReport errors (range_warnings ++ dup_warnings)%list
  end.

Definition att_required : list string :=
  ["社員ID"; "日付"; "勤務時間h"; "残業時間h"].

Definition is_nat (t : timestamp) : bool :=
  match t with NaT => true | TS _ => false end.

Definition date_message (nat_cnt : nat) : string :=
  "日付のパースに失敗した行が " ++ str_of_nat nat_cnt
    ++ " 件あります（YYYY-MM-DD 形式を推奨）。".

Definition hours_warning (col : string) (n_bad : nat) : string :=
  col ++ " の異常値が " ++ str_of_nat n_bad ++ " 件あります。".

Definition validate_attendance (df : DataFrame) : Report :=
  let missing := missing_columns df att_required in
  match missing with
  | _ :: _ => mkReport [missing_message missing] []
  | [] =>
      let bad := bad_null df att_required in
      let errors := match bad with [] => [] | _ => [null_message bad] end in
      let dates := map to_datetime_coerce (column df "日付") in
      let nat_cnt := List.length (filter is_nat dates) in
      let errors :=
        if (0 <? nat_cnt)%nat
        then (errors ++ [date_message nat_cnt])%list
        else errors in
      let n_bad_work := count_out_of_range (column df "勤務時間h")
                          (Some 0%R) (Some (24 * 2)%R) in
      let n_bad_ot := count_out_of_range (column df "残業時間h")
                        (Some 0%R) (Some 24%R) in
      let w1 := if (0 <? n_bad_work)%nat
                then [hours_warning "勤務時間h" n_bad_work] else [] in
      let w2 := if (0 <? n_bad_ot)%nat
                then [hours_warning "残業時間h" n_bad_ot] else [] in
      mkReport errors (w1 ++ w2)%list
  end.

(** *** normalize_hr_columns *)

(** [Series.max()] of a series without NaN; NaN for an empty one. *)
Definition series_max (l : list R) : pyfloat :=
  match l with
  | [] => NaN
  | x :: l' => Fin (fold_left Rmax l' x)
  end.

(** [ser.fillna(-1.0)] *)
Definition fillna_minus1 (a : pyfloat) : R :=
  match a with Fin x => x | NaN => (-1)%R end.

(** The values of the paid-leave column after normalisation. *)
Definition rescale_pto (series : list cell) : list pyfloat :=
  let ser_num := map to_numeric series in
  let ser_max_val := series_max (map fillna_minus1 ser_num) in
  if fle (Fin 0) ser_max_val && fle ser_max_val (Fin 1)
  then map (fun v => fmul v (Fin 100)) ser_num
  else ser_num.

Definition normalize_hr_columns (df : DataFrame) : DataFrame :=
  let df2 :=
    if has_column df "評価" && negb (has_column df "評価(1-5)")
    then rename_column df "評価" "評価(1-5)" else df in
  if has_column df2 "有給取得率"
  then set_column df2 "有給取得率"
         (map cell_of_float (rescale_pto (column df2 "有給取得率")))
  else df2.

End Parsers.

(** *** anonymize_ids *)

Section Anonymize.

(** [str(x)] of a cell ([Series.astype(str)]) and [hashlib.sha256(b).hexdigest()].
    Strings are byte strings, so [encode("utf-8")] is the identity. *)
Variable str_of_cell : cell -> string.
Variable sha256_hexdigest : string -> string.

(** The process environment. *)
Definition environ := list (string * string).

Fixpoint getenv (env : environ) (key default : string) : string :=
  match env with
  | [] => default
  | (k, v) :: env' => if String.eqb k key then v else getenv env' key default
  end.

Definition _mask (salt prefix : string) (length : Z) (x : string) : string :=
  let b := x in
  let h := substring 0 (Z.to_nat (Z.max 4 length)) (sha256_hexdigest (salt ++ b)) in
  prefix ++ h.

Definition anonymize_ids (env : environ) (series : list cell)
    (prefix : string) (length : Z) : list string :=
  let salt := getenv env "ANON_SALT" "hrtool" in
  map (fun c => _mask salt prefix length (str_of_cell c)) series.

End Anonymize.

End Utils.

(** ** modules/attendance_check.py *)

Module AttendanceCheck.

Import Utils.
Open Scope R_scope.

Definition REQ : list string := ["社員ID"; "日付"; "勤務時間h"; "残業時間h"]%string.

(** One attendance record once the four columns have been read. *)
Record AttRow : Type := mkAtt {
  emp : cell;            (* 社員ID *)
  date : timestamp;      (* 日付, after pd.to_datetime *)
  hours : pyfloat;       (* 勤務時間h *)
  overtime : pyfloat     (* 残業時間h *)
}.

(** *** z_anom

    The z-scores are float64 arithmetic, and their flags depend on its
    rounding, so this part computes with binary64 floats ([float], with
    their NaN): every operation below rounds as IEEE 754 prescribes.  The
    reductions are those of pandas.core.nanops (bottleneck not installed)
    on numpy's [add.reduce]. *)

(** The inner loop of numpy's [add.reduce] on a contiguous float64 array:
    pairwise summation, unrolled eight times. *)
Definition add8 (r b : list float) : list float :=
  map (fun p => (fst p + snd p)%float) (combine r b).

(** [for (i = 8; i < n - (n % 8); i += 8) r[j] += a[i + j]] *)
Fixpoint blocks8 (fuel : nat) (r a : list float) : list float * list float :=
  match fuel with
  | O => (r, a)
  | S fuel' =>
      if (8 <=? List.length a)%nat
      then blocks8 fuel' (add8 r (firstn 8 a)) (skipn 8 a)
      else (r, a)
  end.

(** [((r[0] + r[1]) + (r[2] + r[3])) + ((r[4] + r[5]) + (r[6] + r[7]))] *)
Definition tree8 (r : list float) : float :=
  match r with
  | [r0; r1; r2; r3; r4; r5; r6; r7] =>
      (((r0 + r1) + (r2 + r3)) + ((r4 + r5) + (r6 + r7)))%float
  | _ => 0%float
  end.

Fixpoint pairwise_sum (fuel : nat) (a : list float) : float :=
  let n := List.length a in
  if (n <? 8)%nat then fold_left PrimFloat.add a 0%float
  else if (n <=? 128)%nat then
    let '(r, rest) := blocks8 n (firstn 8 a) (skipn 8 a) in
    fold_left PrimFloat.add rest (tree8 r)
  else
    match fuel with
    | O => 0%float
    | S fuel' =>
        let n2 := (n / 2 - (n / 2) mod 8)%nat in
        (pairwise_sum fuel' (firstn n2 a) + pairwise_sum fuel' (skipn n2 a))%float
    end.

(** [values.sum(dtype=float64)] *)
Definition np_sum (a : list float) : float := pairwise_sum (List.length a) a.

(** nanops fills the missing entries with 0 before it sums, and counts the
    others. *)
Definition fill0 (v : float) : float :=
  if PrimFloat.is_nan v then 0%float else v.

Definition float_of_nat (n : nat) : float :=
  Nat.iter n (fun c => (c + 1)%float) 0%float.

Definition count (x : list float) : float :=
  float_of_nat (List.length (filter (fun v => negb (PrimFloat.is_nan v)) x)).

(** [x.mean()]: [the_sum / count if count > 0 else nan] *)
Definition mean (x : list float) : float :=
  let n := count x in
  if (0 <? n)%float then (np_sum (map fill0 x) / n)%float else PrimFloat.nan.

(** [nanvar(ddof=0)]: the two-pass population variance. *)
Definition var0 (x : list float) : float :=
  let n := count x in
  let n := if (n <=? 0)%float then PrimFloat.nan else n in
  let avg := (np_sum (map fill0 x) / n)%float in
  let sqr :=
    map (fun v => if PrimFloat.is_nan v then 0%float
                  else ((avg - v) * (avg - v))%float) x in
  (np_sum sqr / n)%float.

(** [x.std(ddof=0)] *)
Definition std0 (x : list float) : float := PrimFloat.sqrt (var0 x).

(** The outcome of [z_anom]: the flags, and the divisor of every division
    by the standard deviation that was carried out. *)
Record ZAnom : Type := mkZ { flags : list bool; divisors : list float }.

Definition z_anom (z_thresh : float) (x : list float) : ZAnom :=
  let m := mean x in
  let s := std0 x in
  if (s =? 0)%float then mkZ (map (fun _ => false) x) []
  else
    mkZ (map (fun v => (z_thresh <? (v - m) / s)%float) x)
        (map (fun _ => s) x).

(** *** longest_streak *)

Definition ns_per_day : Z := 86400000000000.

(** [(dt - prev).days]: whole days elapsed, rounded down; no value when
    either side is NaT. *)
Definition days_between (dt prev : timestamp) : option Z :=
  match dt, prev with
  | TS a, TS b => Some ((a - b) / ns_per_day)%Z
  | _, _ => None
  end.

(** [(dt - prev).days <= 1] *)
Definition days_le_1 (dt prev : timestamp) : bool :=
  match days_between dt prev with
  | Some d => (d <=? 1)%Z
  | None => false
  end.

(** [h > 0] *)
Definition worked (h : pyfloat) : bool := fgt h (Fin 0).

(** One turn of the loop: the state is [(current, prev)]. *)
Definition streak_step (st : Z * option timestamp)
    (row : timestamp * pyfloat) : Z * option timestamp :=
  let '(current, prev) := st in
  let '(dt, h) := row in
  let current :=
    if worked h && (match prev with
                    | None => true
                    | Some p => days_le_1 dt p
                    end)
    then (current + 1)%Z
    else if worked h then 1%Z
    else 0%Z in
  (current, Some dt).

Fixpoint streak_loop (st : Z * option timestamp)
    (rows : list (timestamp * pyfloat)) : list Z :=
  match rows with
  | [] => []
  | row :: rows' =>
      let st' := streak_step st row in
      fst st' :: streak_loop st' rows'
  end.

Definition longest_streak (dates : list timestamp) (hours : list pyfloat)
  : list Z :=
  streak_loop (0%Z, None) (combine dates hours).

(** [df["連続出勤日数"] >= streak_threshold]; the counter of a row that
    received none is NaN, and the comparison is false. *)
Definition streak_flag (streak_threshold : Z) (streak : option Z) : bool :=
  match streak with
  | Some s => (s >=? streak_threshold)%Z
  | None => false
  end.

(** *** Ordering, grouping *)

Fixpoint insert_by {A} (leb : A -> A -> bool) (x : A) (l : list A) : list A :=
  match l with
  | [] => [x]
  | y :: l' => if leb x y then x :: l else y :: insert_by leb x l'
  end.

(** A stable sort: equal keys keep their order. *)
Definition sort_by {A} (leb : A -> A -> bool) (l : list A) : list A :=
  fold_right (insert_by leb) [] l.

(** The order pandas gives the values of a key column: numbers (and
    timestamps) before text, missing values last.  A number and a
    timestamp cannot be compared; the order written between them here is
    never used, see [sortable]. *)
Definition cell_leb (a b : cell) : bool :=
  match a, b with
  | _, CNaN => true
  | CNaN, _ => false
  | CNum x, CNum y => Rleb x y
  | CTime t, CTime v => (t <=? v)%Z
  | CStr s, CStr u => String.leb s u
  | CNum _, CTime _ => true
  | CTime _, CNum _ => false
  | _, CStr _ => true
  | CStr _, _ => false
  end.

Definition ts_leb (a b : timestamp) : bool :=
  match a, b with
  | _, NaT => true
  | NaT, _ => false
  | TS x, TS y => (x <=? y)%Z
  end.

Definition is_number (c : cell) : bool :=
  match c with CNum _ => true | _ => false end.
Definition is_timestamp (c : cell) : bool :=
  match c with CTime _ => true | _ => false end.

(** Identifiers of several types are sorted by type (text after the
    rest); the sort raises TypeError only when it has to compare a number
    with a timestamp. *)
Definition sortable (ids : list cell) : bool :=
  negb (existsb is_number ids && existsb is_timestamp ids).

(** The order of [sort_values(["社員ID", "日付"])]. *)
Definition key_leb (k1 k2 : cell * timestamp) : bool :=
  if cell_eqb (fst k1) (fst k2) then ts_leb (snd k1) (snd k2)
  else cell_leb (fst k1) (fst k2).

Definition row_leb (r1 r2 : AttRow) : bool :=
  key_leb (emp r1, date r1) (emp r2, date r2).

(** The keys of [groupby("社員ID")]: the identifiers that are not
    missing, each once. *)
Fixpoint group_keys (rs : list AttRow) : list cell :=
  match rs with
  | [] => []
  | r :: rs' =>
      let ks := group_keys rs' in
      if isna (emp r) || existsb (cell_eqb (emp r)) ks then ks
      else emp r :: ks
  end.

(** The rows of the group of [k], in frame order. *)
Definition group_of (k : cell) (rs : list AttRow) : list AttRow :=
  filter (fun r => cell_eqb (emp r) k) rs.

(** A per-group function whose results are aligned back on the rows: row
    number [i] receives the entry of its own group's result at its rank
    within the group.  A row whose key is missing belongs to no group and
    receives nothing (NaN). *)
Fixpoint per_group_from {B} (f : list AttRow -> list B)
    (all before rest : list AttRow) : list (option B) :=
  match rest with
  | [] => []
  | r :: rest' =>
      (if isna (emp r) then None
       else nth_error (f (group_of (emp r) all))
                      (List.length (group_of (emp r) before)))
      :: per_group_from f all (before ++ [r]) rest'
  end.

(** [df.groupby("社員ID")[col].transform(f)] *)
Definition per_group {B} (f : list AttRow -> list B) (rs : list AttRow)
  : list (option B) :=
  per_group_from f rs [] rs.

(** [df[col] = df.groupby("社員ID").apply(f).reset_index(level=0, drop=True)]
    for an [f] that returns one value per row of the group, indexed like
    the group.  With two groups or more the results are concatenated and
    the assignment aligns them on the row labels, as [transform] does.
    With a single group pandas lays the one result out as a row of a wide
    frame: the assignment of a frame with several columns raises
    ValueError, and that of a frame with one column (a group of one row)
    aligns its only value on the row label 0.  Without any group the
    result is an empty frame with the columns of [df], and the assignment
    raises as well.  [labels] are the index labels of [rs]. *)
Definition assign_per_group {B} (f : list AttRow -> list B)
    (labels : list nat) (rs : list AttRow) : result (list (option B)) :=
  match group_keys rs with
  | [] => Raise LibraryError
  | [k] =>
      match group_of k rs with
      | [r] => Ok (map (fun l => if (l =? 0)%nat then nth_error (f [r]) 0
                                 else None) labels)
      | _ => Raise LibraryError
      end
  | _ :: _ :: _ => Ok (per_group f rs)
  end.

(** *** detect_attendance_anomalies *)

(** A numeric column as floats; text cannot be averaged or compared. *)
Definition as_float (c : cell) : result pyfloat :=
  match c with
  | CNum x => Ok (Fin x)
  | CNaN => Ok NaN
  | _ => Raise LibraryError
  end.

Fixpoint mapM {A B} (f : A -> result B) (l : list A) : result (list B) :=
  match l with
  | [] => Ok []
  | a :: l' => bind (f a) (fun b => bind (mapM f l') (fun bs => Ok (b :: bs)))
  end.

(** A row of the anomaly table ([show_cols]).  The z-score flag and the
    streak counter of a row that received none are missing (NaN). *)
Record Anomaly : Type := mkAnomaly {
  a_emp : cell;            (* 社員ID *)
  a_date : timestamp;      (* 日付 *)
  a_hours : pyfloat;       (* 勤務時間h *)
  a_overtime : pyfloat;    (* 残業時間h *)
  a_streak : option Z;     (* 連続出勤日数 *)
  a_z : option bool;       (* 異常_残業z *)
  a_long : bool;           (* 異常_長時間 *)
  a_run : bool             (* 異常_連続 *)
}.

Definition ts_eqb (a b : timestamp) : bool :=
  match a, b with
  | TS x, TS y => (x =? y)%Z
  | NaT, NaT => true
  | _, _ => false
  end.

Fixpoint Rsum (l : list R) : R :=
  match l with [] => 0 | x :: l' => x + Rsum l' end.

(** The values of a series that are not missing ([skipna=True]). *)
Fixpoint dropna (x : list pyfloat) : list R :=
  match x with
  | [] => []
  | Fin v :: x' => v :: dropna x'
  | NaN :: x' => dropna x'
  end.

(** [df.groupby("日付")["残業時間h"].sum()]: one total per date, by date. *)
Fixpoint distinct_dates (rs : list AttRow) : list Z :=
  match rs with
  | [] => []
  | r :: rs' =>
      match date r with
      | TS t => if existsb (Z.eqb t) (distinct_dates rs')
                then distinct_dates rs' else t :: distinct_dates rs'
      | NaT => distinct_dates rs'
      end
  end.

Definition overview (rs : list AttRow) : list (Z * R) :=
  map (fun t =>
         (t, Rsum (dropna (map overtime
                (filter (fun r => ts_eqb (date r) (TS t)) rs)))))
      (sort_by Z.leb (distinct_dates rs)).

(** [(df["異常_残業z"]) | (df["異常_長時間"]) | (df["異常_連続"])].  A
    missing entry on the left of [|] makes the result missing, and a
    missing result counts as False: a row without z-score flag is
    selected by its streak flag alone. *)
Definition is_anomaly (a : Anomaly) : bool :=
  (match a_z a with
   | Some z => z || a_long a
   | None => false
   end) || a_run a.

Section Detect.

Variable parse_datetime : cell -> option Z.

(** The binary64 value of a number.  Cells and thresholds hold float64
    values; the model writes them as the real numbers they stand for, and
    [f64] gives the float back where the code computes with it. *)
Variable f64 : R -> float.

Definition to_f64 (a : pyfloat) : float :=
  match a with Fin x => f64 x | NaN => PrimFloat.nan end.

Definition read_row (r : Row) : result AttRow :=
  bind (to_datetime parse_datetime (cell_at r "日付")) (fun d =>
  bind (as_float (cell_at r "勤務時間h")) (fun h =>
  bind (as_float (cell_at r "残業時間h")) (fun ot =>
  Ok (mkAtt (cell_at r "社員ID") d h ot)))).

(** One row of [df] with its four flag columns. *)
Definition flag_row (long_hours_threshold : R) (streak_threshold : Z)
    (e : AttRow * (option bool * option Z)) : Anomaly :=
  let '(r, (z, st)) := e in
  mkAnomaly (emp r) (date r) (hours r) (overtime r) st z
            (fge (hours r) (Fin long_hours_threshold))
            (streak_flag streak_threshold st).

(** [df] once the flag columns are assigned, and the overview series. *)
Definition flagged_frame (df : DataFrame) (z_thresh : R)
    (long_hours_threshold : R) (streak_threshold : Z)
  : result (list Anomaly * list (Z * R)) :=
  bind (ensure_columns df REQ) (fun _ =>
  bind (mapM read_row (rows df)) (fun rs =>
  if negb (sortable (map emp rs)) then Raise LibraryError else
  let irs :=
    sort_by (fun a b => row_leb (snd a) (snd b))
            (combine (seq 0 (List.length rs)) rs) in
  let labels := map fst irs in
  let rs := map snd irs in
  let fig := overview rs in
  let zflags :=
    per_group (fun g => flags (z_anom (f64 z_thresh)
                                 (map (fun r => to_f64 (overtime r)) g)))
              rs in
  bind (assign_per_group
          (fun g => longest_streak (map date g) (map hours g)) labels rs)
       (fun streaks =>
  Ok (map (flag_row long_hours_threshold streak_threshold)
          (combine rs (combine zflags streaks)), fig)))).

Definition detect_attendance_anomalies (df : DataFrame) (z_thresh : R)
    (long_hours_threshold : R) (streak_threshold : Z)
  : result (list Anomaly * list (Z * R)) :=
  bind (flagged_frame df z_thresh long_hours_threshold streak_threshold)
       (fun tf =>
  let anomalies := filter is_anomaly (fst tf) in
  Ok (sort_by (fun a b => key_leb (a_emp a, a_date a) (a_emp b, a_date b))
              anomalies, snd tf)).

End Detect.

End AttendanceCheck.

(** ** modules/risk_model.py *)

Module RiskModel.

Import Utils.
Open Scope R_scope.

Definition PREFERRED_FEATURES : list string :=
  ["年齢"; "勤続年数"; "平均残業時間h"; "有給取得率"; "評価(1-5)"; "昇給回数";
   "部署異動回数"]%string.

Section RuleBased.

(** The builtin [float(s)] on text: [None] when it raises ValueError. *)
Variable float_of_str : string -> option pyfloat.

(** The nested helper [get(col)]: [float(row.get(col))], or the default
    [None] when the conversion raises (absent label, unparseable text,
    a timestamp).  A missing cell is the float NaN and converts. *)
Definition get (row : Row) (col : string) : option pyfloat :=
  match row_get row col with
  | None => None
  | Some (CNum x) => Some (Fin x)
  | Some CNaN => Some NaN
  | Some (CStr s) => float_of_str s
  | Some (CTime _) => None
  end.

(** [w * min(max(norm(v), 0), 1)], appended when [v] is not [None]. *)
Definition contribution (w : R) (norm : R -> R) (v : option pyfloat)
  : list pyfloat :=
  match v with
  | None => []
  | Some a => [fmul (Fin w) (py_min (py_max (flift1 norm a) (Fin 0)) (Fin 1))]
  end.

(** The builtin [sum]. *)
Definition py_sum (l : list pyfloat) : pyfloat := fold_left fadd l (Fin 0).

Definition contributions (row : Row) : list pyfloat :=
  let tenure := get row "勤続年数" in
  let age := get row "年齢" in
  let ot := get row "平均残業時間h" in
  let pto := get row "有給取得率" in
  let rating := get row "評価(1-5)" in
  let raises := get row "昇給回数" in
  let moves := get row "部署異動回数" in
  contribution (-0.10) (fun v => v / 10) tenure
  ++ contribution (-0.05) (fun v => (v - 20) / 30) age
  ++ contribution 0.18 (fun v => v / 60) ot
  ++ contribution (-0.20) (fun v => v / 100) pto
  ++ contribution (-0.25) (fun v => (v - 1) / 4) rating
  ++ contribution (-0.10) (fun v => v / 5) raises
  ++ contribution 0.08 (fun v => v / 3) moves.

Definition rule_based_score (row : Row) : pyfloat :=
  let cs := contributions row in
  let x := match cs with [] => Fin 0 | _ => py_sum cs end in
  let prob := flift1 (fun x => 1 / (1 + exp (- (x * 3)))) x in
  clip01 prob.

End RuleBased.

(** A row of the result table. *)
Record RiskResult : Type := mkRisk {
  r_emp : cell;                    (* 社員ID *)
  r_prob : pyfloat;                (* 離職確率(%) *)
  r_tier : option Tier;            (* リスク区分 *)
  r_refs : list (string * cell)    (* carried-through reference columns *)
}.

(** [pd.DataFrame({a: ids, b: probs})] on two positionally indexed series:
    the index is the union, an absent entry is missing. *)
Fixpoint zip_outer (ids : list cell) (ps : list pyfloat)
  : list (cell * pyfloat) :=
  match ids, ps with
  | [], [] => []
  | i :: ids', [] => (i, NaN) :: zip_outer ids' []
  | [], p :: ps' => (CNaN, p) :: map (fun q => (CNaN, q)) ps'
  | i :: ids', p :: ps' => (i, p) :: zip_outer ids' ps'
  end.

(** [np.arange(1, n + 1)] *)
Definition arange1 (n : nat) : list cell :=
  map (fun i => CNum (INR i)) (seq 1 n).

(** [result.merge(right, on="社員ID", how="left")]: every left row, in
    order, once per right row with the same key, or once with missing
    reference values when there is none. *)
Definition merge_left (left : list RiskResult)
    (right : list (cell * list (string * cell))) (ref_cols : list string)
  : list RiskResult :=
  flat_map (fun l =>
    match filter (fun r => cell_eqb (fst r) (r_emp l)) right with
    | [] => [mkRisk (r_emp l) (r_prob l) (r_tier l)
               (map (fun c => (c, CNaN)) ref_cols)]
    | ms => map (fun r => mkRisk (r_emp l) (r_prob l) (r_tier l) (snd r)) ms
    end) left.

(** Descending order of probability, missing values last. *)
Definition prob_geb (a b : RiskResult) : bool :=
  match r_prob a, r_prob b with
  | _, NaN => true
  | NaN, _ => false
  | Fin x, Fin y => Rleb y x
  end.

(** The row as [DataFrame.apply(axis=1)] passes it: the frame's columns. *)
Definition row_view (df : DataFrame) (r : Row) : Row :=
  filter (fun kv => has_column df (fst kv)) r.

Definition default_bins : list R := tier_bins 40 70.

Section Predict.

Variable float_of_str : string -> option pyfloat.

(** The fitted pipeline: [train_test_split], [Pipeline.fit] and
    [predict_proba(df[feature_cols])[:, 1]] with [y = df["attrition"]];
    any of these may raise. *)
Variable logreg_proba : list string -> DataFrame -> result (list pyfloat).

Definition ref_candidates : list string :=
  ["勤続年数"; "平均残業時間h"; "有給取得率"; "評価(1-5)"]%string.

Definition predict_attrition (df : DataFrame)
  : result (list RiskResult * string) :=
  let has_label := has_column df "attrition" in
  let feature_cols := filter (has_column df) PREFERRED_FEATURES in
  bind (if has_label && (0 <? List.length feature_cols)%nat
        then bind (logreg_proba feature_cols df) (fun p =>
               Ok (p, ("LogReg(" ++ str_of_nat (List.length feature_cols)
                         ++ "f)")%string))
        else Ok (map (fun r => rule_based_score float_of_str (row_view df r))
                     (rows df), "Rule-Based"%string))
  (fun pm =>
  let '(proba, model_name) := pm in
  let ids := if has_column df "社員ID" then column df "社員ID"
             else arange1 (List.length (rows df)) in
  let pct := map (fun p => np_round1 (fmul p (Fin 100))) proba in
  let base := zip_outer ids pct in
  bind (cut (map snd base) default_bins tier_labels) (fun tiers =>
  let result :=
    map (fun e => mkRisk (fst (fst e)) (snd (fst e)) (snd e) [])
        (combine base tiers) in
  let ref_cols := filter (has_column df) ref_candidates in
  let result :=
    match ref_cols with
    | [] => result
    | _ =>
        merge_left result
          (combine ids
             (map (fun r => map (fun c => (c, cell_at r c)) ref_cols)
                  (rows df)))
          ref_cols
    end in
  Ok (AttendanceCheck.sort_by prob_geb result, model_name))).

End Predict.

End RiskModel.

(** ** app.py: the re-bucketing pass of the risk tab *)

Module App.

Import RiskModel.

(** The thresholds after the adjustment [if _med >= _high: _med = _high - 1]. *)
Definition effective_thresholds (attr_med_thr attr_high_thr : Z) : Z * Z :=
  let _high := attr_high_thr in
  let _med := attr_med_thr in
  let _med := if (_med >=? _high)%Z then (_high - 1)%Z else _med in
  (_med, _high).

(** [result_df["リスク区分"] = pd.cut(..., bins=[-0.1, _med, _high, 100], ...)] *)
Definition rebucket (result_df : list RiskResult)
    (attr_med_thr attr_high_thr : Z) : result (list RiskResult) :=
  let '(_med, _high) := effective_thresholds attr_med_thr attr_high_thr in
  bind (cut (map r_prob result_df) (tier_bins (IZR _med) (IZR _high))
            tier_labels) (fun tiers =>
  Ok (map (fun e => mkRisk (r_emp (fst e)) (r_prob (fst e)) (snd e)
                           (r_refs (fst e)))
          (combine result_df tiers))).

(** The KPI counters of the same tab. *)
Definition high_cnt (result_df : list RiskResult) (_high : Z) : nat :=
  List.length (filter (fun r => fge (r_prob r) (Fin (IZR _high))) result_df).
Definition med_cnt (result_df : list RiskResult) (_med _high : Z) : nat :=
  List.length (filter (fun r => fge (r_prob r) (Fin (IZR _med))
                                && flt (r_prob r) (Fin (IZR _high)))
                      result_df).

End App.

(** ** modules/utils.py: column-name mapping *)

Module Mapping.

Import Utils.
Open Scope string_scope.

(** A dict with string keys, in insertion order. *)
Definition dict (V : Type) := list (string * V).

Fixpoint dict_get {V} (d : dict V) (k : string) : option V :=
  match d with
  | [] => None
  | (k', v) :: d' => if String.eqb k' k then Some v else dict_get d' k
  end.

(** [d[k] = v]: an existing key keeps its place. *)
Fixpoint dict_set {V} (d : dict V) (k : string) (v : V) : dict V :=
  match d with
  | [] => [(k, v)]
  | (k', v') :: d' =>
      if String.eqb k' k then (k', v) :: d' else (k', v') :: dict_set d' k v
  end.

(** [s.replace(pat, "")] for a non-empty [pat]: the occurrences are
    removed from left to right; [skip] counts the characters of the
    current occurrence still to drop. *)
Fixpoint remove_from (pat : string) (skip : nat) (s : string) : string :=
  match s with
  | EmptyString => EmptyString
  | String c s' =>
      match skip with
      | S k => remove_from pat k s'
      | O => if prefix pat s
             then remove_from pat (String.length pat - 1) s'
             else String c (remove_from pat 0 s')
      end
  end.

Definition remove (pat s : string) : string := remove_from pat 0 s.

(** [pat in s] *)
Fixpoint contains (pat s : string) : bool :=
  prefix pat s
  || match s with
     | EmptyString => false
     | String _ s' => contains pat s'
     end.

Definition tab : string := String (Ascii.ascii_of_nat 9) EmptyString.
Definition newline : string := String (Ascii.ascii_of_nat 10) EmptyString.

(** The characters [_normalize_name] drops. *)
Definition dropped : list string :=
  [" "; tab; newline; "("; ")"; "％"; "%"; "-"; "_"; ":"; "・"; "h"].

Section Names.

(** The builtins [str.strip] and [str.lower]. *)
Variable py_strip : string -> string.
Variable py_lower : string -> string.

Definition _normalize_name (name : string) : string :=
  let s := py_lower (py_strip name) in
  fold_left (fun s ch => remove ch s) dropped s.

Definition synonyms (domain : string) : dict (list string) :=
  if String.eqb domain "hr" then
    [("社員ID", ["社員id"; "従業員id"; "従業員番号"; "社員番号"; "id"]);
     ("年齢", ["age"]);
     ("勤続年数", ["勤続"; "在籍年数"; "yearsinaservice"]);
     ("平均残業時間h", ["平均残業"; "残業時間"; "ot"; "overtime"]);
     ("有給取得率", ["有給率"; "有休取得率"; "有休率"; "pto"; "vacationrate"]);
     ("評価(1-5)", ["評価"; "レーティング"; "rating"; "評価スコア"]);
     ("昇給回数", ["昇給"; "昇給回"; "賃上げ回数"]);
     ("部署異動回数", ["異動回数"; "部署異動"; "ローテ回数"])]
  else
    [("社員ID", ["社員id"; "従業員id"; "従業員番号"; "社員番号"; "id"]);
     ("日付", ["年月日"; "date"; "日"]);
     ("勤務時間h", ["勤務時間"; "実働時間"; "労働時間"; "稼働時間"]);
     ("残業時間h", ["残業時間"; "ot"; "overtime"; "超過時間"])].

(** Truth value of a string: the empty string is false. *)
Definition truthy (s : string) : bool := negb (String.eqb s "").

Definition hit_truthy (hit : option string) : bool :=
  match hit with Some h => truthy h | None => false end.

(** [{col: _normalize_name(col) for col in actual_columns}] *)
Definition norm_actual (actual_columns : list string) : dict string :=
  fold_left (fun d col => dict_set d col (_normalize_name col))
            actual_columns [].

(** First pass: the first column whose normalised name is that of [req]. *)
Fixpoint exact_hit (req_norm : string) (items : dict string) : option string :=
  match items with
  | [] => None
  | (col, ncol) :: rest =>
      if String.eqb ncol req_norm then Some col else exact_hit req_norm rest
  end.

(** Second pass: a synonym equal to, or contained in, the normalised
    column name.  The outer loop stops on a hit whose name is truthy. *)
Fixpoint synonym_hit (syns : list string) (items : dict string)
    (hit : option string) : option string :=
  match items with
  | [] => hit
  | (col, ncol) :: rest =>
      let hit :=
        if existsb (fun syn =>
                      String.eqb ncol (_normalize_name syn)
                      || contains (_normalize_name syn) ncol) syns
        then Some col else hit in
      if hit_truthy hit then hit else synonym_hit syns rest hit
  end.

(** Third pass: the normalised required name contained in the column's. *)
Fixpoint partial_hit (req_norm : string) (items : dict string) : option string :=
  match items with
  | [] => None
  | (col, ncol) :: rest =>
      if contains req_norm ncol then Some col else partial_hit req_norm rest
  end.

Definition find_hit (items : dict string) (syn : dict (list string))
    (req : string) : option string :=
  let req_norm := _normalize_name req in
  let hit := exact_hit req_norm items in
  let hit :=
    match hit with
    | None =>
        synonym_hit (match dict_get syn req with Some l => l | None => [] end)
                    items None
    | Some _ => hit
    end in
  match hit with
  | None => partial_hit req_norm items
  | Some _ => hit
  end.

Definition suggest_column_mapping (actual_columns required : list string)
    (domain : string) : dict string :=
  let items := norm_actual actual_columns in
  let syn := synonyms domain in
  fold_left (fun mapping req =>
               match find_hit items syn req with
               | Some h => if truthy h then dict_set mapping req h else mapping
               | None => mapping
               end) required [].

End Names.

(** [{actual: req for req, actual in mapping.items() if actual in df.columns}] *)
Definition rename_dict (df : DataFrame) (mapping_req_to_actual : dict string)
  : dict string :=
  fold_left (fun ren e =>
               if has_column df (snd e) then dict_set ren (snd e) (fst e)
               else ren) mapping_req_to_actual [].

(** [df.rename(columns=ren)]: every label with an entry is replaced. *)
Definition rename_label (ren : dict string) (c : string) : string :=
  match dict_get ren c with Some n => n | None => c end.

Definition rename_columns (df : DataFrame) (ren : dict string) : DataFrame :=
  mkDF (map (rename_label ren) (columns df))
       (map (map (fun kv => (rename_label ren (fst kv), snd kv))) (rows df)).

Definition apply_column_mapping (df : DataFrame)
    (mapping_req_to_actual : dict string) : DataFrame :=
  let ren := rename_dict df mapping_req_to_actual in
  match ren with
  | [] => df
  | _ => rename_columns df ren
  end.

End Mapping.

(** ** modules/report.py

    The two builders are modelled by the calls they make on the reportlab
    canvas, in order; positions are in millimetres.  The bytes reportlab
    makes of these calls are not modelled. *)

Module Report.

Import Utils AttendanceCheck RiskModel.
Open Scope string_scope.
Open Scope Z_scope.

Inductive op : Type :=
| SetFont (name : string) (size : Z)
| DrawString (x y : Z) (text : string)
| ShowPage
| Save.

(** The listing loop shared by the two builders:
    [c.drawString(20*mm, y*mm, line); y -= 6;
     if y < 20: c.showPage(); y = 280]. *)
Fixpoint draw_lines (lines : list string) (y : Z) : list op :=
  match lines with
  | [] => []
  | line :: rest =>
      let y' := y - 6 in
      DrawString 20 y line
      :: (if y' <? 20 then ShowPage :: draw_lines rest 280
          else draw_lines rest y')
  end.

Section Pdf.

(** What [_register_jp_font()] returns on the machine, and
    [datetime.now().strftime('%Y-%m-%d %H:%M')]. *)
Variable font_name : string.
Variable generated : string.

(** The f-string of one listed row; it raises when the row lacks a column
    it prints, or a value does not convert. *)
Variable attrition_line : RiskResult -> result string.
Variable attendance_line : Anomaly -> result string.

Variable str_of_cell : cell -> string.
Variable sha256_hexdigest : string -> string.
Variable env : environ.

Definition _header (title : string) : list op :=
  [SetFont font_name 14; DrawString 20 285 title;
   SetFont font_name 9; DrawString 20 280 ("Generated: " ++ generated)].

Definition build_pdf_attrition (df : list RiskResult) (model : option string)
    (high_threshold med_threshold : Z) (anonymize : bool)
  : result (list op) :=
  let high :=
    List.length
      (filter (fun r => fge (r_prob r) (Fin (IZR high_threshold))) df) in
  let med :=
    List.length
      (filter (fun r => fge (r_prob r) (Fin (IZR med_threshold))
                        && flt (r_prob r) (Fin (IZR high_threshold))) df) in
  let show_df :=
    if anonymize
    then map (fun e => mkRisk (CStr (snd e)) (r_prob (fst e)) (r_tier (fst e))
                              (r_refs (fst e)))
             (combine df (anonymize_ids str_of_cell sha256_hexdigest env
                            (map r_emp df) "ID_" 8))
    else df in
  bind (mapM attrition_line (firstn 10 (sort_by prob_geb show_df)))
       (fun lines =>
  Ok (_header "離職リスクレポート"
      ++ [SetFont font_name 10;
          DrawString 20 270
            ("モデル: " ++ match model with Some m => m | None => "N/A" end);
          DrawString 20 262 ("従業員数: " ++ str_of_nat (List.length df));
          DrawString 20 254
            ("High: " ++ str_of_nat high ++ " / Medium: " ++ str_of_nat med);
          SetFont font_name 10;
          DrawString 20 240 "上位リスク（Top 10）";
          SetFont font_name 9]
      ++ draw_lines lines 234
      ++ [ShowPage; Save])%list).

Definition build_pdf_attendance (df : list Anomaly) (anonymize : bool)
  : result (list op) :=
  let long_cnt := List.length (filter a_long df) in
  let streak_cnt := List.length (filter a_run df) in
  let show_df :=
    if anonymize
    then map (fun e => mkAnomaly (CStr (snd e)) (a_date (fst e))
                         (a_hours (fst e)) (a_overtime (fst e))
                         (a_streak (fst e)) (a_z (fst e)) (a_long (fst e))
                         (a_run (fst e)))
             (combine df (anonymize_ids str_of_cell sha256_hexdigest env
                            (map a_emp df) "ID_" 8))
    else df in
  bind (mapM attendance_line (firstn 20 show_df)) (fun lines =>
  Ok (_header "勤怠異常レポート"
      ++ [SetFont font_name 10;
          DrawString 20 270 ("検出件数: " ++ str_of_nat (List.length df));
          DrawString 20 262
            ("長時間勤務フラグ: " ++ str_of_nat long_cnt
             ++ " / 連続勤務フラグ: " ++ str_of_nat streak_cnt);
          SetFont font_name 10;
          DrawString 20 248 "異常一覧（最大20件）";
          SetFont font_name 9]
      ++ draw_lines lines 242
      ++ [ShowPage; Save])%list).

End Pdf.

End Report.

(** ** Vocabulary of the specification *)

Module Spec.

(** The largest numeric value observed in a coerced series, NaN if it has
    none. *)
Definition observed_max (s : list pyfloat) : pyfloat :=
  Utils.series_max (AttendanceCheck.dropna s).

(** A coerced value that is a number below [lo] or above [hi]; NaN is
    not. *)
Definition outside (lo hi : R) (v : pyfloat) : bool :=
  flt v (Fin lo) || fgt v (Fin hi).

(** A float that is NaN or lies in an interval. *)
Definition within (lo hi : R) (c : pyfloat) : Prop :=
  match c with NaN => True | Fin y => (lo <= y <= hi)%R end.

(** Two floats are both NaN, or both numbers with the first not above the
    second. *)
Definition not_above (c1 c2 : pyfloat) : Prop :=
  match c1, c2 with
  | NaN, NaN => True
  | Fin a, Fin b => (a <= b)%R
  | _, _ => False
  end.

(** The row is labelled High. *)
Definition labelled_high (r : RiskModel.RiskResult) : bool :=
  match RiskModel.r_tier r with Some High => true | _ => false end.

(** The probability of the row is exactly [p]. *)
Definition prob_is (p : R) (r : RiskModel.RiskResult) : bool :=
  feq (RiskModel.r_prob r) (Fin p).

(** The calendar day a timestamp falls on, as a day number. *)
Definition day_of (ns : Z) : Z := (ns / AttendanceCheck.ns_per_day)%Z.

(** [prev] is dated exactly one calendar day before [dt]. *)
Definition one_day_earlier (prev dt : Utils.timestamp) : Prop :=
  match prev, dt with
  | Utils.TS p, Utils.TS d => day_of d = (day_of p + 1)%Z
  | _, _ => False
  end.

(** The number of pages a sequence of canvas calls produces. *)
Definition pages (ops : list Report.op) : nat :=
  List.length (filter (fun o => match o with Report.ShowPage => true
                                           | _ => false end) ops).

(** Every text of the sequence is drawn at the left margin, between the
    heights [lo] and [hi]. *)
Definition drawn_within (lo hi : Z) (ops : list Report.op) : Prop :=
  Forall (fun o => match o with
                   | Report.DrawString x y _ => x = 20%Z /\ (lo <= y <= hi)%Z
                   | _ => True
                   end) ops.

(** What the specification says of the counter of row [i] of one
    employee's rows in date order, [s] being the counters of these rows:
    the row, dated [dt] with hours [h], is worked exactly when its hours
    are a number above 0; not worked, its counter is 0; worked and first,
    1; worked and dated the calendar day after the row before it, that
    row's counter plus 1; worked and more than one whole day after the row
    before it, 1; and the threshold is reached exactly when the long-streak
    flag holds. *)
Definition counter_rule (rows : list (Utils.timestamp * pyfloat))
    (s : list Z) (streak_threshold : Z) (i : nat) (dt : Utils.timestamp)
    (h : pyfloat) : Prop :=
  let cur := nth i s 0%Z in
  (AttendanceCheck.worked h = true <-> exists x, h = Fin x /\ (0 < x)%R)
  /\ (AttendanceCheck.worked h = false -> cur = 0%Z)
  /\ (AttendanceCheck.worked h = true -> i = 0%nat -> cur = 1%Z)
  /\ (AttendanceCheck.worked h = true ->
      forall j p hp, i = S j -> nth_error rows j = Some (p, hp) ->
        one_day_earlier p dt -> cur = (nth j s 0 + 1)%Z)
  /\ (AttendanceCheck.worked h = true ->
      forall j p hp d, i = S j -> nth_error rows j = Some (p, hp) ->
        AttendanceCheck.days_between dt p = Some d -> (1 < d)%Z ->
        cur = 1%Z)
  /\ (AttendanceCheck.streak_flag streak_threshold (Some cur) = true
      <-> (streak_threshold <= cur)%Z).

(** Midnight of day number [d]. *)
Definition midnight (d : Z) : Utils.timestamp :=
  Utils.TS (d * AttendanceCheck.ns_per_day).

End Spec.

Import Spec.

(** * Properties *)

Unset Implicit Arguments.

(** ** Deciding comparisons of reals *)

Section Comparisons.

Open Scope R_scope.

Lemma Rltb_true (x y : R) : Rltb x y = true <-> x < y.
Proof. unfold Rltb; destruct (Rlt_dec x y); split; intros; auto; discriminate. Qed.

Lemma Rltb_false (x y : R) : Rltb x y = false <-> y <= x.
Proof.
  unfold Rltb; destruct (Rlt_dec x y); split; intros; auto; try discriminate; lra.
Qed.

Lemma Rleb_true (x y : R) : Rleb x y = true <-> x <= y.
Proof. unfold Rleb; destruct (Rle_dec x y); split; intros; auto; discriminate. Qed.

Lemma Rleb_false (x y : R) : Rleb x y = false <-> y < x.
Proof.
  unfold Rleb; destruct (Rle_dec x y); split; intros; auto; try discriminate; lra.
Qed.

Lemma Reqb_true (x y : R) : Reqb x y = true <-> x = y.
Proof. unfold Reqb; destruct (Req_dec_T x y); split; intros; auto; discriminate. Qed.

Lemma Reqb_false (x y : R) : Reqb x y = false <-> x <> y.
Proof.
  unfold Reqb; destruct (Req_dec_T x y); split; intros; auto; try discriminate.
  contradiction.
Qed.

End Comparisons.

(** Settles every comparison of reals in the goal whose outcome linear
    arithmetic decides. *)
Ltac rcases :=
  repeat match goal with
  | |- context [Rltb ?a ?b] =>
      let H := fresh "H" in
      destruct (Rltb a b) eqn:H;
      [apply Rltb_true in H | apply Rltb_false in H]; try lra
  | |- context [Rleb ?a ?b] =>
      let H := fresh "H" in
      destruct (Rleb a b) eqn:H;
      [apply Rleb_true in H | apply Rleb_false in H]; try lra
  | |- context [Reqb ?a ?b] =>
      let H := fresh "H" in
      destruct (Reqb a b) eqn:H;
      [apply Reqb_true in H | apply Reqb_false in H]; try lra
  end.

(** ** Risk tiers *)

Section TierProperties.

Open Scope R_scope.

(** What [pandas.cut] does with the edges [-0.1 < med < high < 100]: the
    intervals are closed on the right, so a probability equal to an edge
    falls in the tier below it. *)
Lemma cut1_tier_bins (med high x : R) :
  -(1/10) < med -> med < high -> high < 100 ->
  cut1 (tier_bins med high) tier_labels (Fin x) =
    if Rleb x (-(1/10)) then None
    else if Rleb x med then Some Low
    else if Rleb x high then Some Medium
    else if Rleb x 100 then Some High
    else None.
Proof.
  intros Hm Hh Hc. unfold cut1, tier_bins, searchsorted_left. simpl filter.
  rcases; try reflexivity.
Qed.

Lemma increasing_tier_bins (med high : R) :
  -(1/10) < med -> med < high -> high < 100 ->
  increasing (tier_bins med high) = true.
Proof.
  intros. unfold tier_bins. simpl. rcases; try reflexivity.
Qed.

Lemma increasing_default_bins : increasing RiskModel.default_bins = true.
Proof. apply increasing_tier_bins; lra. Qed.

End TierProperties.

(** C1 (the code departs from it).  The claim puts a probability equal to a
    threshold in the upper tier.  With the default edges of
    [predict_attrition] and with the re-bucketing pass of the risk tab at
    the thresholds (40, 70), the probabilities 40.0 and 70.0 are labelled
    Low and Medium, while the KPI counters of the same tab count the row at
    70.0 as High and the row at 40.0 as Medium. *)
Theorem tier_boundary_falls_in_lower_tier :
  cut [Fin 40; Fin 70] RiskModel.default_bins tier_labels
    = Ok [Some Low; Some Medium]
  /\ App.rebucket [RiskModel.mkRisk (CNum 1) (Fin 40) None [];
                   RiskModel.mkRisk (CNum 2) (Fin 70) None []] 40 70
     = Ok [RiskModel.mkRisk (CNum 1) (Fin 40) (Some Low) [];
           RiskModel.mkRisk (CNum 2) (Fin 70) (Some Medium) []]
  /\ App.high_cnt [RiskModel.mkRisk (CNum 2) (Fin 70) (Some Medium) []] 70
     = 1%nat
  /\ App.med_cnt [RiskModel.mkRisk (CNum 1) (Fin 40) (Some Low) []] 40 70
     = 1%nat.
Proof.
  assert (Hcut : cut [Fin 40; Fin 70] RiskModel.default_bins tier_labels
                 = Ok [Some Low; Some Medium]).
  { unfold cut. rewrite increasing_default_bins.
    unfold RiskModel.default_bins. cbn [map].
    rewrite !cut1_tier_bins by lra. rcases; try reflexivity. }
  split; [exact Hcut|]. split.
  - unfold App.rebucket, App.effective_thresholds.
    change (40 >=? 70)%Z with false. cbv iota beta.
    cbn [map RiskModel.r_prob]. unfold RiskModel.default_bins in Hcut.
    rewrite Hcut. reflexivity.
  - split.
    + unfold App.high_cnt. simpl. unfold fge, fle. rcases; try reflexivity.
    + unfold App.med_cnt. simpl. unfold fge, fle, flt. rcases; try reflexivity.
Qed.

(** C5.  When the medium threshold supplied is not below the high one, the
    medium edge used by the re-bucketing pass is [high - 1]; the edges
    applied are then [-0.1, high - 1, high, 100], with medium < high. *)
Theorem rebucket_effective_medium (attr_med_thr attr_high_thr : Z)
    (H : (attr_med_thr >= attr_high_thr)%Z) :
  App.effective_thresholds attr_med_thr attr_high_thr
    = ((attr_high_thr - 1)%Z, attr_high_thr)
  /\ (fst (App.effective_thresholds attr_med_thr attr_high_thr)
      < snd (App.effective_thresholds attr_med_thr attr_high_thr))%Z
  /\ forall result_df,
       App.rebucket result_df attr_med_thr attr_high_thr
       = bind (cut (map RiskModel.r_prob result_df)
                   (tier_bins (IZR (attr_high_thr - 1)) (IZR attr_high_thr))
                   tier_labels)
              (fun tiers =>
                 Ok (map (fun e => RiskModel.mkRisk (RiskModel.r_emp (fst e))
                                     (RiskModel.r_prob (fst e)) (snd e)
                                     (RiskModel.r_refs (fst e)))
                         (combine result_df tiers))).
Proof.
  assert (E : App.effective_thresholds attr_med_thr attr_high_thr
              = ((attr_high_thr - 1)%Z, attr_high_thr)).
  { unfold App.effective_thresholds.
    destruct (attr_med_thr >=? attr_high_thr)%Z eqn:G; [reflexivity|].
    rewrite Z.geb_leb in G. apply Z.leb_gt in G. lia. }
  split; [exact E|]. split.
  - rewrite E. simpl. lia.
  - intros result_df. unfold App.rebucket. rewrite E. reflexivity.
Qed.

Lemma rebucket_effective_medium_witness :
  (80 >= 70)%Z
  /\ App.effective_thresholds 80%Z 70%Z = (69%Z, 70%Z)
  /\ (fst (App.effective_thresholds 80%Z 70%Z)
      < snd (App.effective_thresholds 80%Z 70%Z))%Z.
Proof.
  assert (H : (80 >= 70)%Z) by lia.
  destruct (rebucket_effective_medium 80%Z 70%Z H) as [E [L _]].
  split; [exact H|]. split; [exact E | exact L].
Defined.

(** On the ranges of the two sliders (medium 20 to 90, high 50 to 95) the
    edges applied increase strictly, so the re-bucketing pass returns. *)
Lemma rebucket_returns_on_slider_ranges
    (result_df : list RiskModel.RiskResult) (attr_med_thr attr_high_thr : Z) :
  (20 <= attr_med_thr <= 90)%Z -> (50 <= attr_high_thr <= 95)%Z ->
  exists out, App.rebucket result_df attr_med_thr attr_high_thr = Ok out
              /\ List.length out = List.length result_df.
Proof.
  intros Hm Hh. unfold App.rebucket, App.effective_thresholds.
  set (m := if (attr_med_thr >=? attr_high_thr)%Z
            then (attr_high_thr - 1)%Z else attr_med_thr).
  assert (Hlt : (20 <= m < attr_high_thr)%Z).
  { unfold m. destruct (attr_med_thr >=? attr_high_thr)%Z eqn:G; [lia|].
    rewrite Z.geb_leb in G. apply Z.leb_gt in G. lia. }
  unfold cut. rewrite increasing_tier_bins.
  - cbn [bind]. eexists. split; [reflexivity|].
    rewrite length_map, length_combine, !length_map. lia.
  - apply Rlt_le_trans with (IZR 20); [lra|]. apply IZR_le. lia.
  - apply IZR_lt. lia.
  - apply Rlt_trans with (IZR 96); [|lra]. apply IZR_lt. lia.
Qed.

(** ** Required columns *)

Section MissingColumns.

Import Utils AttendanceCheck.

Lemma missing_columns_spec (df : DataFrame) (required : list string) (c : string) :
  In c (missing_columns df required)
  <-> In c required /\ has_column df c = false.
Proof.
  unfold missing_columns. rewrite filter_In.
  destruct (has_column df c); simpl; intuition congruence.
Qed.

Lemma ensure_columns_raises (df : DataFrame) (required : list string) :
  missing_columns df required <> [] ->
  ensure_columns df required
  = Raise (ValueError (missing_message (missing_columns df required))).
Proof.
  unfold ensure_columns. destruct (missing_columns df required); congruence.
Qed.

End MissingColumns.

(** C6.  If a required column is absent from the attendance frame,
    [detect_attendance_anomalies] raises the missing-columns error; its
    message lists the required columns the frame lacks, those and no
    others, and no anomaly table or overview is returned. *)
Theorem detect_missing_columns_error
    (parse_datetime : cell -> option Z) (f64 : R -> float) (df : DataFrame)
    (z_thresh long_hours_threshold : R) (streak_threshold : Z)
    (H : exists c, In c AttendanceCheck.REQ /\ has_column df c = false) :
  AttendanceCheck.detect_attendance_anomalies parse_datetime f64 df z_thresh
      long_hours_threshold streak_threshold
  = Raise (ValueError
      (Utils.missing_message (Utils.missing_columns df AttendanceCheck.REQ)))
  /\ (forall c, In c (Utils.missing_columns df AttendanceCheck.REQ)
                <-> In c AttendanceCheck.REQ /\ has_column df c = false)
  /\ (forall out,
        AttendanceCheck.detect_attendance_anomalies parse_datetime f64 df
          z_thresh long_hours_threshold streak_threshold <> Ok out).
Proof.
  destruct H as [c Hc].
  assert (Hne : Utils.missing_columns df AttendanceCheck.REQ <> []).
  { intro E. apply (proj2 (missing_columns_spec df AttendanceCheck.REQ c)) in Hc.
    rewrite E in Hc. exact Hc. }
  assert (E : AttendanceCheck.detect_attendance_anomalies parse_datetime f64 df
                z_thresh long_hours_threshold streak_threshold
              = Raise (ValueError (Utils.missing_message
                         (Utils.missing_columns df AttendanceCheck.REQ)))).
  { unfold AttendanceCheck.detect_attendance_anomalies,
      AttendanceCheck.flagged_frame.
    rewrite (ensure_columns_raises df AttendanceCheck.REQ Hne). reflexivity. }
  split; [exact E|]. split.
  - intro c'. apply missing_columns_spec.
  - intros out. rewrite E. discriminate.
Qed.

(** A frame without the overtime column: the message names that column. *)
Lemma detect_missing_columns_error_witness :
  let df := mkDF ["社員ID"; "日付"; "勤務時間h"]%string
                 [[("社員ID", CNum 1); ("日付", CTime 0);
                   ("勤務時間h", CNum 8)]%string] in
  AttendanceCheck.detect_attendance_anomalies (fun _ => None)
    (fun _ => 0%float) df 2 11 12
  = Raise (ValueError "必須カラムが不足しています: ['残業時間h']").
Proof.
  intro df.
  assert (H : exists c, In c AttendanceCheck.REQ /\ has_column df c = false).
  { exists "残業時間h"%string. split; [simpl; tauto | reflexivity]. }
  exact (proj1 (detect_missing_columns_error (fun _ => None) (fun _ => 0%float)
                  df 2 11 12%Z H)).
Defined.

(** ** Rescaling of the paid-leave column *)

Section Rescale.

Import Utils.
Open Scope R_scope.

Variable numeric_of_str : string -> option R.

Lemma fold_Rmax_ge_init (l : list R) (x : R) : x <= fold_left Rmax l x.
Proof.
  revert x. induction l as [|y l IH]; intros x; simpl; [lra|].
  eapply Rle_trans; [apply (Rmax_l x y) | apply IH].
Qed.

Lemma fold_Rmax_upper (l : list R) (x y : R) :
  In y (x :: l) -> y <= fold_left Rmax l x.
Proof.
  revert x. induction l as [|z l IH]; intros x [E|I]; simpl.
  - subst; lra.
  - destruct I.
  - subst. eapply Rle_trans; [apply (Rmax_l y z) | apply fold_Rmax_ge_init].
  - destruct I as [E|I].
    + subst. eapply Rle_trans; [apply (Rmax_r x y) | apply fold_Rmax_ge_init].
    + apply IH. right. exact I.
Qed.

Lemma fold_Rmax_in (l : list R) (x : R) : In (fold_left Rmax l x) (x :: l).
Proof.
  revert x. induction l as [|z l IH]; intros x; simpl; [left; reflexivity|].
  destruct (IH (Rmax x z)) as [E|I].
  - rewrite <- E. unfold Rmax. destruct (Rle_dec x z); auto.
  - right. right. exact I.
Qed.

Lemma in_dropna (s : list pyfloat) (v : R) :
  In v (AttendanceCheck.dropna s) <-> In (Fin v) s.
Proof.
  induction s as [|[x|] s IH]; simpl; [tauto| |].
  - rewrite IH. split; intros [E|I]; auto; left; congruence.
  - rewrite IH. split; [auto|]. intros [E|I]; [discriminate|exact I].
Qed.

Lemma in_fillna (s : list pyfloat) (v : R) :
  In v (map fillna_minus1 s) -> In (Fin v) s \/ v = -1.
Proof.
  rewrite in_map_iff. intros [[x|] [E I]]; simpl in E; subst; auto.
Qed.

(** Filling the gaps with -1 does not change whether the maximum lies in
    [0, 1], nor whether it exceeds 1. *)
Lemma filled_max_observed (s : list pyfloat) (ov : R) :
  observed_max s = Fin ov ->
  exists m, series_max (map fillna_minus1 s) = Fin m
            /\ (0 <= ov -> m = ov) /\ (ov < 0 -> m < 0).
Proof.
  unfold observed_max, series_max.
  destruct (AttendanceCheck.dropna s) as [|d ds] eqn:D; [discriminate|].
  intros E. injection E as E.
  destruct (map fillna_minus1 s) as [|f fs] eqn:F.
  { destruct s as [|[x|] s]; simpl in *; discriminate. }
  exists (fold_left Rmax fs f). split; [reflexivity|].
  assert (Hin : In ov (d :: ds)) by (rewrite <- E; apply fold_Rmax_in).
  assert (Hup : forall y, In y (d :: ds) -> y <= ov)
    by (intros y Hy; rewrite <- E; apply fold_Rmax_upper; exact Hy).
  rewrite <- D in Hin, Hup.
  assert (HinF : In (fold_left Rmax fs f) (map fillna_minus1 s))
    by (rewrite F; apply fold_Rmax_in).
  assert (Hge : ov <= fold_left Rmax fs f).
  { apply fold_Rmax_upper. rewrite <- F. apply in_map_iff.
    exists (Fin ov). split; [reflexivity|]. apply in_dropna. exact Hin. }
  apply in_fillna in HinF. split; intros Hov.
  - destruct HinF as [I|I]; [|lra].
    apply in_dropna in I. apply Hup in I. lra.
  - destruct HinF as [I|I]; [|lra].
    apply in_dropna in I. apply Hup in I. lra.
Qed.

Lemma filled_max_none (s : list pyfloat) :
  observed_max s = NaN ->
  series_max (map fillna_minus1 s) = NaN
  \/ exists m, series_max (map fillna_minus1 s) = Fin m /\ m < 0.
Proof.
  unfold observed_max, series_max.
  destruct (AttendanceCheck.dropna s) as [|d ds] eqn:D; [|discriminate].
  intros _. destruct (map fillna_minus1 s) as [|f fs] eqn:F; [left; reflexivity|].
  right. exists (fold_left Rmax fs f). split; [reflexivity|].
  assert (HinF : In (fold_left Rmax fs f) (map fillna_minus1 s))
    by (rewrite F; apply fold_Rmax_in).
  apply in_fillna in HinF. destruct HinF as [I|I]; [|lra].
  apply in_dropna in I. rewrite D in I. destruct I.
Qed.

End Rescale.

Section NormalizedColumn.

Import Utils.

Variable numeric_of_str : string -> option R.

Lemma cell_at_row_set (r : Row) (c : string) (v : cell) :
  cell_at (row_set r c v) c = v.
Proof.
  unfold cell_at. induction r as [|[k w] r IH]; simpl.
  - rewrite String.eqb_refl. reflexivity.
  - destruct (String.eqb k c) eqn:E; simpl; rewrite E; [reflexivity|exact IH].
Qed.

Lemma column_set_column (df : DataFrame) (c : string) (vs : list cell) :
  List.length vs = List.length (rows df) ->
  column (set_column df c vs) c = vs.
Proof.
  unfold column, set_column. simpl. generalize (rows df). clear df.
  intros rs. revert vs. induction rs as [|r rs IH]; intros [|v vs] L;
    simpl in *; try discriminate; [reflexivity|].
  injection L as L. rewrite cell_at_row_set, IH by exact L. reflexivity.
Qed.

Lemma length_rescale_pto (series : list cell) :
  List.length (rescale_pto numeric_of_str series) = List.length series.
Proof.
  unfold rescale_pto.
  destruct (fle (Fin 0) _ && fle _ (Fin 1)); rewrite ?length_map; reflexivity.
Qed.

Lemma rename_key_other (old new c k : string) :
  String.eqb c old = false -> String.eqb c new = false ->
  String.eqb (rename_key old new k) c = String.eqb k c.
Proof.
  intros Ho Hn. unfold rename_key. destruct (String.eqb k old) eqn:E; [|reflexivity].
  apply String.eqb_eq in E. subst k.
  rewrite (String.eqb_sym new c), (String.eqb_sym old c), Ho, Hn. reflexivity.
Qed.

Lemma column_rename_column (df : DataFrame) (old new c : string) :
  String.eqb c old = false -> String.eqb c new = false ->
  column (rename_column df old new) c = column df c
  /\ has_column (rename_column df old new) c = has_column df c.
Proof.
  intros Ho Hn. split.
  - unfold column, rename_column. simpl. rewrite map_map. apply map_ext.
    intros r. unfold cell_at.
    assert (G : row_get (map (fun kv => (rename_key old new (fst kv), snd kv)) r) c
                = row_get r c).
    { induction r as [|[k w] r IH]; simpl; [reflexivity|].
      rewrite (rename_key_other old new c k Ho Hn), IH. reflexivity. }
    rewrite G. reflexivity.
  - unfold has_column, rename_column. simpl.
    induction (columns df) as [|k ks IH]; simpl; [reflexivity|].
    rewrite (String.eqb_sym c (rename_key old new k)),
      (rename_key_other old new c k Ho Hn), (String.eqb_sym k c), IH.
    reflexivity.
Qed.

(** The paid-leave column of the normalised frame holds the rescaled
    values of the column of the input frame. *)
Lemma normalize_hr_columns_pto (df : DataFrame) :
  has_column df "有給取得率" = true ->
  column (normalize_hr_columns numeric_of_str df) "有給取得率"
  = map cell_of_float (rescale_pto numeric_of_str (column df "有給取得率")).
Proof.
  intros H. unfold normalize_hr_columns.
  set (df2 := if has_column df "評価" && negb (has_column df "評価(1-5)")
              then rename_column df "評価" "評価(1-5)" else df).
  assert (E : column df2 "有給取得率" = column df "有給取得率"
              /\ has_column df2 "有給取得率" = has_column df "有給取得率").
  { unfold df2. destruct (has_column df "評価" && negb (has_column df "評価(1-5)")).
    - apply column_rename_column; reflexivity.
    - split; reflexivity. }
  destruct E as [Ec Eh]. rewrite Eh, H, Ec.
  apply column_set_column.
  rewrite length_map, length_rescale_pto.
  unfold column. rewrite !length_map.
  unfold df2. destruct (has_column df "評価" && negb (has_column df "評価(1-5)"));
    [|reflexivity].
  unfold rename_column. simpl. rewrite length_map. reflexivity.
Qed.

End NormalizedColumn.

(** C3 (as amended).  With [s] the paid-leave column after numeric
    coercion: when its largest numeric value lies between 0 and 1.0
    inclusive, every value is multiplied by 100; when that value exceeds
    1.0, or is negative, or no value is numeric, the coerced values are
    kept as they are. *)
Theorem rescale_pto_by_observed_max
    (numeric_of_str : string -> option R) (series : list cell) :
  let s := map (Utils.to_numeric numeric_of_str) series in
  (forall ov, observed_max s = Fin ov -> (0 <= ov <= 1)%R ->
     Utils.rescale_pto numeric_of_str series
     = map (fun v => fmul v (Fin 100)) s)
  /\ (forall ov, observed_max s = Fin ov -> (1 < ov)%R ->
        Utils.rescale_pto numeric_of_str series = s)
  /\ (forall ov, observed_max s = Fin ov -> (ov < 0)%R ->
        Utils.rescale_pto numeric_of_str series = s)
  /\ (observed_max s = NaN -> Utils.rescale_pto numeric_of_str series = s).
Proof.
  intro s. unfold Utils.rescale_pto. fold s.
  repeat split.
  - intros ov E [H0 H1]. destruct (filled_max_observed s ov E) as [m [-> [Hm _]]].
    rewrite (Hm H0). unfold fle. rcases. reflexivity.
  - intros ov E H1. destruct (filled_max_observed s ov E) as [m [-> [Hm _]]].
    rewrite Hm by lra. unfold fle. rcases; reflexivity.
  - intros ov E H0. destruct (filled_max_observed s ov E) as [m [-> [_ Hm]]].
    specialize (Hm H0). unfold fle. rcases; reflexivity.
  - intros E. destruct (filled_max_none s E) as [->|[m [-> Hm]]].
    + reflexivity.
    + unfold fle. rcases; reflexivity.
Qed.

Lemma rescale_pto_by_observed_max_witness :
  Utils.rescale_pto (fun _ => None) [CNum (1/2); CNaN; CNum (1/4)]
  = [Fin (1/2 * 100); NaN; Fin (1/4 * 100)].
Proof.
  apply (proj1 (rescale_pto_by_observed_max (fun _ => None)
                  [CNum (1/2); CNaN; CNum (1/4)]) (1/2)%R).
  - unfold observed_max. simpl. f_equal. unfold Rmax.
    destruct (Rle_dec (1/2) (1/4)); lra.
  - lra.
Defined.

(** C3 (as stated) fails: a column whose only value is -0.5 has a maximum
    not above 1.0, yet the value is not multiplied by 100. *)
Lemma rescale_pto_negative_max_counterexample :
  let series := [CNum (-(1/2))] in
  let s := map (Utils.to_numeric (fun _ => None)) series in
  observed_max s = Fin (-(1/2))
  /\ (-(1/2) <= 1)%R
  /\ Utils.rescale_pto (fun _ => None) series = [Fin (-(1/2))]
  /\ Utils.rescale_pto (fun _ => None) series
     <> map (fun v => fmul v (Fin 100)) s.
Proof.
  assert (E : Utils.rescale_pto (fun _ => None) [CNum (-(1/2))]
              = [Fin (-(1/2))]).
  { unfold Utils.rescale_pto. simpl. unfold fle. rcases; reflexivity. }
  simpl. repeat split.
  - lra.
  - exact E.
  - rewrite E. simpl. intro C. injection C as C. lra.
Qed.

(** ** Out-of-range counts *)

Section OutOfRange.

Import Utils.
Open Scope R_scope.

Variable numeric_of_str : string -> option R.

(** The mask built by [count_out_of_range] never holds a missing entry, so
    [fillna(True)] has nothing to fill. *)
Lemma mask_or_some (bs cs : list bool) :
  List.length bs = List.length cs ->
  mask_or (map Some bs) cs = map Some (map (fun p => fst p || snd p) (combine bs cs)).
Proof.
  revert cs. induction bs as [|b bs IH]; intros [|c cs] L; simpl in *;
    try reflexivity; try discriminate.
  injection L as L. unfold mask_or in *. simpl. f_equal. apply IH. exact L.
Qed.

Lemma fillna_true_some (bs : list bool) : fillna_true (map Some bs) = bs.
Proof. induction bs; simpl; congruence. Qed.

Lemma mask_two_steps (f g : pyfloat -> bool) (s : list pyfloat) :
  map (fun p => fst p || snd p)
      (combine (map (fun p => fst p || snd p)
                    (combine (map (fun _ : pyfloat => false) s) (map f s)))
               (map g s))
  = map (fun v => f v || g v) s.
Proof. induction s as [|v s IH]; simpl; [reflexivity|]. rewrite IH. reflexivity. Qed.

Lemma count_true_map {A} (h : A -> bool) (l : list A) :
  count_true (map h l) = List.length (filter h l).
Proof.
  unfold count_true. induction l as [|a l IH]; simpl; [reflexivity|].
  destruct (h a); simpl; rewrite IH; reflexivity.
Qed.

(** What the code counts: the cells whose coerced value is a number below
    [lo] or above [hi].  A cell coerced to NaN is not counted. *)
Lemma count_out_of_range_counts (series : list cell) (lo hi : R) :
  count_out_of_range numeric_of_str series (Some lo) (Some hi)
  = List.length (filter (outside lo hi) (map (to_numeric numeric_of_str) series)).
Proof.
  unfold count_out_of_range.
  set (s := map (to_numeric numeric_of_str) series).
  replace (map (fun _ => Some false) s)
    with (map Some (map (fun _ : pyfloat => false) s))
    by (rewrite map_map; reflexivity).
  rewrite mask_or_some by (rewrite !length_map; reflexivity).
  rewrite mask_or_some
    by (rewrite length_map, length_combine, !length_map; lia).
  rewrite fillna_true_some, mask_two_steps. apply count_true_map.
Qed.

End OutOfRange.

(** C10 (the code departs from it).  The claim, like the comment next to
    [fillna(True)], counts a value that coerces to NaN as out of range.
    The comparisons [s < min_v] and [s > max_v] are already [False] at a
    NaN, so such a value is not counted: a frame with one missing overtime
    value and one overtime of 30 hours reports the null in the fatal error
    and an out-of-range count of 1, not 2; and a column holding only a
    missing value has an out-of-range count of 0 for every range. *)
Theorem null_is_not_counted_out_of_range :
  let df := mkDF AttendanceCheck.REQ
              [[("社員ID", CNum 1); ("日付", CTime 0);
                ("勤務時間h", CNum 8); ("残業時間h", CNaN)];
               [("社員ID", CNum 1); ("日付", CTime 86400000000000);
                ("勤務時間h", CNum 8); ("残業時間h", CNum 30)]]%string in
  let report := Utils.validate_attendance (fun _ => None) (fun _ => None) df in
  Utils.null_count df "残業時間h" = 1%nat
  /\ Utils.count_out_of_range (fun _ => None) (column df "残業時間h")
       (Some 0%R) (Some 24%R) = 1%nat
  /\ Utils.errors report = ["必須カラムに欠損があります: {'残業時間h': 1}"%string]
  /\ Utils.warnings report = ["残業時間h の異常値が 1 件あります。"%string]
  /\ (forall lo hi : R,
        Utils.count_out_of_range (fun _ => None) [CNaN] (Some lo) (Some hi)
        = 0%nat).
Proof.
  intros df report.
  assert (Hot : Utils.count_out_of_range (fun _ => None) (column df "残業時間h")
                  (Some 0%R) (Some 24%R) = 1%nat).
  { rewrite count_out_of_range_counts. simpl.
    unfold outside, fgt, flt. rcases; reflexivity. }
  assert (Hwork : Utils.count_out_of_range (fun _ => None) (column df "勤務時間h")
                    (Some 0%R) (Some (24 * 2)%R) = 0%nat).
  { rewrite count_out_of_range_counts. simpl.
    unfold outside, fgt, flt. rcases; reflexivity. }
  split; [reflexivity|]. split; [exact Hot|].
  unfold report, Utils.validate_attendance.
  change (Utils.missing_columns df Utils.att_required) with (@nil string).
  cbv iota beta zeta. rewrite Hot, Hwork.
  split; [reflexivity|]. split; [reflexivity|].
  intros lo hi. rewrite count_out_of_range_counts. reflexivity.
Qed.

(** ** Pseudonyms *)

Section Pseudonyms.

Import Utils.
Open Scope string_scope.

Lemma substring_0_length (n : nat) (s : string) :
  String.length (substring 0 n s) = Nat.min n (String.length s).
Proof.
  revert s. induction n as [|n IH]; intros [|a s]; simpl; try reflexivity.
  rewrite IH. reflexivity.
Qed.

Lemma append_length (s t : string) :
  String.length (s ++ t) = (String.length s + String.length t)%nat.
Proof. induction s as [|a s IH]; simpl; [reflexivity|]. rewrite IH. reflexivity. Qed.

End Pseudonyms.

(** C8.  [anonymize_ids] depends on the environment only through the salt:
    two calls on the same identifiers under environments that give the
    same salt (ANON_SALT, or the default when it is unset) return the same
    pseudonyms.  Each pseudonym is the prefix followed by the first
    [max(4, length)] hex digits of the SHA-256 digest of salt and
    identifier, so all have the same length. *)
Theorem anonymize_ids_deterministic
    (str_of_cell : cell -> string) (sha256_hexdigest : string -> string)
    (Hhex : forall m, String.length (sha256_hexdigest m) = 64%nat)
    (env1 env2 : Utils.environ) (series : list cell)
    (prefix : string) (length : Z)
    (Hsalt : Utils.getenv env1 "ANON_SALT" "hrtool"
             = Utils.getenv env2 "ANON_SALT" "hrtool") :
  Utils.anonymize_ids str_of_cell sha256_hexdigest env1 series prefix length
  = Utils.anonymize_ids str_of_cell sha256_hexdigest env2 series prefix length
  /\ Utils.anonymize_ids str_of_cell sha256_hexdigest env1 series prefix length
     = map (fun c =>
              (prefix ++
               substring 0 (Z.to_nat (Z.max 4 length))
                 (sha256_hexdigest
                    (Utils.getenv env1 "ANON_SALT" "hrtool" ++ str_of_cell c)))%string)
           series
  /\ Forall (fun p => String.length p
                      = (String.length prefix
                         + Nat.min (Z.to_nat (Z.max 4 length)) 64)%nat)
            (Utils.anonymize_ids str_of_cell sha256_hexdigest env1 series
               prefix length).
Proof.
  unfold Utils.anonymize_ids, Utils._mask. rewrite <- Hsalt.
  split; [reflexivity|]. split; [reflexivity|].
  apply Forall_forall. intros p Hp. apply in_map_iff in Hp.
  destruct Hp as [c [<- _]].
  rewrite append_length, substring_0_length, Hhex. reflexivity.
Qed.

Lemma anonymize_ids_deterministic_witness :
  let sha := fun m : string => substring 0 64
       ("0123456789abcdef0123456789abcdef0123456789abcdef0123456789abcdef"
        ++ m)%string in
  let str := fun c : cell => match c with CStr s => s | _ => "1"%string end in
  Utils.anonymize_ids str sha [("ANON_SALT", "s1"); ("TZ", "UTC")]%string
    [CStr "E001"; CStr "E002"] "ID_" 8
  = Utils.anonymize_ids str sha [("LANG", "ja"); ("ANON_SALT", "s1")]%string
      [CStr "E001"; CStr "E002"] "ID_" 8.
Proof.
  intros sha str.
  refine (proj1 (anonymize_ids_deterministic str sha _
                   [("ANON_SALT", "s1"); ("TZ", "UTC")]%string
                   [("LANG", "ja"); ("ANON_SALT", "s1")]%string
                   [CStr "E001"; CStr "E002"] "ID_" 8%Z _)).
  - intros m. unfold sha. rewrite substring_0_length, append_length. simpl. lia.
  - reflexivity.
Defined.

(** ** The rule-based score *)

Section RuleScore.

Open Scope R_scope.

Lemma Int_part_IZR (n : Z) : Int_part (IZR n) = n.
Proof. symmetry. apply Int_part_spec. lra. Qed.

(** Rounding leaves an integer alone. *)
Lemma rint_IZR (n : Z) : rint (IZR n) = n.
Proof.
  unfold rint. rewrite Int_part_IZR.
  replace (IZR n - IZR n) with 0 by lra. rcases; reflexivity.
Qed.

Lemma sigmoid_0 : 1 / (1 + exp (- (0 * 3))) = 1 / 2.
Proof. replace (- (0 * 3)) with 0 by lra. rewrite exp_0. lra. Qed.

Lemma score_without_features (float_of_str : string -> option pyfloat)
    (row : Row) :
  (forall c, In c RiskModel.PREFERRED_FEATURES ->
             RiskModel.get float_of_str row c = None) ->
  RiskModel.rule_based_score float_of_str row = Fin (1 / 2).
Proof.
  intros H. unfold RiskModel.rule_based_score, RiskModel.contributions.
  rewrite !H by (simpl; tauto). simpl.
  rewrite sigmoid_0. f_equal. unfold Rmin, Rmax.
  destruct (Rle_dec (1 / 2) 0); [lra|].
  destruct (Rle_dec (1 / 2) 1); lra.
Qed.

Lemma percent_of_half : np_round1 (fmul (Fin (1 / 2)) (Fin 100)) = Fin 50.
Proof.
  simpl. f_equal.
  replace (1 / 2 * 100 * 10)%R with (IZR 500) by lra.
  rewrite rint_IZR. lra.
Qed.

End RuleScore.

(** A missing cell, unlike an absent column, converts with [float]: the
    score of such a row is NaN, not 0.5. *)
Remark rule_based_score_missing_cell :
  RiskModel.rule_based_score (fun _ => None) [("勤続年数", CNaN)]%string = NaN.
Proof. reflexivity. Qed.

(** ** Row count of the prediction *)

Section RowCount.

Import RiskModel AttendanceCheck.

Lemma cell_eqb_eq (a b : cell) : cell_eqb a b = true <-> a = b.
Proof.
  unfold cell_eqb. destruct (cell_eq_dec a b); split; intros; auto; discriminate.
Qed.

Lemma length_insert_by {A} (leb : A -> A -> bool) (x : A) (l : list A) :
  List.length (insert_by leb x l) = S (List.length l).
Proof.
  induction l as [|y l IH]; simpl; [reflexivity|].
  destruct (leb x y); simpl; [reflexivity|]. rewrite IH. reflexivity.
Qed.

Lemma length_sort_by {A} (leb : A -> A -> bool) (l : list A) :
  List.length (sort_by leb l) = List.length l.
Proof.
  unfold sort_by. induction l as [|x l IH]; simpl; [reflexivity|].
  rewrite length_insert_by, IH. reflexivity.
Qed.

Lemma length_zip_outer (ids : list cell) (ps : list pyfloat) :
  List.length ps = List.length ids ->
  List.length (zip_outer ids ps) = List.length ids
  /\ map fst (zip_outer ids ps) = ids.
Proof.
  revert ps. induction ids as [|i ids IH]; intros [|p ps] L; simpl in *;
    try discriminate; [split; reflexivity|].
  injection L as L. destruct (IH ps L) as [E1 E2]. rewrite E1, E2.
  split; reflexivity.
Qed.

(** Under distinct keys a key selects at most one row of the right table. *)
Lemma filter_key_at_most_one {B} (right : list (cell * B)) (k : cell) :
  NoDup (map fst right) ->
  (List.length (filter (fun r => cell_eqb (fst r) k) right) <= 1)%nat.
Proof.
  induction right as [|[k' v] right IH]; simpl; intros ND; [lia|].
  inversion ND as [|? ? Hnot ND']; subst.
  destruct (cell_eqb k' k) eqn:E; [|apply IH; exact ND'].
  apply cell_eqb_eq in E. subst k'. simpl.
  destruct (filter (fun r => cell_eqb (fst r) k) right) as [|[k2 v2] rest] eqn:F;
    [simpl; lia|].
  exfalso. apply Hnot.
  assert (I : In (k2, v2) (filter (fun r => cell_eqb (fst r) k) right))
    by (rewrite F; left; reflexivity).
  apply filter_In in I. destruct I as [I E]. simpl in E.
  apply cell_eqb_eq in E. subst k2.
  apply in_map_iff. exists (k, v2). split; [reflexivity|exact I].
Qed.

(** A left join on distinct right keys keeps the number of rows. *)
Lemma length_merge_left (left : list RiskResult)
    (right : list (cell * list (string * cell))) (ref_cols : list string) :
  NoDup (map fst right) ->
  List.length (merge_left left right ref_cols) = List.length left.
Proof.
  intros ND. unfold merge_left.
  match goal with |- context [flat_map ?g _] => set (f := g) end.
  assert (Hone : forall l, List.length (f l) = 1%nat).
  { intros l. subst f. cbv beta.
    pose proof (filter_key_at_most_one right (r_emp l) ND) as Hle.
    destruct (filter (fun r => cell_eqb (fst r) (r_emp l)) right) as [|m ms];
      [reflexivity|].
    destruct ms; simpl in *; [reflexivity|lia]. }
  induction left as [|l left IH]; cbn [flat_map]; [reflexivity|].
  rewrite length_app, IH, Hone. reflexivity.
Qed.

Lemma NoDup_arange1 (n : nat) : NoDup (arange1 n).
Proof.
  unfold arange1. apply Injective_map_NoDup; [|apply seq_NoDup].
  intros a b E. injection E as E. apply INR_eq. exact E.
Qed.

Lemma length_arange1 (n : nat) : List.length (arange1 n) = n.
Proof. unfold arange1. rewrite length_map, length_seq. reflexivity. Qed.

Lemma map_fst_combine {A B} (l : list A) (l' : list B) :
  List.length l = List.length l' -> map fst (combine l l') = l.
Proof.
  revert l'. induction l as [|a l IH]; intros [|b l'] L; simpl in *;
    try discriminate; [reflexivity|].
  injection L as L. rewrite IH by exact L. reflexivity.
Qed.

(** The steps of [predict_attrition] that follow the scoring keep one row
    per probability. *)
Lemma result_rows_length (df : DataFrame) (proba : list pyfloat)
    (ids : list cell) (ref_cols : list string) :
  List.length proba = List.length (rows df) ->
  List.length ids = List.length (rows df) ->
  NoDup ids ->
  let base := zip_outer ids
                (map (fun p => np_round1 (fmul p (Fin 100))) proba) in
  let result :=
    map (fun e => mkRisk (fst (fst e)) (snd (fst e)) (snd e) [])
        (combine base (map (cut1 default_bins tier_labels) (map snd base))) in
  List.length
    match ref_cols with
    | [] => result
    | _ => merge_left result
             (combine ids
                (map (fun r => map (fun c => (c, cell_at r c)) ref_cols)
                     (rows df)))
             ref_cols
    end
  = List.length (rows df).
Proof.
  intros Lp Li ND base result.
  assert (Lpct : List.length (map (fun p => np_round1 (fmul p (Fin 100))) proba)
                 = List.length ids)
    by (rewrite length_map; congruence).
  destruct (length_zip_outer ids _ Lpct) as [Lb Fb]. fold base in Lb, Fb.
  assert (Lres : List.length result = List.length (rows df)).
  { unfold result. rewrite length_map, length_combine, !length_map, Lb. lia. }
  destruct ref_cols as [|c cs]; [exact Lres|].
  rewrite length_merge_left; [exact Lres|].
  rewrite map_fst_combine; [exact ND|].
  rewrite length_map. exact Li.
Qed.

End RowCount.

Section ReportedProbability.

Import RiskModel AttendanceCheck.

Lemma in_insert_by {A} (leb : A -> A -> bool) (x y : A) (l : list A) :
  In y (insert_by leb x l) -> y = x \/ In y l.
Proof.
  induction l as [|z l IH]; simpl; [intuition congruence|].
  destruct (leb x z); simpl; [intuition congruence|].
  intros [E|I]; [auto|]. destruct (IH I); auto.
Qed.

Lemma in_sort_by {A} (leb : A -> A -> bool) (y : A) (l : list A) :
  In y (sort_by leb l) -> In y l.
Proof.
  unfold sort_by. induction l as [|x l IH]; simpl; [tauto|].
  intros H. apply in_insert_by in H. destruct H as [->|H]; auto.
Qed.

Lemma in_zip_outer (ids : list cell) (ps : list pyfloat) (e : cell * pyfloat) :
  List.length ps = List.length ids ->
  In e (zip_outer ids ps) -> In (snd e) ps.
Proof.
  revert ps. induction ids as [|i ids IH]; intros [|p ps] L; simpl in *;
    try discriminate; [tauto|].
  injection L as L. intros [<-|H]; [left; reflexivity|].
  right. apply (IH ps L H).
Qed.

Lemma in_combine_map {A B} (f : A -> B) (l : list A) (a : A) (b : B) :
  In (a, b) (combine l (map f l)) -> In a l /\ b = f a.
Proof.
  induction l as [|x l IH]; simpl; [tauto|].
  intros [E|H]; [injection E as <- <-; auto|].
  destruct (IH H); auto.
Qed.

Lemma merge_left_fields (left : list RiskResult)
    (right : list (cell * list (string * cell))) (ref_cols : list string)
    (y : RiskResult) :
  In y (merge_left left right ref_cols) ->
  exists l, In l left /\ r_prob y = r_prob l /\ r_tier y = r_tier l.
Proof.
  unfold merge_left. rewrite in_flat_map. intros [l [Hl Hy]].
  exists l. split; [exact Hl|].
  destruct (filter (fun r => cell_eqb (fst r) (r_emp l)) right) as [|m ms].
  - destruct Hy as [<-|[]]. split; reflexivity.
  - apply in_map_iff in Hy. destruct Hy as [r [<- _]]. split; reflexivity.
Qed.

(** On the rule-based path, a frame whose rows all lack the seven features
    is reported with 50.0 percent, tier Medium, on every row. *)
Lemma predict_attrition_without_features
    (float_of_str : string -> option pyfloat)
    (logreg_proba : list string -> DataFrame -> result (list pyfloat))
    (df : DataFrame) :
  has_column df "attrition"
  && (0 <? List.length (filter (has_column df) PREFERRED_FEATURES))%nat = false ->
  (forall r, In r (rows df) -> forall c, In c PREFERRED_FEATURES ->
     get float_of_str (row_view df r) c = None) ->
  exists res,
    predict_attrition float_of_str logreg_proba df = Ok (res, "Rule-Based"%string)
    /\ Forall (fun y => r_prob y = Fin 50 /\ r_tier y = Some Medium) res.
Proof.
  intros B H. unfold predict_attrition. rewrite B. cbn [bind].
  unfold cut. rewrite increasing_default_bins. cbn [bind].
  eexists. split; [reflexivity|]. cbv zeta.
  apply Forall_forall. intros y Hy. apply in_sort_by in Hy.
  set (ids := if has_column df "社員ID" then column df "社員ID"
              else arange1 (List.length (rows df))) in *.
  set (pct := map (fun p => np_round1 (fmul p (Fin 100)))
                (map (fun r => rule_based_score float_of_str (row_view df r))
                     (rows df))) in *.
  assert (Li : List.length pct = List.length ids).
  { unfold pct, ids. rewrite !length_map.
    destruct (has_column df "社員ID");
      [unfold column; rewrite length_map|rewrite length_arange1]; reflexivity. }
  assert (Hpct : forall p, In p pct -> p = Fin 50).
  { intros p Hp. unfold pct in Hp. rewrite map_map in Hp.
    apply in_map_iff in Hp. destruct Hp as [r [<- Hr]].
    rewrite (score_without_features float_of_str (row_view df r) (H r Hr)).
    apply percent_of_half. }
  assert (Hbase : forall l,
            In l (map (fun e => mkRisk (fst (fst e)) (snd (fst e)) (snd e) [])
                    (combine (zip_outer ids pct)
                       (map (cut1 default_bins tier_labels)
                          (map snd (zip_outer ids pct))))) ->
            r_prob l = Fin 50 /\ r_tier l = Some Medium).
  { intros l Hl. apply in_map_iff in Hl. destruct Hl as [[[i p] t] [<- He]].
    rewrite map_map in He. apply in_combine_map in He. destruct He as [Hin ->].
    apply (in_zip_outer ids pct (i, p) Li) in Hin. simpl in Hin.
    rewrite (Hpct p Hin). cbn [r_prob r_tier fst snd]. split; [reflexivity|].
    unfold default_bins. rewrite cut1_tier_bins by lra. rcases; reflexivity. }
  destruct (filter (has_column df) ref_candidates) as [|c cs].
  - apply Hbase. exact Hy.
  - apply merge_left_fields in Hy. destruct Hy as [l [Hl [-> ->]]].
    apply Hbase. exact Hl.
Qed.

End ReportedProbability.

(** C9.  When the identifiers of the input frame are pairwise distinct, or
    the frame has no identifier column (a 1-based sequence is then filled
    in), [predict_attrition] returns one result row per input row.  The
    rule-based path always returns; the learned path returns whenever the
    fitted pipeline does, which gives one probability per row. *)
Theorem predict_attrition_row_count
    (float_of_str : string -> option pyfloat)
    (logreg_proba : list string -> DataFrame -> result (list pyfloat))
    (Hshape : forall cols df p, logreg_proba cols df = Ok p ->
                List.length p = List.length (rows df))
    (df : DataFrame)
    (Hid : has_column df "社員ID" = false \/ NoDup (column df "社員ID")) :
  (forall res model,
      RiskModel.predict_attrition float_of_str logreg_proba df = Ok (res, model) ->
      List.length res = List.length (rows df))
  /\ (has_column df "attrition"
      && (0 <? List.length (filter (has_column df) RiskModel.PREFERRED_FEATURES))%nat
      = false ->
      exists res,
        RiskModel.predict_attrition float_of_str logreg_proba df
        = Ok (res, "Rule-Based"%string)
        /\ List.length res = List.length (rows df)).
Proof.
  set (ids := if has_column df "社員ID" then column df "社員ID"
              else RiskModel.arange1 (List.length (rows df))).
  assert (Li : List.length ids = List.length (rows df)).
  { unfold ids. destruct (has_column df "社員ID").
    - unfold column. apply length_map.
    - apply length_arange1. }
  assert (ND : NoDup ids).
  { unfold ids. destruct (has_column df "社員ID").
    - destruct Hid as [Hid|Hid]; [discriminate|exact Hid].
    - apply NoDup_arange1. }
  assert (Tail : forall proba model,
            List.length proba = List.length (rows df) ->
            exists res,
              bind (Ok (proba, model))
                (fun pm : list pyfloat * string =>
                   let '(proba, model_name) := pm in
                   bind (cut (map snd (RiskModel.zip_outer ids
                                (map (fun p => np_round1 (fmul p (Fin 100))) proba)))
                             RiskModel.default_bins tier_labels)
                     (fun tiers =>
                        let base := RiskModel.zip_outer ids
                             (map (fun p => np_round1 (fmul p (Fin 100))) proba) in
                        let result :=
                          map (fun e => RiskModel.mkRisk (fst (fst e))
                                          (snd (fst e)) (snd e) [])
                              (combine base tiers) in
                        let ref_cols :=
                          filter (has_column df) RiskModel.ref_candidates in
                        let result :=
                          match ref_cols with
                          | [] => result
                          | _ => RiskModel.merge_left result
                                   (combine ids
                                      (map (fun r =>
                                              map (fun c => (c, cell_at r c)) ref_cols)
                                           (rows df)))
                                   ref_cols
                          end in
                        Ok (AttendanceCheck.sort_by RiskModel.prob_geb result,
                            model_name)))
              = Ok (res, model)
              /\ List.length res = List.length (rows df)).
  { intros proba model Lp. cbn [bind].
    unfold cut. rewrite increasing_default_bins. cbn [bind].
    eexists. split; [reflexivity|]. cbv zeta.
    rewrite length_sort_by.
    apply (result_rows_length df proba ids
             (filter (has_column df) RiskModel.ref_candidates) Lp Li ND). }
  unfold RiskModel.predict_attrition. fold ids.
  destruct (has_column df "attrition"
            && (0 <? List.length
                       (filter (has_column df) RiskModel.PREFERRED_FEATURES))%nat)
    eqn:B.
  - split; [|discriminate].
    intros res model.
    destruct (logreg_proba (filter (has_column df) RiskModel.PREFERRED_FEATURES) df)
      as [p|e] eqn:E; [|discriminate].
    destruct (Tail p
                ("LogReg(" ++ Utils.str_of_nat
                     (List.length
                        (filter (has_column df) RiskModel.PREFERRED_FEATURES))
                   ++ "f)")%string (Hshape _ _ _ E)) as [res' [E' L']].
    cbn [bind] in E' |- *. rewrite E'. intros R. injection R as <- _. exact L'.
  - assert (Lp : List.length
                   (map (fun r => RiskModel.rule_based_score float_of_str
                                    (RiskModel.row_view df r)) (rows df))
                 = List.length (rows df)) by apply length_map.
    destruct (Tail _ "Rule-Based"%string Lp) as [res' [E' L']].
    cbn [bind] in E' |- *. rewrite E'. split.
    + intros res model R. injection R as <- _. exact L'.
    + intros _. exists res'. split; [reflexivity|exact L'].
Qed.

Lemma predict_attrition_row_count_witness :
  let df := mkDF ["社員ID"; "勤続年数"]%string
              [[("社員ID", CStr "E1"); ("勤続年数", CNum 3)];
               [("社員ID", CStr "E2"); ("勤続年数", CNum 12)]]%string in
  exists res,
    RiskModel.predict_attrition (fun _ => None)
      (fun _ d => Ok (map (fun _ => Fin (1 / 2)) (rows d))) df
    = Ok (res, "Rule-Based"%string)
    /\ List.length res = 2%nat.
Proof.
  intro df.
  refine (proj2 (predict_attrition_row_count (fun _ => None)
                   (fun _ d => Ok (map (fun _ => Fin (1 / 2)) (rows d)))
                   _ df _) _).
  - intros cols d p E. injection E as <-. apply length_map.
  - right. simpl. constructor.
    + simpl. intros [E|[]]. discriminate.
    + constructor; [simpl; tauto | constructor].
  - reflexivity.
Defined.

(** Without distinct identifiers the join multiplies rows: two result rows
    with the same identifier against two reference rows give four. *)
Remark merge_left_duplicated_ids :
  List.length
    (RiskModel.merge_left
       [RiskModel.mkRisk (CStr "E1") (Fin 50) (Some Medium) [];
        RiskModel.mkRisk (CStr "E1") (Fin 50) (Some Medium) []]
       [(CStr "E1", [("勤続年数"%string, CNum 3)]);
        (CStr "E1", [("勤続年数"%string, CNum 12)])]
       ["勤続年数"%string]) = 4%nat.
Proof. reflexivity. Qed.

(** ** Consecutive workdays *)

Section Streaks.

Import Utils AttendanceCheck.
Open Scope Z_scope.

Lemma length_streak_loop (rows : list (timestamp * pyfloat))
    (st : Z * option timestamp) :
  List.length (streak_loop st rows) = List.length rows.
Proof.
  revert st. induction rows as [|r rows IH]; intros st; simpl; [reflexivity|].
  rewrite IH. reflexivity.
Qed.

Lemma snd_streak_step (st : Z * option timestamp) (dt : timestamp) (h : pyfloat) :
  snd (streak_step st (dt, h)) = Some dt.
Proof. destruct st as [c p]. reflexivity. Qed.

(** The counter of a row is one step of the loop from the counter and the
    date of the row before it. *)
Lemma streak_loop_succ (rows : list (timestamp * pyfloat))
    (st : Z * option timestamp) (j : nat)
    (p dt : timestamp) (hp h : pyfloat) :
  nth_error rows j = Some (p, hp) ->
  nth_error rows (S j) = Some (dt, h) ->
  nth (S j) (streak_loop st rows) 0
  = fst (streak_step (nth j (streak_loop st rows) 0, Some p) (dt, h)).
Proof.
  revert st j. induction rows as [|r rows IH]; intros st j Hj HS.
  - destruct j; discriminate.
  - destruct j as [|j].
    + simpl in Hj. injection Hj as ->.
      destruct rows as [|r2 rows]; [discriminate|].
      simpl in HS. injection HS as ->. simpl streak_loop. cbn [nth].
      rewrite (surjective_pairing (streak_step st (p, hp))) at 1.
      rewrite snd_streak_step. reflexivity.
    + simpl in Hj. change (nth_error rows (S j) = Some (dt, h)) in HS.
      simpl streak_loop. cbn [nth].
      apply (IH (streak_step st r) j Hj HS).
Qed.

Lemma ns_per_day_pos : 0 < ns_per_day.
Proof. reflexivity. Qed.

(** A row dated the calendar day after the previous one is at most one
    whole day later. *)
Lemma one_day_earlier_days_le_1 (prev dt : timestamp) :
  one_day_earlier prev dt -> days_le_1 dt prev = true.
Proof.
  destruct prev as [a|], dt as [b|]; simpl; try tauto.
  unfold day_of. intros E. unfold days_le_1, days_between.
  apply Z.leb_le.
  pose proof ns_per_day_pos as N.
  pose proof (Z.mul_div_le a ns_per_day N) as La.
  pose proof (Z.mul_succ_div_gt b ns_per_day N) as Lb.
  assert (b - a < ns_per_day * 2) by nia.
  assert ((b - a) / ns_per_day < 2)
    by (apply Z.div_lt_upper_bound; [exact N|lia]).
  lia.
Qed.

(** For dates without a time of day the whole days elapsed are the
    difference of the calendar days. *)
Lemma days_between_midnight (d p : Z) :
  days_between (midnight d) (midnight p) = Some (d - p).
Proof.
  unfold days_between, midnight. f_equal.
  replace (d * ns_per_day - p * ns_per_day) with ((d - p) * ns_per_day) by ring.
  apply Z.div_mul. pose proof ns_per_day_pos. lia.
Qed.

End Streaks.

(** For the rows of one employee in date order, [longest_streak]
    gives each row a counter such that: the row is worked exactly when its
    hours are a number above 0; a row that is not worked has counter 0; a
    worked row with no row before it has counter 1; a worked row dated the
    calendar day after the row before it has that row's counter plus 1; a
    worked row more than one whole day after the row before it has
    counter 1; and the long-streak flag of a row holds exactly when its
    counter is at least [streak_threshold]. *)
Lemma longest_streak_rules
    (dates : list Utils.timestamp) (hours : list pyfloat)
    (streak_threshold : Z) (i : nat) (dt : Utils.timestamp) (h : pyfloat)
    (Hrow : nth_error (combine dates hours) i = Some (dt, h)) :
  let s := AttendanceCheck.longest_streak dates hours in
  let cur := nth i s 0%Z in
  List.length s = List.length (combine dates hours)
  /\ (AttendanceCheck.worked h = true <-> exists x, h = Fin x /\ (0 < x)%R)
  /\ (AttendanceCheck.worked h = false -> cur = 0%Z)
  /\ (AttendanceCheck.worked h = true -> i = 0%nat -> cur = 1%Z)
  /\ (AttendanceCheck.worked h = true ->
      forall j p hp, i = S j ->
        nth_error (combine dates hours) j = Some (p, hp) ->
        one_day_earlier p dt -> cur = (nth j s 0 + 1)%Z)
  /\ (AttendanceCheck.worked h = true ->
      forall j p hp d, i = S j ->
        nth_error (combine dates hours) j = Some (p, hp) ->
        AttendanceCheck.days_between dt p = Some d -> (1 < d)%Z ->
        cur = 1%Z)
  /\ (AttendanceCheck.streak_flag streak_threshold (Some cur) = true
      <-> (streak_threshold <= cur)%Z).
Proof.
  intros s cur. subst cur s. unfold AttendanceCheck.longest_streak.
  set (rows := combine dates hours) in *.
  split; [apply length_streak_loop|].
  split.
  { unfold AttendanceCheck.worked, fgt, flt. destruct h as [x|].
    - rewrite Rltb_true. split.
      + intros Hx. exists x. split; [reflexivity|exact Hx].
      + intros [y [E Hy]]. injection E as ->. exact Hy.
    - split; [discriminate|]. intros [y [E _]]. discriminate. }
  assert (Hstep : forall j p hp, i = S j -> nth_error rows j = Some (p, hp) ->
            nth i (AttendanceCheck.streak_loop (0%Z, None) rows) 0%Z
            = fst (AttendanceCheck.streak_step
                     (nth j (AttendanceCheck.streak_loop (0%Z, None) rows) 0%Z,
                      Some p) (dt, h))).
  { intros j p hp -> Hj. apply (streak_loop_succ rows _ j p dt hp h Hj Hrow). }
  assert (Hfirst : i = 0%nat ->
            nth i (AttendanceCheck.streak_loop (0%Z, None) rows) 0%Z
            = fst (AttendanceCheck.streak_step (0%Z, None) (dt, h))).
  { intros ->. destruct rows as [|r rows']; [discriminate|].
    simpl in Hrow. injection Hrow as ->. reflexivity. }
  split.
  { intros W. destruct i as [|j].
    - rewrite Hfirst by reflexivity. simpl. rewrite W. reflexivity.
    - destruct (nth_error rows j) as [[p hp]|] eqn:Hj.
      + rewrite (Hstep j p hp eq_refl Hj). simpl. rewrite W. reflexivity.
      + exfalso. apply nth_error_None in Hj.
        assert (S j < List.length rows)%nat
          by (apply nth_error_Some; congruence).
        lia. }
  split.
  { intros W E. rewrite Hfirst by exact E. simpl. rewrite W. reflexivity. }
  split.
  { intros W j p hp E Hj Hday. rewrite (Hstep j p hp E Hj). simpl.
    rewrite W, (one_day_earlier_days_le_1 p dt Hday). reflexivity. }
  split.
  { intros W j p hp d E Hj Hd Hgap. rewrite (Hstep j p hp E Hj). simpl.
    unfold AttendanceCheck.days_le_1. rewrite W, Hd.
    replace (d <=? 1)%Z with false by (symmetry; apply Z.leb_gt; exact Hgap).
    reflexivity. }
  unfold AttendanceCheck.streak_flag. rewrite Z.geb_leb. apply Z.leb_le.
Qed.

(** Two worked days in a row: the second counter is the first plus one. *)
Example longest_streak_rules_two_days :
  let dates := [midnight 19723; midnight 19724] in
  let hours := [Fin 8; Fin 9] in
  nth_error (combine dates hours) 1 = Some (midnight 19724, Fin 9)
  /\ nth 1 (AttendanceCheck.longest_streak dates hours) 0%Z
     = (nth 0 (AttendanceCheck.longest_streak dates hours) 0 + 1)%Z.
Proof.
  intros dates hours.
  assert (Hrow : nth_error (combine dates hours) 1 = Some (midnight 19724, Fin 9))
    by reflexivity.
  split; [exact Hrow|].
  destruct (longest_streak_rules dates hours 12%Z 1 (midnight 19724) (Fin 9) Hrow)
    as [_ [_ [_ [_ [Hinc _]]]]].
  apply (Hinc ltac:(unfold AttendanceCheck.worked, fgt, flt; apply Rltb_true; lra)
              0%nat (midnight 19723) (Fin 8) eq_refl eq_refl).
  reflexivity.
Defined.

Lemma longest_streak_counter_rule
    (dates : list Utils.timestamp) (hours : list pyfloat)
    (streak_threshold : Z) (i : nat) (dt : Utils.timestamp) (h : pyfloat) :
  nth_error (combine dates hours) i = Some (dt, h) ->
  counter_rule (combine dates hours)
    (AttendanceCheck.longest_streak dates hours) streak_threshold i dt h.
Proof.
  intros Hrow.
  destruct (longest_streak_rules dates hours streak_threshold i dt h Hrow)
    as [_ R].
  exact R.
Qed.

(** Hours above 0 on 2024-01-01 to 01-05, 0 on 01-06, above 0 on 01-07 to
    01-10: the counters are 1, 2, 3, 4, 5, 0, 1, 2, 3, 4, and with
    threshold 4 the rows of 01-04, 01-05 and 01-10 are flagged. *)
Example longest_streak_january :
  let dates := map midnight [19723; 19724; 19725; 19726; 19727; 19728;
                             19729; 19730; 19731; 19732]%Z in
  let hours := [Fin 8; Fin 8; Fin 8; Fin 8; Fin 8; Fin 0;
                Fin 8; Fin 8; Fin 8; Fin 8] in
  AttendanceCheck.longest_streak dates hours
    = [1; 2; 3; 4; 5; 0; 1; 2; 3; 4]%Z
  /\ map (fun c => AttendanceCheck.streak_flag 4 (Some c))
         (AttendanceCheck.longest_streak dates hours)
     = [false; false; false; true; true; false; false; false; false; true].
Proof.
  intros dates hours.
  assert (E : AttendanceCheck.longest_streak dates hours
              = [1; 2; 3; 4; 5; 0; 1; 2; 3; 4]%Z).
  { unfold AttendanceCheck.longest_streak, dates, hours. simpl combine.
    unfold AttendanceCheck.streak_loop, AttendanceCheck.streak_step,
      AttendanceCheck.worked, fgt, flt.
    assert (H8 : Rltb 0 8 = true) by (apply Rltb_true; lra).
    assert (H0 : Rltb 0 0 = false) by (apply Rltb_false; lra).
    rewrite H8, H0. reflexivity. }
  split; [exact E|]. rewrite E. reflexivity.
Qed.

(** A gap of two days between worked rows starts the count again. *)
Example longest_streak_gap :
  AttendanceCheck.longest_streak [midnight 19723; midnight 19725]
    [Fin 8; Fin 8] = [1; 1]%Z.
Proof.
  unfold AttendanceCheck.longest_streak. simpl combine.
  unfold AttendanceCheck.streak_loop, AttendanceCheck.streak_step,
    AttendanceCheck.worked, fgt, flt.
  assert (H8 : Rltb 0 8 = true) by (apply Rltb_true; lra).
  rewrite H8. reflexivity.
Qed.

(** Timestamps that carry a time of day are compared by the whole days
    elapsed: 2024-01-01 23:00 and 2024-01-03 01:00 are 26 hours apart,
    which is one whole day, and the counter goes on. *)
Example longest_streak_time_of_day :
  AttendanceCheck.days_between
    (Utils.TS (19725 * AttendanceCheck.ns_per_day + 3600000000000))
    (Utils.TS (19723 * AttendanceCheck.ns_per_day + 82800000000000))
  = Some 1%Z
  /\ AttendanceCheck.longest_streak
       [Utils.TS (19723 * AttendanceCheck.ns_per_day + 82800000000000);
        Utils.TS (19725 * AttendanceCheck.ns_per_day + 3600000000000)]
       [Fin 8; Fin 8] = [1; 2]%Z.
Proof.
  split; [reflexivity|].
  unfold AttendanceCheck.longest_streak. simpl combine.
  unfold AttendanceCheck.streak_loop, AttendanceCheck.streak_step,
    AttendanceCheck.worked, fgt, flt.
  assert (H8 : Rltb 0 8 = true) by (apply Rltb_true; lra).
  rewrite H8. reflexivity.
Qed.

(** * Further properties of the code *)

(** ** The validators *)

Section Validators.

Import Utils.

Variable numeric_of_str : string -> option R.
Variable parse_datetime : cell -> option Z.

Lemma missing_columns_nil (df : DataFrame) (required : list string) :
  missing_columns df required = []
  <-> forall c, In c required -> has_column df c = true.
Proof.
  split.
  - intros E c Hc. destruct (has_column df c) eqn:Hh; [reflexivity|].
    assert (I : In c (missing_columns df required))
      by (apply missing_columns_spec; auto).
    rewrite E in I. destruct I.
  - intros H. destruct (missing_columns df required) as [|c l] eqn:E; [reflexivity|].
    assert (I : In c (missing_columns df required)) by (rewrite E; left; reflexivity).
    apply missing_columns_spec in I. destruct I as [I F].
    rewrite (H c I) in F. discriminate.
Qed.

Lemma null_count_zero (df : DataFrame) (c : string) :
  null_count df c = 0%nat <-> forall v, In v (column df c) -> isna v = false.
Proof.
  unfold null_count. split.
  - intros E v Hv. destruct (isna v) eqn:N; [|reflexivity].
    assert (I : In v (filter isna (column df c))) by (apply filter_In; auto).
    destruct (filter isna (column df c)); [destruct I|discriminate].
  - intros H. destruct (filter isna (column df c)) as [|v l] eqn:E; [reflexivity|].
    assert (I : In v (filter isna (column df c))) by (rewrite E; left; reflexivity).
    apply filter_In in I. destruct I as [I N]. rewrite (H v I) in N. discriminate.
Qed.

Lemma bad_null_nil (df : DataFrame) (required : list string) :
  bad_null df required = []
  <-> forall c, In c required ->
        forall v, In v (column df c) -> isna v = false.
Proof.
  unfold bad_null. split.
  - intros E c Hc. apply null_count_zero.
    destruct (null_count df c) as [|n] eqn:N; [reflexivity|].
    assert (I : In (c, S n)
                  (filter (fun e => (0 <? snd e)%nat)
                     (map (fun c => (c, null_count df c)) required))).
    { apply filter_In. split; [|reflexivity].
      apply in_map_iff. exists c. rewrite N. auto. }
    rewrite E in I. destruct I.
  - intros H.
    destruct (filter (fun e => (0 <? snd e)%nat)
                (map (fun c => (c, null_count df c)) required))
      as [|[c n] l] eqn:E; [reflexivity|].
    assert (I : In (c, n)
                  (filter (fun e => (0 <? snd e)%nat)
                     (map (fun c => (c, null_count df c)) required)))
      by (rewrite E; left; reflexivity).
    apply filter_In in I. destruct I as [I P]. simpl in P.
    apply in_map_iff in I. destruct I as [c' [Ec Hc]]. injection Ec as -> <-.
    rewrite (proj2 (null_count_zero df c) (H c Hc)) in P. discriminate.
Qed.

End Validators.

(** X1.  [validate_hr] reports no error exactly when each of the eight
    required columns is present and holds no missing value; out-of-range
    values and duplicated identifiers never make an error. *)
Theorem validate_hr_no_errors_iff
    (numeric_of_str : string -> option R) (df : DataFrame) :
  Utils.errors (Utils.validate_hr numeric_of_str df) = []
  <-> forall c, In c Utils.hr_required ->
        has_column df c = true
        /\ forall v, In v (column df c) -> isna v = false.
Proof.
  unfold Utils.validate_hr.
  destruct (Utils.missing_columns df Utils.hr_required) as [|m ms] eqn:M.
  - cbn [Utils.errors].
    pose proof (proj1 (missing_columns_nil df Utils.hr_required) M) as Hcols.
    destruct (Utils.bad_null df Utils.hr_required) as [|b bs] eqn:B.
    + pose proof (proj1 (bad_null_nil df Utils.hr_required) B) as Hnull.
      split; [|reflexivity]. intros _ c Hc. split; [apply Hcols|apply Hnull]; exact Hc.
    + split; [discriminate|]. intros H. exfalso.
      assert (E : Utils.bad_null df Utils.hr_required = [])
        by (apply bad_null_nil; intros c Hc; apply (H c Hc)).
      congruence.
  - cbn [Utils.errors]. split; [discriminate|]. intros H. exfalso.
    assert (E : Utils.missing_columns df Utils.hr_required = [])
      by (apply missing_columns_nil; intros c Hc; apply (H c Hc)).
    congruence.
Qed.

(** When a required column is missing, either validator stops at
    that: its report holds the missing-columns message alone and no
    warning, whatever the rest of the frame holds. *)
Remark validators_stop_at_missing_columns
    (numeric_of_str : string -> option R) (parse_datetime : cell -> option Z)
    (df : DataFrame) :
  (Utils.missing_columns df Utils.hr_required <> [] ->
   Utils.validate_hr numeric_of_str df
   = Utils.mkReport
       [Utils.missing_message (Utils.missing_columns df Utils.hr_required)] [])
  /\ (Utils.missing_columns df Utils.att_required <> [] ->
      Utils.validate_attendance numeric_of_str parse_datetime df
      = Utils.mkReport
          [Utils.missing_message (Utils.missing_columns df Utils.att_required)]
          []).
Proof.
  split; intros H.
  - unfold Utils.validate_hr.
    destruct (Utils.missing_columns df Utils.hr_required); [congruence|reflexivity].
  - unfold Utils.validate_attendance.
    destruct (Utils.missing_columns df Utils.att_required); [congruence|reflexivity].
Qed.

Lemma validators_stop_at_missing_columns_witness :
  Utils.validate_hr (fun _ => None)
    (mkDF ["社員ID"; "年齢"]%string [[("社員ID", CNaN); ("年齢", CNum 200)]%string])
  = Utils.mkReport
      ["必須カラムが不足しています: ['勤続年数', '平均残業時間h', '有給取得率', '評価(1-5)', '昇給回数', '部署異動回数']"%string]
      [].
Proof.
  apply (proj1 (validators_stop_at_missing_columns (fun _ => None) (fun _ => None)
                  (mkDF ["社員ID"; "年齢"]%string
                     [[("社員ID", CNaN); ("年齢", CNum 200)]%string]))).
  discriminate.
Defined.

(** X2.  [validate_attendance] reports no error exactly when the four
    required columns are present, none holds a missing value, and every
    date converts (none becomes NaT under coercion). *)
Theorem validate_attendance_no_errors_iff
    (numeric_of_str : string -> option R) (parse_datetime : cell -> option Z)
    (df : DataFrame) :
  Utils.errors (Utils.validate_attendance numeric_of_str parse_datetime df) = []
  <-> (forall c, In c Utils.att_required ->
         has_column df c = true
         /\ forall v, In v (column df c) -> isna v = false)
      /\ (forall v, In v (column df "日付") ->
            Utils.to_datetime_coerce parse_datetime v <> Utils.NaT).
Proof.
  unfold Utils.validate_attendance.
  destruct (Utils.missing_columns df Utils.att_required) as [|m ms] eqn:M.
  - cbn [Utils.errors].
    pose proof (proj1 (missing_columns_nil df Utils.att_required) M) as Hcols.
    set (dates := map (Utils.to_datetime_coerce parse_datetime) (column df "日付")).
    assert (Hdates : (0 <? List.length (filter Utils.is_nat dates))%nat = false
                     <-> forall v, In v (column df "日付") ->
                           Utils.to_datetime_coerce parse_datetime v <> Utils.NaT).
    { split.
      - intros E v Hv N. apply Nat.ltb_ge in E.
        assert (I : In (Utils.to_datetime_coerce parse_datetime v)
                      (filter Utils.is_nat dates)).
        { apply filter_In. split; [apply in_map; exact Hv|]. rewrite N. reflexivity. }
        destruct (filter Utils.is_nat dates); [destruct I|simpl in E; lia].
      - intros H. apply Nat.ltb_ge.
        destruct (filter Utils.is_nat dates) as [|t l] eqn:E; [simpl; lia|].
        exfalso.
        assert (I : In t (filter Utils.is_nat dates)) by (rewrite E; left; reflexivity).
        apply filter_In in I. destruct I as [I N].
        apply in_map_iff in I. destruct I as [v [<- Hv]].
        apply (H v Hv). destruct (Utils.to_datetime_coerce parse_datetime v);
          [discriminate|reflexivity]. }
    destruct (Utils.bad_null df Utils.att_required) as [|b bs] eqn:B.
    + pose proof (proj1 (bad_null_nil df Utils.att_required) B) as Hnull.
      destruct (0 <? List.length (filter Utils.is_nat dates))%nat eqn:D.
      * split; [discriminate|]. intros [_ H]. apply Hdates in H. discriminate.
      * split; [|reflexivity]. intros _. split.
        -- intros c Hc. split; [apply Hcols|apply Hnull]; exact Hc.
        -- apply Hdates. reflexivity.
    + assert (Hno : ~ (forall c, In c Utils.att_required ->
                         has_column df c = true
                         /\ forall v, In v (column df c) -> isna v = false)).
      { intros H.
        assert (E : Utils.bad_null df Utils.att_required = [])
          by (apply bad_null_nil; intros c Hc; apply (H c Hc)).
        congruence. }
      destruct (0 <? List.length (filter Utils.is_nat dates))%nat;
        (split; [discriminate|]); intros [H _]; exfalso; apply Hno; exact H.
  - cbn [Utils.errors]. split; [discriminate|]. intros [H _]. exfalso.
    assert (E : Utils.missing_columns df Utils.att_required = [])
      by (apply missing_columns_nil; intros c Hc; apply (H c Hc)).
    congruence.
Qed.

(** ** A validated frame passes detection *)

Section ValidatedDetection.

Import Utils AttendanceCheck.

Variable parse_datetime : cell -> option Z.

Lemma mapM_ok {A B} (f : A -> result B) (g : A -> B) (l : list A) :
  (forall a, In a l -> f a = Ok (g a)) -> mapM f l = Ok (map g l).
Proof.
  induction l as [|a l IH]; intros H; simpl; [reflexivity|].
  rewrite (H a) by (left; reflexivity). cbn [bind].
  rewrite IH by (intros b Hb; apply H; right; exact Hb). reflexivity.
Qed.

(** A date that survives coercion and is not missing converts without an
    exception, to the same timestamp. *)
Lemma to_datetime_of_coerce (v : cell) :
  to_datetime_coerce parse_datetime v <> NaT ->
  to_datetime parse_datetime v = Ok (to_datetime_coerce parse_datetime v).
Proof.
  destruct v as [x| |s|t]; simpl; try congruence;
    destruct (parse_datetime _); congruence.
Qed.

End ValidatedDetection.

(** ** What the streak counter counts *)

Section StreakMeaning.

Import Utils AttendanceCheck.
Open Scope Z_scope.

Lemma fst_streak_step_cases (c : Z) (prev : option timestamp)
    (dt : timestamp) (h : pyfloat) :
  (worked h = false /\ fst (streak_step (c, prev) (dt, h)) = 0)
  \/ (worked h = true /\ fst (streak_step (c, prev) (dt, h)) = 1)
  \/ (worked h = true /\ fst (streak_step (c, prev) (dt, h)) = c + 1
      /\ forall p, prev = Some p -> days_le_1 dt p = true).
Proof.
  simpl. destruct (worked h); [|left; auto]. right.
  destruct prev as [p|]; simpl.
  - destruct (days_le_1 dt p) eqn:G; [right|left]; auto.
    repeat split; auto. intros q E. injection E as <-. exact G.
  - right. repeat split; auto. discriminate.
Qed.

(** Two rows in a row: the counter of the second is one step from the
    counter and the date of the first. *)
Lemma streak_loop_pair (rows : list (timestamp * pyfloat))
    (st : Z * option timestamp) (j : nat)
    (p dt : timestamp) (hp h : pyfloat) :
  nth_error rows j = Some (p, hp) ->
  nth_error rows (S j) = Some (dt, h) ->
  exists c, nth_error (streak_loop st rows) j = Some c
            /\ nth_error (streak_loop st rows) (S j)
               = Some (fst (streak_step (c, Some p) (dt, h))).
Proof.
  revert st j. induction rows as [|r rows IH]; intros st j Hj HS.
  - destruct j; discriminate.
  - destruct j as [|j].
    + simpl in Hj. injection Hj as ->.
      destruct rows as [|r2 rows]; [discriminate|].
      simpl in HS. injection HS as ->.
      exists (fst (streak_step st (p, hp))). split; [reflexivity|].
      simpl streak_loop. cbn [nth_error].
      rewrite (surjective_pairing (streak_step st (p, hp))) at 1.
      rewrite snd_streak_step. reflexivity.
    + simpl in Hj. change (nth_error rows (S j) = Some (dt, h)) in HS.
      destruct (IH (streak_step st r) j Hj HS) as [c [E1 E2]].
      exists c. split; [exact E1|exact E2].
Qed.

Lemma streak_loop_row (rows : list (timestamp * pyfloat))
    (st : Z * option timestamp) (i : nat) (s : Z) :
  nth_error (streak_loop st rows) i = Some s ->
  exists dt h, nth_error rows i = Some (dt, h).
Proof.
  intros E.
  assert (L : (i < List.length rows)%nat).
  { rewrite <- (length_streak_loop rows st). apply nth_error_Some. congruence. }
  destruct (nth_error rows i) as [[dt h]|] eqn:R; [eauto|].
  apply nth_error_None in R. lia.
Qed.

Lemma streak_loop_head (st : Z * option timestamp) (r : timestamp * pyfloat)
    (rows : list (timestamp * pyfloat)) :
  nth_error (streak_loop st (r :: rows)) 0 = Some (fst (streak_step st r)).
Proof. reflexivity. Qed.

Lemma streak_loop_tail (st : Z * option timestamp) (r : timestamp * pyfloat)
    (rows : list (timestamp * pyfloat)) (i : nat) :
  nth_error (streak_loop st (r :: rows)) (S i)
  = nth_error (streak_loop (streak_step st r) rows) i.
Proof. reflexivity. Qed.

(** The counter is never negative, never more than the number of rows
    read so far, and positive exactly on a worked row. *)
Lemma streak_loop_bounds (rows : list (timestamp * pyfloat))
    (st : Z * option timestamp) (i : nat) (s : Z) (dt : timestamp) (h : pyfloat) :
  0 <= fst st ->
  nth_error (streak_loop st rows) i = Some s ->
  nth_error rows i = Some (dt, h) ->
  0 <= s <= fst st + Z.of_nat i + 1 /\ (1 <= s <-> worked h = true).
Proof.
  revert st i. induction rows as [|r rows IH]; intros st i Hst Hs Hr.
  - destruct i; discriminate.
  - destruct st as [c prev]. destruct i as [|i].
    + simpl in Hr. injection Hr as ->.
      rewrite streak_loop_head in Hs.
      assert (Es : fst (streak_step (c, prev) (dt, h)) = s) by congruence.
      clear Hs. simpl fst in Hst.
      destruct (fst_streak_step_cases c prev dt h) as [[W E]|[[W E]|[W [E _]]]];
        rewrite E in Es; subst s; rewrite W; simpl fst;
        split; try lia; split; try lia; try congruence; auto.
    + rewrite streak_loop_tail in Hs. cbn [nth_error] in Hr.
      destruct r as [d0 h0].
      assert (B : 0 <= fst (streak_step (c, prev) (d0, h0)) <= c + 1).
      { simpl fst in Hst.
        destruct (fst_streak_step_cases c prev d0 h0)
          as [[_ ->]|[[_ ->]|[_ [-> _]]]]; lia. }
      destruct (IH (streak_step (c, prev) (d0, h0)) i (proj1 B) Hs Hr) as [Hb Hw].
      split; [|exact Hw]. simpl fst. lia.
Qed.

End StreakMeaning.

(** X4.  In [longest_streak] the counter of a row is never negative and
    never exceeds the number of rows up to and including it, and it is at
    least 1 exactly on the rows with hours above 0. *)
Theorem longest_streak_bounds
    (dates : list Utils.timestamp) (hours : list pyfloat)
    (i : nat) (s : Z) (dt : Utils.timestamp) (h : pyfloat) :
  nth_error (AttendanceCheck.longest_streak dates hours) i = Some s ->
  nth_error (combine dates hours) i = Some (dt, h) ->
  (0 <= s <= Z.of_nat i + 1)%Z
  /\ ((1 <= s)%Z <-> AttendanceCheck.worked h = true).
Proof.
  intros Hs Hr. unfold AttendanceCheck.longest_streak in Hs.
  destruct (streak_loop_bounds (combine dates hours) (0%Z, None) i s dt h
              (Z.le_refl 0) Hs Hr) as [B W].
  simpl fst in B. split; [lia|exact W].
Qed.

Lemma longest_streak_bounds_witness :
  (0 <= 2 <= Z.of_nat 1 + 1)%Z
  /\ ((1 <= 2)%Z <-> AttendanceCheck.worked (Fin 9) = true).
Proof.
  apply (longest_streak_bounds [midnight 19723; midnight 19724] [Fin 8; Fin 9]
           1 2%Z (midnight 19724) (Fin 9)).
  - unfold AttendanceCheck.longest_streak. simpl combine.
    unfold AttendanceCheck.streak_loop, AttendanceCheck.streak_step,
      AttendanceCheck.worked, fgt, flt.
    assert (H8 : Rltb 0 8 = true) by (apply Rltb_true; lra).
    assert (H9 : Rltb 0 9 = true) by (apply Rltb_true; lra).
    rewrite H8, H9. reflexivity.
  - reflexivity.
Defined.

Section StreakWindow.

Import Utils AttendanceCheck.
Open Scope Z_scope.

(** A counter of 2 or more continues the row before: that row has the
    counter minus one and is at most one whole day earlier. *)
Lemma longest_streak_back (dates : list timestamp) (hours : list pyfloat)
    (i : nat) (k : Z) :
  nth_error (longest_streak dates hours) i = Some k ->
  2 <= k ->
  exists p hp dt h,
    (1 <= i)%nat
    /\ nth_error (combine dates hours) (i - 1) = Some (p, hp)
    /\ nth_error (combine dates hours) i = Some (dt, h)
    /\ days_le_1 dt p = true
    /\ nth_error (longest_streak dates hours) (i - 1) = Some (k - 1).
Proof.
  unfold longest_streak. set (rows := combine dates hours).
  intros Hk H2.
  destruct (streak_loop_row rows _ i k Hk) as [dt [h Hr]].
  destruct (streak_loop_bounds rows (0, None) i k dt h (Z.le_refl 0) Hk Hr)
    as [B _]. simpl fst in B.
  destruct i as [|j]; [simpl in B; lia|].
  assert (Lj : (j < List.length rows)%nat).
  { assert (S j < List.length rows)%nat by (apply nth_error_Some; congruence). lia. }
  destruct (nth_error rows j) as [[p hp]|] eqn:Rj;
    [|apply nth_error_None in Rj; lia].
  destruct (streak_loop_pair rows (0, None) j p dt hp h Rj Hr) as [c [Ec Es]].
  rewrite Hk in Es.
  assert (Es' : k = fst (streak_step (c, Some p) (dt, h))) by congruence.
  clear Es. rename Es' into Es.
  exists p, hp, dt, h. replace (S j - 1)%nat with j by lia.
  split; [lia|]. split; [exact Rj|]. split; [exact Hr|].
  destruct (fst_streak_step_cases c (Some p) dt h) as [[_ E]|[[_ E]|[_ [E G]]]];
    rewrite E in Es; try lia.
  split; [apply G; reflexivity|]. rewrite Ec. f_equal. lia.
Qed.

Lemma longest_streak_countdown (dates : list timestamp) (hours : list pyfloat)
    (i : nat) (k : Z) :
  nth_error (longest_streak dates hours) i = Some k ->
  forall d : nat, Z.of_nat d < k ->
    (d <= i)%nat
    /\ nth_error (longest_streak dates hours) (i - d) = Some (k - Z.of_nat d).
Proof.
  intros Hk d. induction d as [|d IH]; intros Hd.
  - split; [lia|]. rewrite Nat.sub_0_r, Z.sub_0_r. exact Hk.
  - destruct IH as [Hle Hs]; [lia|].
    destruct (longest_streak_back dates hours (i - d) (k - Z.of_nat d) Hs)
      as [p [hp [dt [h [H1 [_ [_ [_ Hprev]]]]]]]]; [lia|].
    split; [lia|].
    replace (i - S d)%nat with (i - d - 1)%nat by lia.
    rewrite Hprev. f_equal. lia.
Qed.

End StreakWindow.

(** X5.  A counter of [k] at a row means what it says: the [k] rows ending
    at that row all have hours above 0, their counters run 1, 2, ..., k,
    and each of them but the first is at most one whole day after the row
    before it. *)
Theorem longest_streak_window
    (dates : list Utils.timestamp) (hours : list pyfloat) (i : nat) (k : Z)
    (Hk : nth_error (AttendanceCheck.longest_streak dates hours) i = Some k)
    (d : nat) (Hd : (Z.of_nat d < k)%Z) :
  (d <= i)%nat
  /\ nth_error (AttendanceCheck.longest_streak dates hours) (i - d)
     = Some (k - Z.of_nat d)%Z
  /\ (exists dt h, nth_error (combine dates hours) (i - d) = Some (dt, h)
                   /\ AttendanceCheck.worked h = true)
  /\ ((Z.of_nat d + 1 < k)%Z ->
      exists p hp dt h,
        nth_error (combine dates hours) (i - d - 1) = Some (p, hp)
        /\ nth_error (combine dates hours) (i - d) = Some (dt, h)
        /\ AttendanceCheck.days_le_1 dt p = true).
Proof.
  destruct (longest_streak_countdown dates hours i k Hk d Hd) as [Hle Hs].
  split; [exact Hle|]. split; [exact Hs|]. split.
  - pose proof Hs as Hs'. unfold AttendanceCheck.longest_streak in Hs'.
    destruct (streak_loop_row _ _ _ _ Hs') as [dt [h Hr]].
    exists dt, h. split; [exact Hr|].
    apply (longest_streak_bounds dates hours (i - d) _ dt h Hs Hr). lia.
  - intros Hd2.
    destruct (longest_streak_back dates hours (i - d) _ Hs)
      as [p [hp [dt [h [_ [Hp [Hr [G _]]]]]]]]; [lia|].
    exists p, hp, dt, h. auto.
Qed.

Lemma two_day_streak :
  AttendanceCheck.longest_streak [midnight 19723; midnight 19724] [Fin 8; Fin 9]
  = [1; 2]%Z.
Proof.
  unfold AttendanceCheck.longest_streak. simpl combine.
  unfold AttendanceCheck.streak_loop, AttendanceCheck.streak_step,
    AttendanceCheck.worked, fgt, flt.
  assert (H8 : Rltb 0 8 = true) by (apply Rltb_true; lra).
  assert (H9 : Rltb 0 9 = true) by (apply Rltb_true; lra).
  rewrite H8, H9. reflexivity.
Qed.

Lemma longest_streak_window_witness :
  (1 <= 1)%nat
  /\ nth_error (AttendanceCheck.longest_streak
                  [midnight 19723; midnight 19724] [Fin 8; Fin 9]) (1 - 1)
     = Some (2 - Z.of_nat 1)%Z.
Proof.
  assert (Hk : nth_error (AttendanceCheck.longest_streak
                            [midnight 19723; midnight 19724] [Fin 8; Fin 9]) 1
               = Some 2%Z) by (rewrite two_day_streak; reflexivity).
  assert (Hd : (Z.of_nat 1 < 2)%Z) by (simpl; lia).
  destruct (longest_streak_window _ _ 1 2%Z Hk 1 Hd) as [A [B _]].
  split; [exact A|exact B].
Defined.

(** ** The range of the rule-based score *)

Section ScoreRange.

Import RiskModel.
Open Scope R_scope.

Lemma exp_078_le : exp (78 / 100) <= 7 / 3.
Proof.
  set (y := exp (975 / 10000)).
  assert (Hy0 : 0 < y) by apply exp_pos.
  assert (Hy : y < 400 / 361).
  { assert (Hi : 1 + - (975 / 10000) < exp (- (975 / 10000)))
      by (apply exp_ineq1; lra).
    assert (Hp : exp (975 / 10000) * exp (- (975 / 10000)) = 1).
    { rewrite <- exp_plus. replace (975 / 10000 + - (975 / 10000)) with 0 by lra.
      apply exp_0. }
    fold y in Hp. pose proof (exp_pos (- (975 / 10000))) as He. nra. }
  assert (E2 : exp (195 / 1000) = y * y).
  { unfold y. rewrite <- exp_plus. f_equal. lra. }
  assert (E4 : exp (39 / 100) = (y * y) * (y * y)).
  { rewrite <- E2, <- exp_plus. f_equal. lra. }
  assert (E8 : exp (78 / 100) = ((y * y) * (y * y)) * ((y * y) * (y * y))).
  { rewrite <- E4, <- exp_plus. f_equal. lra. }
  rewrite E8.
  assert (H2 : y * y < 400 / 361 * (400 / 361)) by nra.
  assert (H2p : 0 < y * y) by nra.
  assert (H4 : (y * y) * (y * y)
               < 400 / 361 * (400 / 361) * (400 / 361 * (400 / 361))) by nra.
  assert (H4p : 0 < (y * y) * (y * y)) by nra.
  set (t := (y * y) * (y * y)) in *.
  set (c := 400 / 361 * (400 / 361) * (400 / 361 * (400 / 361))) in *.
  assert (Hc : c * c <= 7 / 3) by (unfold c; lra).
  assert (Hc0 : 0 < c) by (unfold c; lra).
  assert (t * t < c * c) by nra. lra.
Qed.

Lemma sigmoid_range (x : R) :
  x <= 26 / 100 -> 0 < 1 / (1 + exp (- (x * 3))) <= 7 / 10.
Proof.
  intros Hx.
  assert (He : exp (- (78 / 100)) <= exp (- (x * 3))).
  { destruct (Req_dec_T (- (78 / 100)) (- (x * 3))) as [->|N]; [lra|].
    left. apply exp_increasing. lra. }
  assert (Hinv : exp (78 / 100) * exp (- (78 / 100)) = 1).
  { rewrite <- exp_plus. replace (78 / 100 + - (78 / 100)) with 0 by lra.
    apply exp_0. }
  pose proof exp_078_le as H78. pose proof (exp_pos (78 / 100)) as Hp.
  pose proof (exp_pos (- (78 / 100))) as Hn.
  assert (Hlow : 3 / 7 <= exp (- (78 / 100))) by nra.
  set (e := exp (- (x * 3))) in *.
  assert (He0 : 0 < 1 + e) by lra.
  split.
  - apply Rdiv_lt_0_compat; lra.
  - apply Rmult_le_reg_r with (1 + e); [exact He0|].
    unfold Rdiv. rewrite Rmult_assoc, Rinv_l by lra. lra.
Qed.

Lemma clamp_within (a : pyfloat) :
  within 0 1 (py_min (py_max a (Fin 0)) (Fin 1)).
Proof.
  destruct a as [u|]; [|exact I].
  unfold py_max, py_min, fgt, flt.
  destruct (Rltb u 0) eqn:A; [apply Rltb_true in A | apply Rltb_false in A];
    cbn [flt];
    match goal with |- context [Rltb 1 ?z] =>
      destruct (Rltb 1 z) eqn:B; [apply Rltb_true in B | apply Rltb_false in B]
    end; simpl; lra.
Qed.

(** Adding one contribution moves the running sum by at most its weight,
    in the direction of its sign. *)
Lemma contribution_within (w : R) (norm : R -> R) (v : option pyfloat)
    (lo hi : R) (acc : pyfloat) :
  within lo hi acc ->
  within (lo + Rmin w 0) (hi + Rmax w 0)
         (fold_left fadd (contribution w norm v) acc).
Proof.
  intros Hacc.
  pose proof (Rmin_r w 0) as Hmin0. pose proof (Rmax_r w 0) as Hmax0.
  pose proof (Rmin_l w 0) as Hminw. pose proof (Rmax_l w 0) as Hmaxw.
  destruct v as [a|]; simpl.
  - pose proof (clamp_within (flift1 norm a)) as Hc.
    destruct (py_min (py_max (flift1 norm a) (Fin 0)) (Fin 1)) as [c|];
      [|destruct acc; exact I].
    destruct acc as [s|]; [|exact I]. simpl in *.
    assert (Rmin w 0 <= w * c <= Rmax w 0).
    { unfold Rmin, Rmax in *. destruct (Rle_dec w 0); nra. }
    lra.
  - destruct acc as [s|]; [|exact I]. simpl in *. lra.
Qed.

Lemma within_weaken (lo hi lo' hi' : R) (c : pyfloat) :
  lo' <= lo -> hi <= hi' -> within lo hi c -> within lo' hi' c.
Proof. destruct c; simpl; [lra|auto]. Qed.

(** The weighted sum of a row lies between -0.70 and 0.26 (or is NaN). *)
Lemma py_sum_contributions_within
    (float_of_str : string -> option pyfloat) (row : Row) :
  within (- (70 / 100)) (26 / 100) (py_sum (contributions float_of_str row)).
Proof.
  unfold py_sum, contributions. rewrite !fold_left_app.
  assert (H0 : within 0 0 (Fin 0)) by (simpl; lra).
  pose proof (contribution_within (-0.10) (fun v => v / 10)
                (get float_of_str row "勤続年数") 0 0 _ H0) as H1.
  pose proof (contribution_within (-0.05) (fun v => (v - 20) / 30)
                (get float_of_str row "年齢") _ _ _ H1) as H2.
  pose proof (contribution_within 0.18 (fun v => v / 60)
                (get float_of_str row "平均残業時間h") _ _ _ H2) as H3.
  pose proof (contribution_within (-0.20) (fun v => v / 100)
                (get float_of_str row "有給取得率") _ _ _ H3) as H4.
  pose proof (contribution_within (-0.25) (fun v => (v - 1) / 4)
                (get float_of_str row "評価(1-5)") _ _ _ H4) as H5.
  pose proof (contribution_within (-0.10) (fun v => v / 5)
                (get float_of_str row "昇給回数") _ _ _ H5) as H6.
  pose proof (contribution_within 0.08 (fun v => v / 3)
                (get float_of_str row "部署異動回数") _ _ _ H6) as H7.
  eapply within_weaken; [| |exact H7];
    unfold Rmin, Rmax; repeat destruct (Rle_dec _ _); lra.
Qed.

(** The rule-based score is NaN or lies in (0, 0.7]. *)
Lemma rule_based_score_within
    (float_of_str : string -> option pyfloat) (row : Row) :
  match rule_based_score float_of_str row with
  | NaN => True
  | Fin p => 0 < p <= 7 / 10
  end.
Proof.
  unfold rule_based_score.
  pose proof (py_sum_contributions_within float_of_str row) as Hs.
  set (x := match contributions float_of_str row with
            | [] => Fin 0
            | _ :: _ => py_sum (contributions float_of_str row)
            end).
  assert (Hx : within (- (70 / 100)) (26 / 100) x).
  { unfold x. destruct (contributions float_of_str row); [simpl; lra|exact Hs]. }
  destruct x as [v|]; [|exact I]. simpl in Hx. simpl.
  destruct (sigmoid_range v (proj2 Hx)) as [P1 P2].
  unfold Rmin, Rmax. repeat destruct (Rle_dec _ _); lra.
Qed.

End ScoreRange.

Section NeverHigh.

Import RiskModel AttendanceCheck.
Open Scope R_scope.

(** Rounding to the nearest integer stays within integer bounds. *)
Lemma rint_bounds (x : R) (lo hi : Z) :
  IZR lo <= x <= IZR hi -> (lo <= rint x <= hi)%Z.
Proof.
  intros [Hlo Hhi]. unfold rint.
  destruct (base_Int_part x) as [B1 B2].
  set (f := Int_part x) in *.
  assert (Flo : (lo <= f)%Z).
  { apply Z.lt_succ_r. apply lt_IZR. rewrite succ_IZR. lra. }
  assert (Fhi : (f <= hi)%Z) by (apply le_IZR; lra).
  destruct (Rltb (x - IZR f) (1 / 2)) eqn:A; [lia|].
  apply Rltb_false in A.
  assert (Fhi' : (f + 1 <= hi)%Z).
  { apply Z.lt_succ_r. apply lt_IZR. rewrite succ_IZR, plus_IZR. lra. }
  destruct (Rltb (1 / 2) (x - IZR f)); [lia|].
  destruct (Z.even f); lia.
Qed.

(** The percentage reported for a rule-based score is NaN or a number
    from 0 to 70, and its default tier is Low or Medium. *)
Lemma rule_based_percent (float_of_str : string -> option pyfloat) (row : Row) :
  let q := np_round1 (fmul (rule_based_score float_of_str row) (Fin 100)) in
  (q = NaN /\ cut1 default_bins tier_labels q = None)
  \/ (exists v, q = Fin v /\ 0 <= v <= 70
                /\ (cut1 default_bins tier_labels q = Some Low
                    \/ cut1 default_bins tier_labels q = Some Medium)).
Proof.
  intro q. subst q.
  pose proof (rule_based_score_within float_of_str row) as Hp.
  destruct (rule_based_score float_of_str row) as [p|]; [|left; split; reflexivity].
  right. cbn [fmul flift2 np_round1 flift1].
  assert (Hb : (0 <= rint (p * 100 * 10) <= 700)%Z)
    by (apply rint_bounds; lra).
  set (k := rint (p * 100 * 10)) in *.
  assert (Hk : 0 <= IZR k <= 700)
    by (split; [apply (IZR_le 0)|apply (IZR_le k 700)]; lia).
  exists (IZR k / 10). split; [reflexivity|]. split; [lra|].
  unfold default_bins. rewrite cut1_tier_bins by lra.
  rcases; auto.
Qed.

End NeverHigh.

(** X8.  The rule-based score is never above 0.7: on the rule-based path
    of [predict_attrition] every reported probability is NaN or a number
    from 0 to 70 percent, and no row is given the tier High by the default
    bins. *)
Theorem rule_based_path_never_high
    (float_of_str : string -> option pyfloat)
    (logreg_proba : list string -> DataFrame -> result (list pyfloat))
    (df : DataFrame)
    (Hpath : has_column df "attrition"
             && (0 <? List.length
                        (filter (has_column df) RiskModel.PREFERRED_FEATURES))%nat
             = false) :
  exists res,
    RiskModel.predict_attrition float_of_str logreg_proba df
    = Ok (res, "Rule-Based"%string)
    /\ Forall (fun y =>
                 RiskModel.r_tier y <> Some High
                 /\ match RiskModel.r_prob y with
                    | NaN => RiskModel.r_tier y = None
                    | Fin v => (0 <= v <= 70)%R
                    end) res.
Proof.
  unfold RiskModel.predict_attrition. rewrite Hpath. cbn [bind].
  unfold cut. rewrite increasing_default_bins. cbn [bind].
  eexists. split; [reflexivity|]. cbv zeta.
  apply Forall_forall. intros y Hy. apply in_sort_by in Hy.
  set (ids := if has_column df "社員ID" then column df "社員ID"
              else RiskModel.arange1 (List.length (rows df))) in *.
  set (pct := map (fun p => np_round1 (fmul p (Fin 100)))
                (map (fun r => RiskModel.rule_based_score float_of_str
                                 (RiskModel.row_view df r)) (rows df))) in *.
  assert (Li : List.length pct = List.length ids).
  { unfold pct, ids. rewrite !length_map.
    destruct (has_column df "社員ID");
      [unfold column; rewrite length_map|rewrite length_arange1]; reflexivity. }
  assert (Hbase : forall l,
            In l (map (fun e => RiskModel.mkRisk (fst (fst e)) (snd (fst e))
                                  (snd e) [])
                    (combine (RiskModel.zip_outer ids pct)
                       (map (cut1 RiskModel.default_bins tier_labels)
                          (map snd (RiskModel.zip_outer ids pct))))) ->
            RiskModel.r_tier l <> Some High
            /\ match RiskModel.r_prob l with
               | NaN => RiskModel.r_tier l = None
               | Fin v => (0 <= v <= 70)%R
               end).
  { intros l Hl. apply in_map_iff in Hl. destruct Hl as [[[i p] t] [<- He]].
    rewrite map_map in He. apply in_combine_map in He. destruct He as [Hin ->].
    apply (in_zip_outer ids pct (i, p) Li) in Hin. cbn [snd fst] in Hin |- *.
    cbn [RiskModel.r_prob RiskModel.r_tier].
    unfold pct in Hin. rewrite map_map in Hin. apply in_map_iff in Hin.
    destruct Hin as [r [<- _]].
    destruct (rule_based_percent float_of_str (RiskModel.row_view df r))
      as [[E1 E2]|[v [E1 [Hv [E2|E2]]]]]; cbv zeta in E1, E2;
      rewrite E1 in *; rewrite E2; split; try discriminate;
      try reflexivity; exact Hv. }
  destruct (filter (has_column df) RiskModel.ref_candidates) as [|c cs].
  - apply Hbase. exact Hy.
  - apply merge_left_fields in Hy. destruct Hy as [l [Hl [-> ->]]].
    apply Hbase. exact Hl.
Qed.

Lemma rule_based_path_never_high_witness :
  exists res,
    RiskModel.predict_attrition (fun _ => None) (fun _ _ => Raise LibraryError)
      (mkDF ["社員ID"; "平均残業時間h"]%string
         [[("社員ID", CStr "E1"); ("平均残業時間h", CNum 200)]%string])
    = Ok (res, "Rule-Based"%string)
    /\ Forall (fun y =>
                 RiskModel.r_tier y <> Some High
                 /\ match RiskModel.r_prob y with
                    | NaN => RiskModel.r_tier y = None
                    | Fin v => (0 <= v <= 70)%R
                    end) res.
Proof.
  apply (rule_based_path_never_high (fun _ => None)
           (fun _ _ => Raise LibraryError)
           (mkDF ["社員ID"; "平均残業時間h"]%string
              [[("社員ID", CStr "E1"); ("平均残業時間h", CNum 200)]%string])).
  reflexivity.
Defined.

(** ** Direction of the features in the rule-based score *)

Section ScoreDirection.

Import Utils RiskModel.
Open Scope R_scope.

Lemma not_above_refl (c : pyfloat) : not_above c c.
Proof. destruct c; simpl; [lra|exact I]. Qed.

Lemma fold_fadd_not_above (l : list pyfloat) (c1 c2 : pyfloat) :
  not_above c1 c2 -> not_above (fold_left fadd l c1) (fold_left fadd l c2).
Proof.
  revert c1 c2. induction l as [|a l IH]; intros c1 c2 H; simpl; [exact H|].
  apply IH. destruct c1, c2, a; simpl in *; try tauto; lra.
Qed.

Lemma clamp_fin (u : R) :
  py_min (py_max (Fin u) (Fin 0)) (Fin 1) = Fin (Rmin (Rmax u 0) 1).
Proof.
  unfold py_max, py_min, fgt, flt, Rmin, Rmax.
  destruct (Rltb u 0) eqn:A; [apply Rltb_true in A | apply Rltb_false in A];
    cbn [flt];
    match goal with |- context [Rltb 1 ?z] =>
      destruct (Rltb 1 z) eqn:B; [apply Rltb_true in B | apply Rltb_false in B]
    end; repeat destruct (Rle_dec _ _); f_equal; lra.
Qed.

Lemma clamp_monotone (u v : R) :
  u <= v -> Rmin (Rmax u 0) 1 <= Rmin (Rmax v 0) 1.
Proof. intros H. unfold Rmin, Rmax. repeat destruct (Rle_dec _ _); lra. Qed.

Lemma sigmoid_monotone (x y : R) :
  x <= y -> 1 / (1 + exp (- (x * 3))) <= 1 / (1 + exp (- (y * 3))).
Proof.
  intros H.
  assert (He : exp (- (y * 3)) <= exp (- (x * 3))).
  { destruct (Req_dec_T (- (y * 3)) (- (x * 3))) as [->|N]; [lra|].
    left. apply exp_increasing. lra. }
  pose proof (exp_pos (- (x * 3))). pose proof (exp_pos (- (y * 3))).
  unfold Rdiv. rewrite !Rmult_1_l. apply Rinv_le_contravar; lra.
Qed.

(** The score as a function of the list of contributions. *)
Lemma rule_based_score_of_sum
    (float_of_str : string -> option pyfloat) (row : Row) :
  rule_based_score float_of_str row
  = clip01 (flift1 (fun x => 1 / (1 + exp (- (x * 3))))
              (py_sum (contributions float_of_str row))).
Proof.
  unfold rule_based_score.
  destruct (contributions float_of_str row); reflexivity.
Qed.

Lemma score_not_above (s1 s2 : pyfloat) :
  not_above s1 s2 ->
  not_above (clip01 (flift1 (fun x => 1 / (1 + exp (- (x * 3)))) s1))
            (clip01 (flift1 (fun x => 1 / (1 + exp (- (x * 3)))) s2)).
Proof.
  destruct s1 as [a|], s2 as [b|]; simpl; try tauto.
  intros H. pose proof (sigmoid_monotone a b H).
  unfold Rmin, Rmax. repeat destruct (Rle_dec _ _); lra.
Qed.

End ScoreDirection.

(** X9.  Overtime is a risk factor and the rating a protective one: if
    two rows give the same value for every other feature, the row with
    more average overtime never has the lower rule-based score, and the
    row with the higher rating never has the higher score (both scores
    are numbers, or both are NaN). *)
Theorem rule_based_score_direction
    (float_of_str : string -> option pyfloat) (r1 r2 : Row)
    (c : string) (a b : R)
    (Hc : c = "平均残業時間h"%string \/ c = "評価(1-5)"%string)
    (Hother : forall c', In c' RiskModel.PREFERRED_FEATURES -> c' <> c ->
                RiskModel.get float_of_str r1 c' = RiskModel.get float_of_str r2 c')
    (H1 : RiskModel.get float_of_str r1 c = Some (Fin a))
    (H2 : RiskModel.get float_of_str r2 c = Some (Fin b))
    (Hab : (a <= b)%R) :
  (c = "平均残業時間h"%string ->
   not_above (RiskModel.rule_based_score float_of_str r1)
             (RiskModel.rule_based_score float_of_str r2))
  /\ (c = "評価(1-5)"%string ->
      not_above (RiskModel.rule_based_score float_of_str r2)
                (RiskModel.rule_based_score float_of_str r1)).
Proof.
  rewrite !rule_based_score_of_sum.
  split; intros ->; apply score_not_above;
    unfold RiskModel.py_sum, RiskModel.contributions;
    rewrite !fold_left_app;
    rewrite H1, H2;
    rewrite !(Hother _) by (simpl; first [tauto | discriminate]).
  - repeat apply fold_fadd_not_above.
    unfold RiskModel.contribution. cbn [fold_left flift1]. rewrite !clamp_fin.
    set (acc := fold_left fadd _ _).
    pose proof (clamp_monotone (a / 60) (b / 60) ltac:(lra)) as Hm.
    destruct acc; cbn [not_above fadd fmul flift2]; [lra|exact I].
  - repeat apply fold_fadd_not_above.
    unfold RiskModel.contribution. cbn [fold_left flift1].
    rewrite !clamp_fin.
    set (acc := fold_left fadd _ _).
    pose proof (clamp_monotone ((a - 1) / 4) ((b - 1) / 4) ltac:(lra)) as Hm.
    destruct acc; cbn [not_above fadd fmul flift2]; [lra|exact I].
Qed.

Lemma rule_based_score_direction_witness :
  not_above
    (RiskModel.rule_based_score (fun _ => None)
       [("勤続年数", CNum 3); ("平均残業時間h", CNum 10)]%string)
    (RiskModel.rule_based_score (fun _ => None)
       [("勤続年数", CNum 3); ("平均残業時間h", CNum 50)]%string).
Proof.
  apply (proj1 (rule_based_score_direction (fun _ => None)
                  [("勤続年数", CNum 3); ("平均残業時間h", CNum 10)]%string
                  [("勤続年数", CNum 3); ("平均残業時間h", CNum 50)]%string
                  "平均残業時間h" 10 50 (or_introl eq_refl)
                  ltac:(intros c' Hin Hne; simpl in Hin;
                        repeat (destruct Hin as [<-|Hin];
                                [first [reflexivity | exfalso; apply Hne; reflexivity]|]);
                        destruct Hin)
                  eq_refl eq_refl ltac:(lra))).
  reflexivity.
Defined.

(** ** The KPI counters and the tier labels *)

Section KpiCounters.

Import RiskModel App.
Open Scope R_scope.

Lemma combine_map_self {A B} (g : A -> B) (l : list A) :
  combine l (map g l) = map (fun x => (x, g x)) l.
Proof. induction l as [|a l IH]; simpl; [reflexivity|]. rewrite IH. reflexivity. Qed.

Lemma count_split {A} (f g h : A -> bool) (l : list A) :
  (forall a, In a l ->
     (if f a then 1 else 0) = (if g a then 1 else 0) + (if h a then 1 else 0))%nat ->
  List.length (filter f l)
  = (List.length (filter g l) + List.length (filter h l))%nat.
Proof.
  induction l as [|a l IH]; intros H; [reflexivity|].
  specialize (IH (fun b Hb => H b (or_intror Hb))).
  specialize (H a (or_introl eq_refl)). simpl.
  destruct (f a), (g a), (h a); simpl in *; lia.
Qed.

End KpiCounters.

(** X10.  On the slider ranges the re-bucketing pass returns, and the
    "High" KPI of the risk tab counts the rows labelled High plus the rows
    whose probability is exactly the High threshold: the counter and the
    labels agree except on the threshold itself. *)
Theorem high_kpi_counts_labels_and_threshold
    (result_df : list RiskModel.RiskResult) (attr_med_thr attr_high_thr : Z)
    (Hm : (20 <= attr_med_thr <= 90)%Z) (Hh : (50 <= attr_high_thr <= 95)%Z)
    (Hp : forall r, In r result_df -> within 0 100 (RiskModel.r_prob r)) :
  exists out,
    App.rebucket result_df attr_med_thr attr_high_thr = Ok out
    /\ App.high_cnt out attr_high_thr
       = (List.length (filter labelled_high out)
          + List.length (filter (prob_is (IZR attr_high_thr)) out))%nat.
Proof.
  unfold App.rebucket, App.effective_thresholds.
  set (m := if (attr_med_thr >=? attr_high_thr)%Z
            then (attr_high_thr - 1)%Z else attr_med_thr).
  assert (Hlt : (20 <= m < attr_high_thr)%Z).
  { unfold m. destruct (attr_med_thr >=? attr_high_thr)%Z eqn:G; [lia|].
    rewrite Z.geb_leb in G. apply Z.leb_gt in G. lia. }
  assert (B1 : (-(1/10) < IZR m)%R)
    by (apply Rlt_le_trans with (IZR 20); [lra|apply IZR_le; lia]).
  assert (B2 : (IZR m < IZR attr_high_thr)%R) by (apply IZR_lt; lia).
  assert (B3 : (IZR attr_high_thr < 100)%R)
    by (apply Rlt_trans with (IZR 96); [apply IZR_lt; lia|lra]).
  unfold cut. rewrite increasing_tier_bins by assumption. cbn [bind].
  eexists. split; [reflexivity|].
  rewrite (map_map RiskModel.r_prob), combine_map_self, map_map. cbn [fst snd].
  unfold App.high_cnt. rewrite !filter_map_swap, !length_map.
  apply count_split. intros r Hr.
  unfold labelled_high, prob_is. cbn [RiskModel.r_prob RiskModel.r_tier].
  specialize (Hp r Hr).
  destruct (RiskModel.r_prob r) as [p|]; [|reflexivity].
  simpl in Hp. rewrite cut1_tier_bins by assumption.
  unfold fge, fle, feq. rcases; reflexivity.
Qed.

Lemma high_kpi_counts_labels_and_threshold_witness :
  exists out,
    App.rebucket [RiskModel.mkRisk (CNum 1) (Fin 70) None [];
                  RiskModel.mkRisk (CNum 2) (Fin 80) None []] 40 70 = Ok out
    /\ App.high_cnt out 70
       = (List.length (filter labelled_high out)
          + List.length (filter (prob_is (IZR 70)) out))%nat.
Proof.
  apply (high_kpi_counts_labels_and_threshold
           [RiskModel.mkRisk (CNum 1) (Fin 70) None [];
            RiskModel.mkRisk (CNum 2) (Fin 80) None []] 40%Z 70%Z);
    try lia.
  intros r [<-|[<-|[]]]; simpl; lra.
Defined.

(** ** Column-name mapping *)

Section MappingFacts.

Import Mapping.
Open Scope string_scope.

Lemma dict_get_set {V} (d : dict V) (k k' : string) (v : V) :
  dict_get (dict_set d k v) k'
  = if String.eqb k k' then Some v else dict_get d k'.
Proof.
  induction d as [|[k0 v0] d IH]; simpl.
  - reflexivity.
  - destruct (String.eqb k0 k) eqn:E; simpl.
    + apply String.eqb_eq in E. subst k0. destruct (String.eqb k k'); reflexivity.
    + destruct (String.eqb k0 k') eqn:E'.
      * apply String.eqb_eq in E'. subst k0.
        rewrite String.eqb_sym, E. reflexivity.
      * exact IH.
Qed.

Lemma dict_get_in {V} (d : dict V) (k : string) (v : V) :
  dict_get d k = Some v -> In (k, v) d.
Proof.
  induction d as [|[k0 v0] d IH]; simpl; [discriminate|].
  destruct (String.eqb k0 k) eqn:E.
  - apply String.eqb_eq in E. intros H. injection H as ->. left. congruence.
  - intros H. right. apply IH. exact H.
Qed.

Lemma in_dict_set {V} (d : dict V) (k k0 : string) (v v0 : V) :
  In (k, v) (dict_set d k0 v0) -> (k = k0 /\ v = v0) \/ In (k, v) d.
Proof.
  induction d as [|[k1 v1] d IH]; simpl.
  - intros [E|[]]. injection E as <- <-. auto.
  - destruct (String.eqb k1 k0) eqn:E; simpl.
    + apply String.eqb_eq in E. subst k1.
      intros [H|H]; [injection H as <- <-; auto|auto].
    + intros [H|H]; [auto|]. destruct (IH H); auto.
Qed.

Variable py_strip : string -> string.
Variable py_lower : string -> string.

Let norm := _normalize_name py_strip py_lower.

(** Every value of the dict is the normalised form of its key. *)
Let consistent (d : dict string) : Prop :=
  forall k v, In (k, v) d -> v = norm k.

Lemma dict_set_norm (d : dict string) (c : string) :
  consistent d ->
  (dict_get d c <> None -> dict_set d c (norm c) = d)
  /\ (dict_get d c = None -> dict_set d c (norm c) = (d ++ [(c, norm c)])%list).
Proof.
  intros Hc. induction d as [|[k v] d IH]; simpl.
  - split; [congruence|reflexivity].
  - assert (Hc' : consistent d) by (intros k' v' H; apply Hc; right; exact H).
    destruct (String.eqb k c) eqn:E.
    + apply String.eqb_eq in E. subst k. split; [|discriminate].
      intros _. rewrite (Hc c v) by (left; reflexivity). reflexivity.
    + destruct (IH Hc') as [I1 I2]. split; intros H.
      * rewrite (I1 H). reflexivity.
      * rewrite (I2 H). reflexivity.
Qed.

Lemma consistent_set (d : dict string) (c : string) :
  consistent d -> consistent (dict_set d c (norm c)).
Proof.
  intros Hc k v H. apply in_dict_set in H. destruct H as [[-> ->]|H]; auto.
Qed.

Lemma exact_hit_app (rn : string) (d e : dict string) :
  exact_hit rn (d ++ e)%list
  = match exact_hit rn d with Some h => Some h | None => exact_hit rn e end.
Proof.
  induction d as [|[k v] d IH]; simpl; [reflexivity|].
  destruct (String.eqb v rn); [reflexivity|exact IH].
Qed.

Lemma exact_hit_none (rn : string) (d : dict string) (k v : string) :
  exact_hit rn d = None -> In (k, v) d -> String.eqb v rn = false.
Proof.
  induction d as [|[k0 v0] d IH]; simpl; [tauto|].
  destruct (String.eqb v0 rn) eqn:E; [discriminate|].
  intros H [I|I]; [injection I as <- <-; exact E|apply IH; assumption].
Qed.

(** The first pass finds the first column, in the order given, whose
    normalised name is the one looked for. *)
Lemma exact_hit_norm_actual (rn : string) (actual : list string) (d : dict string) :
  consistent d ->
  exact_hit rn (fold_left (fun d col => dict_set d col (norm col)) actual d)
  = match exact_hit rn d with
    | Some h => Some h
    | None => find (fun c => String.eqb (norm c) rn) actual
    end.
Proof.
  revert d. induction actual as [|c actual IH]; intros d Hc; simpl.
  - destruct (exact_hit rn d); reflexivity.
  - rewrite (IH _ (consistent_set d c Hc)).
    destruct (dict_set_norm d c Hc) as [S1 S2].
    destruct (dict_get d c) as [v|] eqn:G.
    + rewrite S1 by congruence.
      destruct (exact_hit rn d) eqn:X; [reflexivity|].
      apply dict_get_in in G. pose proof (Hc c v G) as ->.
      rewrite (exact_hit_none rn d c (norm c) X G). reflexivity.
    + rewrite (S2 eq_refl), exact_hit_app. simpl.
      destruct (exact_hit rn d); [reflexivity|].
      destruct (String.eqb (norm c) rn); reflexivity.
Qed.

Lemma keys_norm_actual (actual : list string) (d : dict string) (k v : string) :
  In (k, v) (fold_left (fun d col => dict_set d col (norm col)) actual d) ->
  In k actual \/ In (k, v) d.
Proof.
  revert d. induction actual as [|c actual IH]; intros d; simpl; [auto|].
  intros H. destruct (IH _ H) as [I|I]; [auto|].
  apply in_dict_set in I. destruct I as [[-> _]|I]; auto.
Qed.

Lemma exact_hit_key (rn : string) (d : dict string) (h : string) :
  exact_hit rn d = Some h -> In h (map fst d).
Proof.
  induction d as [|[k v] d IH]; simpl; [discriminate|].
  destruct (String.eqb v rn); [intros E; injection E as ->; auto|auto].
Qed.

Lemma partial_hit_key (rn : string) (d : dict string) (h : string) :
  partial_hit rn d = Some h -> In h (map fst d).
Proof.
  induction d as [|[k v] d IH]; simpl; [discriminate|].
  destruct (contains rn v); [intros E; injection E as ->; auto|auto].
Qed.

Lemma synonym_hit_key (syns : list string) (d : dict string)
    (hit : option string) (h : string) :
  synonym_hit py_strip py_lower syns d hit = Some h ->
  In h (map fst d) \/ hit = Some h.
Proof.
  revert hit. induction d as [|[k v] d IH]; intros hit; simpl; [auto|].
  set (hit' := if existsb _ syns then Some k else hit).
  assert (Hh : hit' = Some k \/ hit' = hit)
    by (unfold hit'; destruct (existsb _ syns); auto).
  destruct (hit_truthy hit').
  - intros E. destruct Hh as [Hh|Hh]; rewrite Hh in E.
    + injection E as ->. auto.
    + auto.
  - intros E. destruct (IH hit' E) as [I|I]; [auto|].
    destruct Hh as [Hh|Hh]; rewrite Hh in I.
    + injection I as ->. auto.
    + auto.
Qed.

Lemma find_hit_key (d : dict string) (syn : dict (list string))
    (req h : string) :
  find_hit py_strip py_lower d syn req = Some h -> In h (map fst d).
Proof.
  unfold find_hit.
  destruct (exact_hit _ d) as [e|] eqn:X.
  - intros E. injection E as <-. apply (exact_hit_key _ _ _ X).
  - destruct (synonym_hit _ _ _ d None) as [s|] eqn:S.
    + intros E. injection E as <-.
      destruct (synonym_hit_key _ _ _ _ S) as [I|I]; [exact I|discriminate].
    + apply partial_hit_key.
Qed.

End MappingFacts.

Section SuggestFacts.

Import Mapping.
Open Scope string_scope.

Variable py_strip : string -> string.
Variable py_lower : string -> string.

Let norm := _normalize_name py_strip py_lower.

Variable actual required : list string.
Variable domain : string.

Let items := norm_actual py_strip py_lower actual.

Let step (mapping : dict string) (req : string) : dict string :=
  match find_hit py_strip py_lower items (synonyms domain) req with
  | Some h => if truthy h then dict_set mapping req h else mapping
  | None => mapping
  end.

Lemma suggest_fold_entries (l : list string) (m : dict string) (r c : string) :
  In (r, c) (fold_left step l m) ->
  In (r, c) m \/ (In r l /\ In c actual /\ c <> "").
Proof.
  revert m. induction l as [|q l IH]; intros m; simpl; [auto|].
  intros H. destruct (IH _ H) as [I|[I1 I2]]; [|right; tauto].
  unfold step in I.
  destruct (find_hit py_strip py_lower items (synonyms domain) q) as [h|] eqn:F;
    [|auto].
  destruct (truthy h) eqn:T; [|auto].
  apply in_dict_set in I. destruct I as [[-> ->]|I]; [|auto].
  right. split; [auto|]. split.
  - apply find_hit_key in F. apply in_map_iff in F.
    destruct F as [[k v] [E Hin]]. simpl in E. subst k.
    unfold items, norm_actual in Hin.
    destruct (keys_norm_actual py_strip py_lower actual [] h v Hin) as [A|[]].
    exact A.
  - intros E. subst h. discriminate.
Qed.

Lemma suggest_fold_keeps (l : list string) (m : dict string) (req col : string) :
  find_hit py_strip py_lower items (synonyms domain) req = Some col ->
  dict_get m req = Some col ->
  dict_get (fold_left step l m) req = Some col.
Proof.
  intros F. revert m. induction l as [|q l IH]; intros m G; simpl; [exact G|].
  apply IH. unfold step.
  destruct (find_hit py_strip py_lower items (synonyms domain) q) as [h|] eqn:Fq;
    [|exact G].
  destruct (truthy h); [|exact G].
  rewrite dict_get_set. destruct (String.eqb q req) eqn:E; [|exact G].
  apply String.eqb_eq in E. subst q. congruence.
Qed.

Lemma suggest_fold_sets (l : list string) (m : dict string) (req col : string) :
  find_hit py_strip py_lower items (synonyms domain) req = Some col ->
  truthy col = true ->
  In req l ->
  dict_get (fold_left step l m) req = Some col.
Proof.
  intros F T. revert m. induction l as [|q l IH]; intros m Hin; simpl.
  - destruct Hin.
  - destruct (string_dec q req) as [E|N].
    + subst q. apply (suggest_fold_keeps l _ req col F).
      unfold step. rewrite F, T, dict_get_set, String.eqb_refl. reflexivity.
    + apply IH. destruct Hin as [E|I]; [contradiction|exact I].
Qed.

Lemma find_hit_exact (req col : string) :
  find (fun c => String.eqb (norm c) (norm req)) actual = Some col ->
  find_hit py_strip py_lower items (synonyms domain) req = Some col.
Proof.
  intros F. unfold find_hit, items, norm_actual.
  assert (X : exact_hit (norm req)
                (fold_left (fun d c => dict_set d c (norm c)) actual [])
              = Some col).
  { unfold norm in *.
    rewrite (exact_hit_norm_actual py_strip py_lower _ actual []).
    - simpl. exact F.
    - intros k v []. }
  unfold norm in X. rewrite X. reflexivity.
Qed.

End SuggestFacts.

Section RenameFacts.

Import Mapping.
Open Scope string_scope.

Variable df : DataFrame.

Let step (ren : dict string) (e : string * string) : dict string :=
  if has_column df (snd e) then dict_set ren (snd e) (fst e) else ren.

Lemma rename_fold_get (l : dict string) (ren : dict string) (req a : string) :
  (forall r, In (r, a) l -> r = req) ->
  has_column df a = true ->
  In (req, a) l \/ dict_get ren a = Some req ->
  dict_get (fold_left step l ren) a = Some req.
Proof.
  intros U Ha. revert ren U.
  induction l as [|[r a'] l IH]; intros ren U H; simpl.
  - destruct H as [[]|H]. exact H.
  - apply IH.
    + intros r0 I. apply U. right. exact I.
    + unfold step. simpl.
      destruct (string_dec a' a) as [E|N].
      * subst a'. rewrite Ha, dict_get_set, String.eqb_refl.
        right. f_equal. apply U. left. reflexivity.
      * destruct H as [[H|H]|H].
        -- congruence.
        -- left. exact H.
        -- right. destruct (has_column df a'); [|exact H].
           rewrite dict_get_set.
           destruct (String.eqb a' a) eqn:E; [|exact H].
           apply String.eqb_eq in E. contradiction.
Qed.

Lemma rename_fold_nil (l : dict string) :
  (forall r a, In (r, a) l -> has_column df a = false) ->
  fold_left step l [] = [].
Proof.
  induction l as [|[r a] l IH]; intros H; simpl; [reflexivity|].
  unfold step at 2. simpl. rewrite (H r a) by (left; reflexivity).
  apply IH. intros r0 a0 I. apply (H r0 a0). right. exact I.
Qed.

Lemma rename_fold_keys (l : dict string) (ren : dict string) (a r : string) :
  In (a, r) (fold_left step l ren) ->
  In (a, r) ren \/ (In (r, a) l /\ has_column df a = true).
Proof.
  revert ren. induction l as [|[r0 a0] l IH]; intros ren; simpl; [auto|].
  intros H. destruct (IH _ H) as [I|[I1 I2]]; [|auto].
  unfold step in I. simpl in I.
  destruct (has_column df a0) eqn:Ha; [|auto].
  apply in_dict_set in I. destruct I as [[-> ->]|I]; auto.
Qed.

End RenameFacts.

Lemma has_column_in (df : DataFrame) (c : string) :
  has_column df c = true <-> In c (columns df).
Proof.
  unfold has_column. split.
  - intros H. apply existsb_exists in H. destruct H as [x [I E]].
    apply String.eqb_eq in E. subst x. exact I.
  - intros I. apply existsb_exists. exists c. split; [exact I|].
    apply String.eqb_refl.
Qed.

Section DictKeys.

Import Mapping.

Lemma keys_dict_set {V} (d : dict V) (k x : string) (v : V) :
  In x (map fst (dict_set d k v)) -> x = k \/ In x (map fst d).
Proof.
  induction d as [|[k0 v0] d IH]; simpl.
  - intros [E|[]]. auto.
  - destruct (String.eqb k0 k); simpl; [tauto|].
    intros [E|I]; [auto|]. destruct (IH I); auto.
Qed.

Lemma NoDup_dict_set {V} (d : dict V) (k : string) (v : V) :
  NoDup (map fst d) -> NoDup (map fst (dict_set d k v)).
Proof.
  induction d as [|[k0 v0] d IH]; simpl; intros H.
  - constructor; [intros []|constructor].
  - destruct (String.eqb k0 k) eqn:E; simpl; [exact H|].
    inversion H as [|? ? N H']; subst. constructor; [|apply IH; exact H'].
    intros I. apply keys_dict_set in I. destruct I as [I|I]; [|contradiction].
    subst k0. rewrite String.eqb_refl in E. discriminate.
Qed.

Lemma dict_get_of_in {V} (d : dict V) (k : string) (v : V) :
  NoDup (map fst d) -> In (k, v) d -> dict_get d k = Some v.
Proof.
  induction d as [|[k0 v0] d IH]; simpl; intros H; [tauto|].
  inversion H as [|? ? N H']; subst.
  intros [E|I].
  - injection E as -> ->. rewrite String.eqb_refl. reflexivity.
  - destruct (String.eqb k0 k) eqn:E; [|apply IH; assumption].
    apply String.eqb_eq in E. subst k0. exfalso. apply N.
    apply in_map_iff. exists (k, v). auto.
Qed.

Lemma NoDup_suggest_column_mapping (py_strip py_lower : string -> string)
    (actual required : list string) (domain : string) :
  NoDup (map fst (suggest_column_mapping py_strip py_lower actual required
                    domain)).
Proof.
  unfold suggest_column_mapping.
  assert (G : forall l m, NoDup (map fst m) ->
              NoDup (map fst
                (fold_left
                   (fun mapping req =>
                      match find_hit py_strip py_lower
                              (norm_actual py_strip py_lower actual)
                              (synonyms domain) req with
                      | Some h =>
                          if truthy h then dict_set mapping req h else mapping
                      | None => mapping
                      end) l m))).
  { induction l as [|q l IH]; intros m H; simpl; [exact H|].
    apply IH. destruct (find_hit _ _ _ _ q) as [h|]; [|exact H].
    destruct (truthy h); [|exact H]. apply NoDup_dict_set. exact H. }
  apply G. constructor.
Qed.

(** A column the mapping sends to [req], and to nothing else, carries the
    name [req] afterwards. *)
Lemma renamed_column_present (df : DataFrame) (mapping : dict string)
    (req actual : string) :
  In (req, actual) mapping ->
  has_column df actual = true ->
  (forall r, In (r, actual) mapping -> r = req) ->
  has_column (apply_column_mapping df mapping) req = true.
Proof.
  intros I Ha U.
  assert (G : dict_get (rename_dict df mapping) actual = Some req).
  { unfold rename_dict. apply (rename_fold_get df mapping [] req actual U Ha).
    left. exact I. }
  unfold apply_column_mapping.
  destruct (rename_dict df mapping) as [|e ren] eqn:R; [discriminate|].
  apply has_column_in. unfold rename_columns. cbn [columns].
  apply in_map_iff. exists actual. split.
  - unfold rename_label. rewrite G. reflexivity.
  - apply has_column_in. exact Ha.
Qed.

End DictKeys.

(** X11.  Whatever [suggest_column_mapping] proposes is usable: every
    entry maps one of the required names to one of the actual columns, and
    never to a column whose name is empty. *)
Theorem suggest_column_mapping_sound
    (py_strip py_lower : string -> string)
    (actual_columns required : list string) (domain req col : string) :
  In (req, col)
     (Mapping.suggest_column_mapping py_strip py_lower actual_columns required
        domain) ->
  In req required /\ In col actual_columns /\ col <> ""%string.
Proof.
  unfold Mapping.suggest_column_mapping. intros H.
  destruct (suggest_fold_entries py_strip py_lower actual_columns domain
              required [] req col H) as [[]|R].
  exact R.
Qed.

Lemma suggest_column_mapping_sound_witness :
  In "date"%string ["id"; "date"; "ot"]%string.
Proof.
  apply (suggest_column_mapping_sound (fun s => s) (fun s => s)
           ["id"; "date"; "ot"]%string Utils.att_required
           "attendance"%string "日付"%string "date"%string).
  vm_compute. right. left. reflexivity.
Defined.

(** X12.  The first pass has priority: a required name is mapped to the
    first column, in the order of the frame, whose normalised name equals
    its own normalised name, whatever the synonyms and the partial matches
    would give; the one exception is a column whose name is empty. *)
Theorem suggest_column_mapping_exact_first
    (py_strip py_lower : string -> string)
    (actual_columns required : list string) (domain req col : string) :
  In req required ->
  find (fun c => String.eqb (Mapping._normalize_name py_strip py_lower c)
                            (Mapping._normalize_name py_strip py_lower req))
       actual_columns = Some col ->
  col <> ""%string ->
  Mapping.dict_get
    (Mapping.suggest_column_mapping py_strip py_lower actual_columns required
       domain) req = Some col.
Proof.
  intros I F N. unfold Mapping.suggest_column_mapping.
  apply suggest_fold_sets.
  - apply find_hit_exact. exact F.
  - unfold Mapping.truthy. destruct (String.eqb col "") eqn:E; [|reflexivity].
    apply String.eqb_eq in E. contradiction.
  - exact I.
Qed.

Lemma suggest_column_mapping_exact_first_witness :
  Mapping.dict_get
    (Mapping.suggest_column_mapping (fun s => s) (fun s => s)
       ["残業時間 (h)"; "残業時間"; "勤務時間"]%string Utils.att_required
       "attendance"%string) "勤務時間h"%string
  = Some "勤務時間"%string.
Proof.
  apply (suggest_column_mapping_exact_first (fun s => s) (fun s => s)).
  - vm_compute. right. right. left. reflexivity.
  - vm_compute. reflexivity.
  - discriminate.
Defined.

(** X13.  [apply_column_mapping] renames: a column of the frame that the
    mapping assigns to the required name [req], and to no other name, is
    found under [req] afterwards. *)
Theorem apply_column_mapping_renames (df : DataFrame)
    (mapping : Mapping.dict string) (req actual : string) :
  In (req, actual) mapping ->
  has_column df actual = true ->
  (forall r, In (r, actual) mapping -> r = req) ->
  has_column (Mapping.apply_column_mapping df mapping) req = true
  /\ List.length (columns (Mapping.apply_column_mapping df mapping))
     = List.length (columns df)
  /\ List.length (rows (Mapping.apply_column_mapping df mapping))
     = List.length (rows df).
Proof.
  intros I Ha U. split; [apply (renamed_column_present df mapping req actual I Ha U)|].
  unfold Mapping.apply_column_mapping.
  destruct (Mapping.rename_dict df mapping); [auto|].
  unfold Mapping.rename_columns. cbn [columns rows].
  rewrite !length_map. auto.
Qed.

Lemma apply_column_mapping_renames_witness :
  has_column
    (Mapping.apply_column_mapping
       (mkDF ["id"; "date"]%string
             [[("id"%string, CNum 1); ("date"%string, CStr "2024-01-01")]])
       [("日付"%string, "date"%string)]) "日付"%string = true.
Proof.
  apply (apply_column_mapping_renames
           (mkDF ["id"; "date"]%string
                 [[("id"%string, CNum 1); ("date"%string, CStr "2024-01-01")]])
           [("日付"%string, "date"%string)] "日付"%string "date"%string).
  - left. reflexivity.
  - reflexivity.
  - intros r [E|[]]. congruence.
Defined.

(** A mapping none of whose columns is in the frame returns the frame as
    it is. *)
Remark apply_column_mapping_foreign (df : DataFrame)
    (mapping : Mapping.dict string) :
  (forall r a, In (r, a) mapping -> has_column df a = false) ->
  Mapping.apply_column_mapping df mapping = df.
Proof.
  intros H. unfold Mapping.apply_column_mapping, Mapping.rename_dict.
  rewrite (rename_fold_nil df mapping H). reflexivity.
Qed.

(** X14.  [apply_column_mapping] leaves alone what the mapping does not
    name: a column of the frame that no entry of the mapping points to is
    still there under its own name. *)
Theorem apply_column_mapping_keeps_unmapped (df : DataFrame)
    (mapping : Mapping.dict string) (c : string) :
  has_column df c = true ->
  (forall r, ~ In (r, c) mapping) ->
  has_column (Mapping.apply_column_mapping df mapping) c = true.
Proof.
  intros Hc Hn. unfold Mapping.apply_column_mapping.
  destruct (Mapping.rename_dict df mapping) as [|e ren] eqn:R; [exact Hc|].
  rewrite <- R. apply has_column_in. unfold Mapping.rename_columns.
  cbn [columns]. apply in_map_iff. exists c. split.
  - unfold Mapping.rename_label.
    destruct (Mapping.dict_get (Mapping.rename_dict df mapping) c) as [n|] eqn:G;
      [|reflexivity].
    apply dict_get_in in G. unfold Mapping.rename_dict in G.
    apply rename_fold_keys in G. destruct G as [[]|[G _]].
    destruct (Hn n G).
  - apply has_column_in. exact Hc.
Qed.

Lemma apply_column_mapping_keeps_unmapped_witness :
  has_column
    (Mapping.apply_column_mapping
       (mkDF ["id"; "date"]%string
             [[("id"%string, CNum 1); ("date"%string, CStr "2024-01-01")]])
       [("日付"%string, "date"%string)]) "id"%string = true.
Proof.
  apply (apply_column_mapping_keeps_unmapped
           (mkDF ["id"; "date"]%string
                 [[("id"%string, CNum 1); ("date"%string, CStr "2024-01-01")]])
           [("日付"%string, "date"%string)] "id"%string).
  - reflexivity.
  - intros r [E|[]]. discriminate.
Defined.

(** X15.  Accepting the suggestions repairs the frame: when every required
    name has a column with the same normalised name, no column name is
    empty and no two required names share a normalised name, the frame
    renamed by [apply_column_mapping] with the mapping of
    [suggest_column_mapping] passes [ensure_columns]. *)
Theorem suggested_mapping_completes_frame
    (py_strip py_lower : string -> string)
    (df : DataFrame) (required : list string) (domain : string) :
  (forall req, In req required ->
     exists c, In c (columns df)
               /\ Mapping._normalize_name py_strip py_lower c
                  = Mapping._normalize_name py_strip py_lower req) ->
  ~ In ""%string (columns df) ->
  (forall r r', In r required -> In r' required ->
     Mapping._normalize_name py_strip py_lower r
     = Mapping._normalize_name py_strip py_lower r' -> r = r') ->
  Utils.ensure_columns
    (Mapping.apply_column_mapping df
       (Mapping.suggest_column_mapping py_strip py_lower (columns df) required
          domain))
    required = Ok tt.
Proof.
  intros Hex Hne Hinj.
  set (norm := Mapping._normalize_name py_strip py_lower) in *.
  set (m := Mapping.suggest_column_mapping py_strip py_lower (columns df)
              required domain).
  assert (Hfind : forall req, In req required ->
            exists col,
              find (fun c => String.eqb (norm c) (norm req)) (columns df)
              = Some col).
  { intros req I. destruct (Hex req I) as [c [Ic Ec]].
    destruct (find (fun c => String.eqb (norm c) (norm req)) (columns df))
      as [col|] eqn:F; [eauto|].
    pose proof (find_none _ _ F c Ic) as X. cbv beta in X.
    rewrite Ec, String.eqb_refl in X. discriminate. }
  assert (Hget : forall req col, In req required ->
            find (fun c => String.eqb (norm c) (norm req)) (columns df)
            = Some col ->
            Mapping.dict_get m req = Some col).
  { intros req col I F. unfold m, Mapping.suggest_column_mapping.
    apply suggest_fold_sets; [apply find_hit_exact; exact F| |exact I].
    apply find_some in F. destruct F as [Ic _].
    unfold Mapping.truthy. destruct (String.eqb col "") eqn:E; [|reflexivity].
    apply String.eqb_eq in E. subst col. contradiction. }
  assert (Hhas : forall req, In req required ->
            has_column (Mapping.apply_column_mapping df m) req = true).
  { intros req I. destruct (Hfind req I) as [col F].
    pose proof (Hget req col I F) as G.
    pose proof (find_some _ _ F) as [Ic Ec]. cbv beta in Ec.
    apply String.eqb_eq in Ec.
    apply (renamed_column_present df m req col).
    - apply dict_get_in. exact G.
    - apply has_column_in. exact Ic.
    - intros r Ir.
      assert (Irq : In r required).
      { unfold m, Mapping.suggest_column_mapping in Ir.
        destruct (suggest_fold_entries py_strip py_lower (columns df) domain
                    required [] r col Ir) as [[]|[R _]].
        exact R. }
      destruct (Hfind r Irq) as [col' F'].
      pose proof (Hget r col' Irq F') as G'.
      pose proof (dict_get_of_in m r col
                    (NoDup_suggest_column_mapping py_strip py_lower
                       (columns df) required domain) Ir) as G2.
      assert (col' = col) by congruence. subst col'.
      pose proof (find_some _ _ F') as [_ Ec']. cbv beta in Ec'.
      apply String.eqb_eq in Ec'.
      apply Hinj; [exact Irq|exact I|congruence]. }
  unfold Utils.ensure_columns.
  rewrite (proj2 (missing_columns_nil _ required) Hhas). reflexivity.
Qed.

Lemma suggested_mapping_completes_frame_witness :
  Utils.ensure_columns
    (Mapping.apply_column_mapping
       (mkDF ["社員 ID"; "勤務時間"]%string [])
       (Mapping.suggest_column_mapping (fun s => s) (fun s => s)
          ["社員 ID"; "勤務時間"]%string ["社員ID"; "勤務時間h"]%string
          "attendance"%string))
    ["社員ID"; "勤務時間h"]%string = Ok tt.
Proof.
  apply (suggested_mapping_completes_frame (fun s => s) (fun s => s)
           (mkDF ["社員 ID"; "勤務時間"]%string [])
           ["社員ID"; "勤務時間h"]%string "attendance"%string).
  - intros req [<-|[<-|[]]].
    + exists "社員 ID"%string. split; [left; reflexivity|vm_compute; reflexivity].
    + exists "勤務時間"%string.
      split; [right; left; reflexivity|vm_compute; reflexivity].
  - intros [E|[E|[]]]; discriminate.
  - intros r r' [<-|[<-|[]]] [<-|[<-|[]]]; vm_compute; intros E;
      try reflexivity; discriminate.
Defined.

(** ** Normalisation of the personnel frame *)

Section NormalizedFrame.

Import Utils.
Open Scope R_scope.

Variable numeric_of_str : string -> option R.

Lemma to_numeric_cell_of_float (a : pyfloat) :
  to_numeric numeric_of_str (cell_of_float a) = a.
Proof. destruct a; reflexivity. Qed.

Lemma length_filter_map_same {A} (P : A -> bool) (f : A -> A) (l : list A) :
  (forall v, In v l -> P (f v) = P v) ->
  List.length (filter P (map f l)) = List.length (filter P l).
Proof.
  induction l as [|x l IH]; intros H; simpl; [reflexivity|].
  rewrite (H x) by (left; reflexivity).
  destruct (P x); simpl; rewrite IH; auto; intros v I; apply H; right; exact I.
Qed.

Lemma outside_percent_scaled (x : R) :
  x <= 1 ->
  outside 0 100 (fmul (Fin x) (Fin 100)) = outside 0 100 (Fin x).
Proof.
  intros H. unfold outside, fgt, flt. cbn [fmul flift2].
  rcases; try reflexivity.
Qed.

(** When the column is rescaled, none of its numbers exceeds 1. *)
Lemma rescaled_values_le_1 (s : list pyfloat) (x : R) :
  fle (Fin 0) (series_max (map fillna_minus1 s))
  && fle (series_max (map fillna_minus1 s)) (Fin 1) = true ->
  In (Fin x) s -> x <= 1.
Proof.
  intros H I. apply andb_prop in H. destruct H as [_ H].
  assert (Ix : In x (map fillna_minus1 s))
    by (apply in_map_iff; exists (Fin x); auto).
  destruct (map fillna_minus1 s) as [|y l] eqn:E; [destruct Ix|].
  unfold series_max, fle in H. apply Rleb_true in H.
  pose proof (fold_Rmax_upper l y x Ix). lra.
Qed.

Lemma outside_rescale_pto (series : list cell) :
  List.length (filter (outside 0 100) (rescale_pto numeric_of_str series))
  = List.length (filter (outside 0 100) (map (to_numeric numeric_of_str) series)).
Proof.
  unfold rescale_pto.
  set (s := map (to_numeric numeric_of_str) series).
  destruct (fle (Fin 0) (series_max (map fillna_minus1 s))
            && fle (series_max (map fillna_minus1 s)) (Fin 1)) eqn:B;
    [|reflexivity].
  apply length_filter_map_same. intros [x|] I; [|reflexivity].
  apply outside_percent_scaled. apply (rescaled_values_le_1 s x B I).
Qed.

Lemma has_column_rename_column (df : DataFrame) (old new c : string) :
  old <> new ->
  has_column (rename_column df old new) c
  = if String.eqb c new then has_column df old || has_column df new
    else if String.eqb c old then false else has_column df c.
Proof.
  intros N. unfold has_column, rename_column. cbn [columns].
  induction (columns df) as [|k ks IH]; simpl.
  - destruct (String.eqb c new); [reflexivity|].
    destruct (String.eqb c old); reflexivity.
  - rewrite IH. unfold rename_key.
    destruct (String.eqb c new) eqn:En.
    + apply String.eqb_eq in En. subst c.
      destruct (String.eqb k old) eqn:Ek.
      * apply String.eqb_eq in Ek. subst k.
        rewrite !String.eqb_refl. reflexivity.
      * rewrite (String.eqb_sym old k), Ek.
        destruct (String.eqb new k); simpl;
          destruct (existsb (String.eqb old) ks); reflexivity.
    + destruct (String.eqb c old) eqn:Eo.
      * apply String.eqb_eq in Eo. subst c.
        destruct (String.eqb k old) eqn:Ek.
        -- rewrite En. reflexivity.
        -- rewrite (String.eqb_sym old k), Ek. reflexivity.
      * destruct (String.eqb k old) eqn:Ek.
        -- apply String.eqb_eq in Ek. subst k. rewrite En, Eo. reflexivity.
        -- reflexivity.
Qed.

Lemma has_column_normalize_step (df2 : DataFrame) (vs : list cell) (c : string) :
  has_column
    (if has_column df2 "有給取得率" then set_column df2 "有給取得率" vs else df2) c
  = has_column df2 c.
Proof.
  destruct (has_column df2 "有給取得率") eqn:H; [|reflexivity].
  unfold set_column, has_column at 1. cbn [columns]. rewrite H. reflexivity.
Qed.

End NormalizedFrame.

(** X16.  Normalisation does not change what the validator reports about
    the paid-leave column: the number of values outside 0..100 that
    [validate_hr] counts is the same before and after
    [normalize_hr_columns], whether the column was rescaled or not. *)
Theorem normalize_keeps_pto_range_count
    (numeric_of_str : string -> option R) (df : DataFrame) :
  has_column df "有給取得率" = true ->
  Utils.count_out_of_range numeric_of_str
    (column (Utils.normalize_hr_columns numeric_of_str df) "有給取得率")
    (Some 0%R) (Some 100%R)
  = Utils.count_out_of_range numeric_of_str (column df "有給取得率")
      (Some 0%R) (Some 100%R).
Proof.
  intros H.
  rewrite (normalize_hr_columns_pto numeric_of_str df H).
  rewrite !count_out_of_range_counts, map_map.
  rewrite (map_ext _ (fun a => a) (to_numeric_cell_of_float numeric_of_str)).
  rewrite map_id. apply outside_rescale_pto.
Qed.

Lemma normalize_keeps_pto_range_count_witness :
  let df := mkDF ["社員ID"; "有給取得率"]%string
              [[("社員ID", CStr "E1"); ("有給取得率", CNum (1 / 2))];
               [("社員ID", CStr "E2"); ("有給取得率", CNum (-1))]]%string in
  Utils.count_out_of_range (fun _ => None)
    (column (Utils.normalize_hr_columns (fun _ => None) df) "有給取得率")
    (Some 0%R) (Some 100%R)
  = Utils.count_out_of_range (fun _ => None) (column df "有給取得率")
      (Some 0%R) (Some 100%R).
Proof.
  intro df. apply (normalize_keeps_pto_range_count (fun _ => None) df).
  reflexivity.
Defined.

(** X17.  The column names after [normalize_hr_columns]: the frame has
    評価(1-5) exactly when the input has 評価 or 評価(1-5); it keeps 評価 only
    beside an existing 評価(1-5), which is never overwritten; every other
    column is there exactly when it was. *)
Theorem normalize_hr_columns_names
    (numeric_of_str : string -> option R) (df : DataFrame) (c : string) :
  has_column (Utils.normalize_hr_columns numeric_of_str df) c
  = if String.eqb c "評価(1-5)"
    then has_column df "評価" || has_column df "評価(1-5)"
    else if String.eqb c "評価"
         then has_column df "評価" && has_column df "評価(1-5)"
         else has_column df c.
Proof.
  unfold Utils.normalize_hr_columns. rewrite has_column_normalize_step.
  destruct (has_column df "評価") eqn:H1;
    destruct (has_column df "評価(1-5)") eqn:H2; cbn [andb negb orb].
  - destruct (String.eqb c "評価(1-5)") eqn:E1.
    + apply String.eqb_eq in E1. subst c. exact H2.
    + destruct (String.eqb c "評価") eqn:E2; [|reflexivity].
      apply String.eqb_eq in E2. subst c. exact H1.
  - rewrite has_column_rename_column by discriminate.
    rewrite H1, H2. reflexivity.
  - destruct (String.eqb c "評価(1-5)") eqn:E1.
    + apply String.eqb_eq in E1. subst c. exact H2.
    + destruct (String.eqb c "評価") eqn:E2; [|reflexivity].
      apply String.eqb_eq in E2. subst c. exact H1.
  - destruct (String.eqb c "評価(1-5)") eqn:E1.
    + apply String.eqb_eq in E1. subst c. exact H2.
    + destruct (String.eqb c "評価") eqn:E2; [|reflexivity].
      apply String.eqb_eq in E2. subst c. exact H1.
Qed.

(** ** Order of the results *)

Section SortedOutput.

Import AttendanceCheck.

Variable A : Type.
Variable leb : A -> A -> bool.
Hypothesis leb_total : forall a b, leb a b = false -> leb b a = true.
Hypothesis leb_trans :
  forall a b c, leb a b = true -> leb b c = true -> leb a c = true.

Lemma insert_by_sorted (x : A) (l : list A) :
  StronglySorted (fun a b => leb a b = true) l ->
  StronglySorted (fun a b => leb a b = true) (insert_by leb x l).
Proof.
  induction l as [|y l IH]; intros S; simpl.
  - constructor; [constructor|constructor].
  - inversion S as [|? ? S' F]; subst.
    destruct (leb x y) eqn:E.
    + constructor; [exact S|]. constructor; [exact E|].
      rewrite Forall_forall in *. intros z I. apply (leb_trans x y z E (F z I)).
    + constructor; [apply IH; exact S'|].
      rewrite Forall_forall in *. intros z I.
      apply in_insert_by in I. destruct I as [->|I]; [|apply F; exact I].
      apply leb_total. exact E.
Qed.

Lemma sort_by_sorted (l : list A) :
  StronglySorted (fun a b => leb a b = true) (sort_by leb l).
Proof.
  unfold sort_by. induction l as [|x l IH]; simpl; [constructor|].
  apply insert_by_sorted. exact IH.
Qed.

End SortedOutput.

Lemma StronglySorted_impl {A} (R1 R2 : A -> A -> Prop) (l : list A) :
  (forall a b, R1 a b -> R2 a b) ->
  StronglySorted R1 l -> StronglySorted R2 l.
Proof.
  intros H S. induction S as [|a l S IH F]; constructor; [exact IH|].
  eapply Forall_impl; [|exact F]. intros b. apply H.
Qed.

Lemma prob_geb_total (a b : RiskModel.RiskResult) :
  RiskModel.prob_geb a b = false -> RiskModel.prob_geb b a = true.
Proof.
  unfold RiskModel.prob_geb.
  destruct (RiskModel.r_prob a) as [x|], (RiskModel.r_prob b) as [y|];
    try reflexivity; try discriminate.
  intros H. apply Rleb_false in H. apply Rleb_true. lra.
Qed.

Lemma prob_geb_trans (a b c : RiskModel.RiskResult) :
  RiskModel.prob_geb a b = true -> RiskModel.prob_geb b c = true ->
  RiskModel.prob_geb a c = true.
Proof.
  unfold RiskModel.prob_geb.
  destruct (RiskModel.r_prob a) as [x|], (RiskModel.r_prob b) as [y|],
    (RiskModel.r_prob c) as [z|]; try reflexivity; try discriminate.
  intros H1 H2. apply Rleb_true in H1. apply Rleb_true in H2.
  apply Rleb_true. lra.
Qed.

(** X18.  [predict_attrition] returns its rows by descending probability:
    of two rows of the result, the later one never has the higher
    probability, and rows without a probability come last. *)
Theorem predict_attrition_sorted
    (float_of_str : string -> option pyfloat)
    (logreg_proba : list string -> DataFrame -> result (list pyfloat))
    (df : DataFrame) (res : list RiskModel.RiskResult) (model : string) :
  RiskModel.predict_attrition float_of_str logreg_proba df = Ok (res, model) ->
  StronglySorted
    (fun a b => RiskModel.r_prob b = NaN
                \/ not_above (RiskModel.r_prob b) (RiskModel.r_prob a))
    res.
Proof.
  unfold RiskModel.predict_attrition. intros H.
  destruct (if has_column df "attrition" && _ then _ else _)
    as [[proba name]|e]; [|discriminate].
  cbn [bind] in H.
  destruct (cut _ RiskModel.default_bins tier_labels) as [tiers|e];
    [|discriminate].
  cbn [bind] in H. injection H as <- _.
  eapply StronglySorted_impl;
    [|apply (sort_by_sorted _ RiskModel.prob_geb prob_geb_total prob_geb_trans)].
  intros a b. unfold RiskModel.prob_geb, not_above.
  destruct (RiskModel.r_prob a) as [x|], (RiskModel.r_prob b) as [y|];
    try (intros; left; reflexivity); try discriminate.
  intros G. apply Rleb_true in G. right. exact G.
Qed.

Lemma predict_attrition_sorted_witness :
  let df := mkDF ["社員ID"]%string
              [[("社員ID", CStr "E1")]; [("社員ID", CStr "E2")]]%string in
  exists res,
    RiskModel.predict_attrition (fun _ => None)
      (fun _ _ => Raise LibraryError) df = Ok (res, "Rule-Based"%string)
    /\ StronglySorted
         (fun a b => RiskModel.r_prob b = NaN
                     \/ not_above (RiskModel.r_prob b) (RiskModel.r_prob a))
         res.
Proof.
  intro df.
  destruct (predict_attrition_without_features (fun _ => None)
              (fun _ _ => Raise LibraryError) df) as [res [E _]].
  - reflexivity.
  - intros r [<-|[<-|[]]] c Hc; simpl in Hc;
      repeat (destruct Hc as [<-|Hc]; [reflexivity|]); destruct Hc.
  - exists res. split; [exact E|].
    apply (predict_attrition_sorted (fun _ => None)
             (fun _ _ => Raise LibraryError) df res "Rule-Based"%string E).
Defined.

(** ** The overview series *)

Section Overview.

Import Utils AttendanceCheck.
Open Scope R_scope.

Lemma distinct_dates_in (rs : list AttRow) (t : Z) :
  In t (distinct_dates rs) <-> exists r, In r rs /\ date r = TS t.
Proof.
  induction rs as [|r rs IH]; simpl.
  - split; [intros []|intros [r [[] _]]].
  - destruct (date r) as [u|] eqn:D.
    + destruct (existsb (Z.eqb u) (distinct_dates rs)) eqn:X.
      * rewrite IH. split.
        -- intros [r' [I E]]. exists r'. auto.
        -- intros [r' [[<-|I] E]]; [|exists r'; auto].
           apply existsb_exists in X. destruct X as [w [Iw Ew]].
           apply Z.eqb_eq in Ew. subst w.
           apply IH. rewrite D in E. injection E as ->. exact Iw.
      * simpl. rewrite IH. split.
        -- intros [<-|[r' [I E]]]; [exists r; auto|exists r'; auto].
        -- intros [r' [[<-|I] E]].
           ++ left. congruence.
           ++ right. exists r'. auto.
    + rewrite IH. split.
      * intros [r' [I E]]. exists r'. auto.
      * intros [r' [[<-|I] E]]; [congruence|exists r'; auto].
Qed.

Lemma NoDup_distinct_dates (rs : list AttRow) : NoDup (distinct_dates rs).
Proof.
  induction rs as [|r rs IH]; simpl; [constructor|].
  destruct (date r) as [u|]; [|exact IH].
  destruct (existsb (Z.eqb u) (distinct_dates rs)) eqn:X; [exact IH|].
  constructor; [|exact IH]. intros I.
  assert (existsb (Z.eqb u) (distinct_dates rs) = true).
  { apply existsb_exists. exists u. split; [exact I|apply Z.eqb_refl]. }
  congruence.
Qed.

Lemma NoDup_insert_by {A} (leb : A -> A -> bool) (x : A) (l : list A) :
  ~ In x l -> NoDup l -> NoDup (insert_by leb x l).
Proof.
  induction l as [|y l IH]; simpl; intros N D.
  - constructor; [exact N|constructor].
  - destruct (leb x y).
    + constructor; [exact N|exact D].
    + inversion D as [|? ? Ny D']; subst. constructor.
      * intros I. apply in_insert_by in I. destruct I as [->|I]; tauto.
      * apply IH; tauto.
Qed.

Lemma NoDup_sort_by {A} (leb : A -> A -> bool) (l : list A) :
  NoDup l -> NoDup (sort_by leb l).
Proof.
  unfold sort_by. induction l as [|x l IH]; simpl; intros D; [constructor|].
  inversion D as [|? ? N D']; subst. apply NoDup_insert_by.
  - intros I. apply in_sort_by in I. contradiction.
  - apply IH. exact D'.
Qed.

Lemma strictly_sorted (l : list Z) :
  StronglySorted (fun a b => (a <=? b)%Z = true) l -> NoDup l ->
  StronglySorted Z.lt l.
Proof.
  intros S. induction S as [|a l S IH F]; intros D; [constructor|].
  inversion D as [|? ? N D']; subst. constructor; [apply IH; exact D'|].
  rewrite Forall_forall in *. intros b I. pose proof (F b I) as L.
  apply Z.leb_le in L. assert (a <> b) by (intros ->; contradiction). lia.
Qed.

(** The contribution of one row to the total of date [t]. *)
Let share (t : Z) (r : AttRow) : R :=
  if ts_eqb (date r) (TS t)
  then match overtime r with Fin v => v | NaN => 0 end
  else 0.

Lemma date_total_shares (t : Z) (rs : list AttRow) :
  Rsum (dropna (map overtime (filter (fun r => ts_eqb (date r) (TS t)) rs)))
  = Rsum (map (share t) rs).
Proof.
  induction rs as [|r rs IH]; simpl; [reflexivity|].
  unfold share at 1. destruct (ts_eqb (date r) (TS t)); simpl.
  - destruct (overtime r); simpl; rewrite IH; lra.
  - rewrite IH. lra.
Qed.

Lemma Rsum_insert_by {A} (leb : A -> A -> bool) (f : A -> R) (x : A)
    (l : list A) :
  Rsum (map f (insert_by leb x l)) = f x + Rsum (map f l).
Proof.
  induction l as [|y l IH]; simpl; [reflexivity|].
  destruct (leb x y); simpl; [reflexivity|]. rewrite IH. lra.
Qed.

Lemma Rsum_sort_by {A} (leb : A -> A -> bool) (f : A -> R) (l : list A) :
  Rsum (map f (sort_by leb l)) = Rsum (map f l).
Proof.
  unfold sort_by. induction l as [|x l IH]; simpl; [reflexivity|].
  rewrite Rsum_insert_by, IH. reflexivity.
Qed.

Lemma date_total_sort_by (leb : AttRow -> AttRow -> bool) (t : Z)
    (rs : list AttRow) :
  Rsum (dropna (map overtime
          (filter (fun r => ts_eqb (date r) (TS t)) (sort_by leb rs))))
  = Rsum (dropna (map overtime
            (filter (fun r => ts_eqb (date r) (TS t)) rs))).
Proof. rewrite !date_total_shares. apply Rsum_sort_by. Qed.

Lemma overview_dates (rs : list AttRow) :
  map fst (overview rs) = sort_by Z.leb (distinct_dates rs).
Proof. unfold overview. rewrite map_map. apply map_id. Qed.

End Overview.

(** ** The PDF reports *)

Section ReportLayout.

Import Utils AttendanceCheck Report.
Open Scope Z_scope.

(** While the lines fit above 20 mm the loop never starts a page. *)
Lemma draw_lines_fit (lines : list string) (y hi : Z) :
  20 <= y - 6 * Z.of_nat (List.length lines) -> y <= hi ->
  pages (draw_lines lines y) = 0%nat
  /\ drawn_within (y - 6 * Z.of_nat (List.length lines) + 6) hi
                  (draw_lines lines y).
Proof.
  revert y. induction lines as [|l lines IH]; intros y Hy Hhi.
  - split; [reflexivity|constructor].
  - cbn [draw_lines]. change (List.length (l :: lines)) with (S (List.length lines)) in *.
    rewrite Nat2Z.inj_succ in *.
    destruct (y - 6 <? 20) eqn:B; [apply Z.ltb_lt in B; lia|].
    destruct (IH (y - 6)) as [P D]; [lia|lia|]. split.
    + unfold pages in *. cbn [filter]. exact P.
    + constructor; [split; [reflexivity|lia]|].
      unfold drawn_within in *. eapply Forall_impl; [|exact D].
      intros [n z|x y0 t| |]; auto. intros [E R]. split; [exact E|lia].
Qed.

Lemma mapM_length {A B} (f : A -> result B) (l : list A) (ys : list B) :
  mapM f l = Ok ys -> List.length ys = List.length l.
Proof.
  revert ys. induction l as [|a l IH]; intros ys; simpl.
  - intros E. injection E as <-. reflexivity.
  - destruct (f a); [|discriminate]. cbn [bind].
    destruct (mapM f l) as [bs|]; [|discriminate]. cbn [bind].
    intros E. injection E as <-. simpl. rewrite (IH bs eq_refl). reflexivity.
Qed.

Lemma Ok_inj {A} (a b : A) : Ok a = Ok b -> a = b.
Proof. intros E. injection E as E. exact E. Qed.

Lemma pages_app (a b : list op) : pages (a ++ b) = (pages a + pages b)%nat.
Proof. unfold pages. rewrite filter_app, length_app. reflexivity. Qed.

Lemma drawn_within_weaken (lo lo' hi : Z) (ops : list op) :
  lo' <= lo -> drawn_within lo hi ops -> drawn_within lo' hi ops.
Proof.
  intros H D. unfold drawn_within in *. eapply Forall_impl; [|exact D].
  intros [n z|x y t| |]; auto. intros [E R]. split; [exact E|lia].
Qed.

End ReportLayout.

(** X22.  Both PDF reports are a single page: the listing of
    [build_pdf_attrition] holds at most 10 lines and that of
    [build_pdf_attendance] at most 20, so the page break of the listing
    loop is never taken, and every text is drawn at the left margin
    between 128 mm and 285 mm. *)
Theorem pdf_reports_are_one_page
    (font_name generated : string)
    (attrition_line : RiskModel.RiskResult -> result string)
    (attendance_line : AttendanceCheck.Anomaly -> result string)
    (str_of_cell : cell -> string) (sha256_hexdigest : string -> string)
    (env : Utils.environ) :
  (forall df model high_threshold med_threshold anonymize ops,
      Report.build_pdf_attrition font_name generated attrition_line
        str_of_cell sha256_hexdigest env df model high_threshold med_threshold
        anonymize = Ok ops ->
      pages ops = 1%nat /\ drawn_within 128 285 ops)
  /\ (forall df anonymize ops,
        Report.build_pdf_attendance font_name generated attendance_line
          str_of_cell sha256_hexdigest env df anonymize = Ok ops ->
        pages ops = 1%nat /\ drawn_within 128 285 ops).
Proof.
  split.
  - intros df model high_threshold med_threshold anonymize ops.
    unfold Report.build_pdf_attrition. cbv zeta.
    destruct (AttendanceCheck.mapM attrition_line _) as [lines|e] eqn:M;
      [|discriminate].
    cbn [bind]. intros E. apply Ok_inj in E. subst ops.
    apply mapM_length in M.
    assert (L : (List.length lines <= 10)%nat)
      by (rewrite M, length_firstn; lia).
    destruct (draw_lines_fit lines 234 285) as [P D]; [lia|lia|].
    split.
    + rewrite !pages_app, P. reflexivity.
    + unfold drawn_within. rewrite !Forall_app. split; [|split].
      * unfold Report._header. repeat constructor; lia.
      * repeat constructor; lia.
      * split; [|repeat constructor].
        apply (drawn_within_weaken _ 128 285 _) in D; [exact D|lia].
  - intros df anonymize ops.
    unfold Report.build_pdf_attendance. cbv zeta.
    destruct (AttendanceCheck.mapM attendance_line _) as [lines|e] eqn:M;
      [|discriminate].
    cbn [bind]. intros E. apply Ok_inj in E. subst ops.
    apply mapM_length in M.
    assert (L : (List.length lines <= 20)%nat)
      by (rewrite M, length_firstn; lia).
    destruct (draw_lines_fit lines 242 285) as [P D]; [lia|lia|].
    split.
    + rewrite !pages_app, P. reflexivity.
    + unfold drawn_within. rewrite !Forall_app. split; [|split].
      * unfold Report._header. repeat constructor; lia.
      * repeat constructor; lia.
      * split; [|repeat constructor].
        apply (drawn_within_weaken _ 128 285 _) in D; [exact D|lia].
Qed.

Lemma pdf_reports_are_one_page_witness :
  exists ops,
    Report.build_pdf_attrition "Helvetica"%string "2024-01-01 00:00"%string
      (fun _ => Ok "line"%string)
      (fun _ => "E1"%string) (fun s => s) []
      [RiskModel.mkRisk (CStr "E1") (Fin 50) (Some Medium) []]
      (Some "Rule-Based"%string) 70%Z 40%Z false = Ok ops
    /\ pages ops = 1%nat.
Proof.
  eexists. split; [reflexivity|].
  apply (proj1 (pdf_reports_are_one_page "Helvetica"%string
                  "2024-01-01 00:00"%string
                  (fun _ => Ok "line"%string) (fun _ => Ok "line"%string)
                  (fun _ => "E1"%string) (fun s => s) [])
               [RiskModel.mkRisk (CStr "E1") (Fin 50) (Some Medium) []]
               (Some "Rule-Based"%string) 70%Z 40%Z false _ eq_refl).
Defined.


(** * Attendance anomalies: the frame, its groups and its flags *)

(** ** Sorting *)

Section SortFacts.

Import Utils AttendanceCheck.

Lemma in_insert_by_back {A} (leb : A -> A -> bool) (x y : A) (l : list A) :
  y = x \/ In y l -> In y (insert_by leb x l).
Proof.
  induction l as [|z l IH]; simpl; [intuition congruence|].
  destruct (leb x z); simpl; [intuition congruence|].
  intros [E|[E|I]]; auto.
Qed.

Lemma in_sort_by_back {A} (leb : A -> A -> bool) (y : A) (l : list A) :
  In y l -> In y (sort_by leb l).
Proof.
  unfold sort_by. induction l as [|x l IH]; simpl; [tauto|].
  intros [E|I]; apply in_insert_by_back; auto.
Qed.

Lemma length_filter_insert_by {A} (P : A -> bool) (leb : A -> A -> bool)
    (x : A) (l : list A) :
  List.length (filter P (insert_by leb x l))
  = List.length (filter P (x :: l)).
Proof.
  induction l as [|y l IH]; [reflexivity|].
  cbn [insert_by]. destruct (leb x y); [reflexivity|].
  cbn [filter] in *. destruct (P y), (P x); cbn [List.length] in *; lia.
Qed.

Lemma length_filter_sort_by {A} (P : A -> bool) (leb : A -> A -> bool)
    (l : list A) :
  List.length (filter P (sort_by leb l)) = List.length (filter P l).
Proof.
  unfold sort_by. induction l as [|x l IH]; [reflexivity|].
  cbn [fold_right]. rewrite length_filter_insert_by. cbn [filter].
  destruct (P x); cbn [List.length]; rewrite IH; reflexivity.
Qed.

Lemma filter_filter_implied {A} (P Q : A -> bool) (l : list A) :
  (forall x, P x = true -> Q x = true) ->
  filter P (filter Q l) = filter P l.
Proof.
  intros H. induction l as [|x l IH]; [reflexivity|].
  cbn [filter]. destruct (Q x) eqn:E.
  - cbn [filter]. rewrite IH. reflexivity.
  - destruct (P x) eqn:F; [rewrite (H x F) in E; discriminate|exact IH].
Qed.

(** Sorting labelled rows by the rows sorts the rows. *)
Lemma map_snd_insert_by {A B} (leb : B -> B -> bool) (x : A * B)
    (l : list (A * B)) :
  map snd (insert_by (fun a b => leb (snd a) (snd b)) x l)
  = insert_by leb (snd x) (map snd l).
Proof.
  induction l as [|y l IH]; [reflexivity|].
  cbn [insert_by map]. destruct (leb (snd x) (snd y)); [reflexivity|].
  cbn [map]. rewrite IH. reflexivity.
Qed.

Lemma map_snd_sort_by {A B} (leb : B -> B -> bool) (l : list (A * B)) :
  map snd (sort_by (fun a b => leb (snd a) (snd b)) l)
  = sort_by leb (map snd l).
Proof.
  unfold sort_by. induction l as [|x l IH]; [reflexivity|].
  cbn [fold_right map]. rewrite map_snd_insert_by, IH. reflexivity.
Qed.

Lemma map_snd_combine {A B} (l : list A) (l' : list B) :
  List.length l = List.length l' -> map snd (combine l l') = l'.
Proof.
  revert l'. induction l as [|a l IH]; intros [|b l'] L; simpl in *;
    try discriminate; [reflexivity|].
  injection L as L. rewrite IH by exact L. reflexivity.
Qed.

(** The order of text. *)
Lemma ascii_compare_refl (a : Ascii.ascii) : Ascii.compare a a = Eq.
Proof. unfold Ascii.compare. apply N.compare_refl. Qed.

Lemma string_compare_lt_trans (s1 s2 s3 : string) :
  String.compare s1 s2 = Lt -> String.compare s2 s3 = Lt ->
  String.compare s1 s3 = Lt.
Proof.
  revert s2 s3. induction s1 as [|c1 s1 IH]; intros [|c2 s2] [|c3 s3];
    simpl; try discriminate; try reflexivity.
  unfold Ascii.compare.
  destruct (N.compare_spec (Ascii.N_of_ascii c1) (Ascii.N_of_ascii c2)) as [E12|L12|G12];
    try discriminate;
  destruct (N.compare_spec (Ascii.N_of_ascii c2) (Ascii.N_of_ascii c3)) as [E23|L23|G23];
    try discriminate; intros H1 H2.
  - rewrite E12, E23, N.compare_refl. apply (IH s2 s3 H1 H2).
  - rewrite E12. apply N.compare_lt_iff in L23. rewrite L23. reflexivity.
  - rewrite <- E23. apply N.compare_lt_iff in L12. rewrite L12. reflexivity.
  - assert (L : (Ascii.N_of_ascii c1 < Ascii.N_of_ascii c3)%N) by lia.
    apply N.compare_lt_iff in L. rewrite L. reflexivity.
Qed.

Lemma string_leb_trans (s1 s2 s3 : string) :
  String.leb s1 s2 = true -> String.leb s2 s3 = true ->
  String.leb s1 s3 = true.
Proof.
  unfold String.leb.
  destruct (String.compare s1 s2) eqn:E12; try discriminate;
  destruct (String.compare s2 s3) eqn:E23; try discriminate; intros _ _.
  - pose proof (String.compare_eq_iff _ _ E12) as E. rewrite E, E23.
    reflexivity.
  - pose proof (String.compare_eq_iff _ _ E12) as E. rewrite E, E23.
    reflexivity.
  - pose proof (String.compare_eq_iff _ _ E23) as E. rewrite <- E, E12.
    reflexivity.
  - rewrite (string_compare_lt_trans s1 s2 s3 E12 E23). reflexivity.
Qed.

End SortFacts.

Section RowOrder.

Import Utils AttendanceCheck.

Lemma cell_leb_total (a b : cell) : cell_leb a b = false -> cell_leb b a = true.
Proof.
  destruct a as [x| |s|t], b as [y| |u|v]; simpl; try reflexivity;
    try discriminate.
  - intros H. apply Rleb_false in H. apply Rleb_true. lra.
  - intros H. destruct (String.leb_total s u) as [E|E]; congruence.
  - intros H. apply Z.leb_gt in H. apply Z.leb_le. lia.
Qed.

Lemma cell_leb_trans (a b c : cell) :
  cell_leb a b = true -> cell_leb b c = true -> cell_leb a c = true.
Proof.
  destruct a as [x| |s|t], b as [y| |u|v], c as [z| |w|q]; simpl;
    try reflexivity; try discriminate.
  - intros H1 H2. apply Rleb_true in H1. apply Rleb_true in H2.
    apply Rleb_true. lra.
  - apply string_leb_trans.
  - intros H1 H2. apply Z.leb_le in H1. apply Z.leb_le in H2.
    apply Z.leb_le. lia.
Qed.

Lemma cell_leb_antisym (a b : cell) :
  cell_leb a b = true -> cell_leb b a = true -> a = b.
Proof.
  destruct a as [x| |s|t], b as [y| |u|v]; simpl; try reflexivity;
    try discriminate.
  - intros H1 H2. apply Rleb_true in H1. apply Rleb_true in H2.
    f_equal. lra.
  - intros H1 H2. f_equal. apply String.leb_antisym; assumption.
  - intros H1 H2. apply Z.leb_le in H1. apply Z.leb_le in H2. f_equal. lia.
Qed.

Lemma ts_leb_total (a b : timestamp) : ts_leb a b = false -> ts_leb b a = true.
Proof.
  destruct a as [x|], b as [y|]; simpl; try reflexivity; try discriminate.
  intros H. apply Z.leb_gt in H. apply Z.leb_le. lia.
Qed.

Lemma ts_leb_trans (a b c : timestamp) :
  ts_leb a b = true -> ts_leb b c = true -> ts_leb a c = true.
Proof.
  destruct a as [x|], b as [y|], c as [z|]; simpl; try reflexivity;
    try discriminate.
  intros H1 H2. apply Z.leb_le in H1. apply Z.leb_le in H2.
  apply Z.leb_le. lia.
Qed.

Lemma cell_eqb_refl (a : cell) : cell_eqb a a = true.
Proof. apply cell_eqb_eq. reflexivity. Qed.

Lemma cell_eqb_neq (a b : cell) : cell_eqb a b = false <-> a <> b.
Proof.
  unfold cell_eqb. destruct (cell_eq_dec a b); split; intros; auto;
    try discriminate; contradiction.
Qed.

Lemma row_leb_total (a b : AttRow) : row_leb a b = false -> row_leb b a = true.
Proof.
  unfold row_leb, key_leb. cbn [fst snd].
  destruct (cell_eqb (emp a) (emp b)) eqn:E.
  - apply cell_eqb_eq in E. rewrite E, cell_eqb_refl. apply ts_leb_total.
  - assert (E' : cell_eqb (emp b) (emp a) = false).
    { apply cell_eqb_neq. apply cell_eqb_neq in E. congruence. }
    rewrite E'. apply cell_leb_total.
Qed.

Lemma row_leb_trans (a b c : AttRow) :
  row_leb a b = true -> row_leb b c = true -> row_leb a c = true.
Proof.
  unfold row_leb, key_leb. cbn [fst snd].
  destruct (cell_eqb (emp a) (emp b)) eqn:Eab.
  - apply cell_eqb_eq in Eab. rewrite Eab.
    destruct (cell_eqb (emp b) (emp c)); [apply ts_leb_trans|auto].
  - destruct (cell_eqb (emp b) (emp c)) eqn:Ebc.
    + apply cell_eqb_eq in Ebc. rewrite <- Ebc, Eab. auto.
    + intros H1 H2. destruct (cell_eqb (emp a) (emp c)) eqn:Eac.
      * apply cell_eqb_eq in Eac. rewrite <- Eac in H2.
        pose proof (cell_leb_antisym _ _ H1 H2) as E.
        apply cell_eqb_neq in Eab. contradiction.
      * apply (cell_leb_trans _ _ _ H1 H2).
Qed.

(** The frame sorted by identifier and date. *)
Lemma sorted_rows (rs : list AttRow) :
  StronglySorted (fun a b => row_leb a b = true) (sort_by row_leb rs).
Proof. apply sort_by_sorted; [apply row_leb_total|apply row_leb_trans]. Qed.

Lemma StronglySorted_filter {A} (R : A -> A -> Prop) (P : A -> bool)
    (l : list A) :
  StronglySorted R l -> StronglySorted R (filter P l).
Proof.
  intros S. induction S as [|a l S IH F]; simpl; [constructor|].
  destruct (P a); [|exact IH]. constructor; [exact IH|].
  rewrite Forall_forall in *. intros x I. apply filter_In in I.
  apply F. tauto.
Qed.

(** The rows of one employee, taken from the sorted frame, are in date
    order. *)
Lemma group_sorted_by_date (k : cell) (rs : list AttRow) :
  StronglySorted (fun a b => ts_leb (date a) (date b) = true)
                 (group_of k (sort_by row_leb rs)).
Proof.
  unfold group_of.
  pose proof (StronglySorted_filter _ (fun r => cell_eqb (emp r) k) _
                (sorted_rows rs)) as S.
  set (g := filter (fun r => cell_eqb (emp r) k) (sort_by row_leb rs)) in *.
  assert (G : forall r, In r g -> emp r = k).
  { intros r I. apply filter_In in I. apply cell_eqb_eq. tauto. }
  clearbody g. induction S as [|a l S IH F]; [constructor|].
  constructor.
  - apply IH. intros r I. apply G. right. exact I.
  - rewrite Forall_forall in *. intros b I. pose proof (F b I) as L.
    unfold row_leb, key_leb in L. cbn [fst snd] in L.
    rewrite (G a (or_introl eq_refl)), (G b (or_intror I)), cell_eqb_refl in L.
    exact L.
Qed.

End RowOrder.

(** ** Groups *)

Section Groups.

Import Utils AttendanceCheck.

Lemma group_keys_in (rs : list AttRow) (k : cell) :
  In k (group_keys rs)
  <-> isna k = false /\ exists r, In r rs /\ emp r = k.
Proof.
  induction rs as [|r rs IH]; simpl.
  - split; [intros []|intros [_ [r [[] _]]]].
  - destruct (isna (emp r)) eqn:N; cbn [orb].
    + rewrite IH. split.
      * intros [Hk [r' [I E]]]. split; [exact Hk|]. exists r'. auto.
      * intros [Hk [r' [[<-|I] E]]]; [congruence|].
        split; [exact Hk|]. exists r'. auto.
    + destruct (existsb (cell_eqb (emp r)) (group_keys rs)) eqn:X.
      * rewrite IH. split.
        -- intros [Hk [r' [I E]]]. split; [exact Hk|]. exists r'. auto.
        -- intros [Hk [r' [[<-|I] E]]]; [|split; [exact Hk|exists r'; auto]].
           apply existsb_exists in X. destruct X as [k' [Ik Ek]].
           apply cell_eqb_eq in Ek. subst k k'. apply IH. exact Ik.
      * simpl. rewrite IH. split.
        -- intros [<-|[Hk [r' [I E]]]].
           ++ split; [exact N|]. exists r. auto.
           ++ split; [exact Hk|]. exists r'. auto.
        -- intros [Hk [r' [[<-|I] E]]]; [left; exact E|].
           right. split; [exact Hk|]. exists r'. auto.
Qed.

Lemma NoDup_group_keys (rs : list AttRow) : NoDup (group_keys rs).
Proof.
  induction rs as [|r rs IH]; simpl; [constructor|].
  destruct (isna (emp r)); cbn [orb]; [exact IH|].
  destruct (existsb (cell_eqb (emp r)) (group_keys rs)) eqn:X; [exact IH|].
  constructor; [|exact IH]. intros I.
  assert (existsb (cell_eqb (emp r)) (group_keys rs) = true).
  { apply existsb_exists. exists (emp r). split; [exact I|apply cell_eqb_refl]. }
  congruence.
Qed.

Lemma two_of_list {A} (l : list A) (a b : A) :
  In a l -> In b l -> a <> b -> exists x y t, l = x :: y :: t.
Proof.
  destruct l as [|x [|y t]].
  - intros [].
  - intros [<-|[]] [<-|[]] N. contradiction.
  - intros _ _ _. eauto.
Qed.

(** Two rows with different identifiers, neither missing: two groups at
    least. *)
Lemma two_groups (rs : list AttRow) (r1 r2 : AttRow) :
  In r1 rs -> In r2 rs ->
  isna (emp r1) = false -> isna (emp r2) = false -> emp r1 <> emp r2 ->
  exists k1 k2 ks, group_keys rs = k1 :: k2 :: ks.
Proof.
  intros I1 I2 N1 N2 D.
  apply (two_of_list (group_keys rs) (emp r1) (emp r2)); [| |exact D];
    apply group_keys_in; split; eauto.
Qed.

(** Rows that all carry the identifier [k]: the one group [k]. *)
Lemma one_group (rs : list AttRow) (k : cell) :
  isna k = false -> rs <> [] -> (forall r, In r rs -> emp r = k) ->
  group_keys rs = [k] /\ group_of k rs = rs.
Proof.
  intros N Hne H. split.
  - pose proof (NoDup_group_keys rs) as ND.
    assert (Hin : forall k', In k' (group_keys rs) <-> k' = k).
    { intros k'. rewrite group_keys_in. split.
      - intros [_ [r [I E]]]. rewrite <- E. apply H. exact I.
      - intros ->. split; [exact N|]. destruct rs as [|r rs]; [contradiction|].
        exists r. split; [left; reflexivity|apply H; left; reflexivity]. }
    destruct (group_keys rs) as [|a [|b t]].
    + exfalso. apply (proj2 (Hin k) eq_refl).
    + f_equal. apply Hin. left. reflexivity.
    + exfalso. inversion ND as [|? ? Na _]; subst. apply Na.
      rewrite (proj1 (Hin a) (or_introl eq_refl)).
      rewrite <- (proj1 (Hin b) (or_intror (or_introl eq_refl))).
      left. reflexivity.
  - unfold group_of. clear Hne. induction rs as [|r rs IH]; [reflexivity|].
    simpl. rewrite (H r (or_introl eq_refl)), cell_eqb_refl. f_equal.
    apply IH. intros r' I. apply H. right. exact I.
Qed.

Lemma length_per_group_from {B} (f : list AttRow -> list B)
    (all before rest : list AttRow) :
  List.length (per_group_from f all before rest) = List.length rest.
Proof.
  revert before. induction rest as [|r rest IH]; intros before; simpl;
    [reflexivity|].
  rewrite IH. reflexivity.
Qed.

Lemma group_of_app (k : cell) (l l' : list AttRow) :
  group_of k (l ++ l') = (group_of k l ++ group_of k l')%list.
Proof. unfold group_of. apply filter_app. Qed.

Lemma skipn_nth_error {A} (l : list A) (n : nat) (x : A) :
  nth_error l n = Some x -> skipn n l = x :: skipn (S n) l.
Proof.
  revert n. induction l as [|y l IH]; intros [|n]; simpl; try discriminate.
  - intros E. injection E as ->. reflexivity.
  - intros E. apply (IH n E).
Qed.

(** The column a per-group function gives, read on the rows of one group:
    the function applied to that group. *)
Lemma per_group_from_select {B} (f : list AttRow -> list B)
    (Hf : forall g, List.length (f g) = List.length g)
    (k : cell) (Hk : isna k = false) (before rest : list AttRow) :
  map snd (filter (fun p => cell_eqb (emp (fst p)) k)
             (combine rest (per_group_from f (before ++ rest) before rest)))
  = map Some (skipn (List.length (group_of k before))
                    (f (group_of k (before ++ rest)))).
Proof.
  revert before. induction rest as [|r rest IH]; intros before.
  - simpl. rewrite app_nil_r, skipn_all2; [reflexivity|]. rewrite Hf. lia.
  - cbn [per_group_from combine filter fst].
    replace (before ++ r :: rest)%list with ((before ++ [r]) ++ rest)%list
      by (rewrite <- app_assoc; reflexivity).
    assert (Eg : group_of k (before ++ [r])
                 = (group_of k before
                    ++ (if cell_eqb (emp r) k then [r] else []))%list).
    { rewrite group_of_app. reflexivity. }
    destruct (cell_eqb (emp r) k) eqn:E; cbn [map snd]; rewrite IH, Eg.
    + assert (Ek : emp r = k) by (apply cell_eqb_eq; exact E).
      rewrite Ek, Hk, length_app. cbn [List.length].
      set (G := f (group_of k ((before ++ [r]) ++ rest))).
      assert (L : (List.length (group_of k before) < List.length G)%nat).
      { unfold G. rewrite Hf, group_of_app, Eg, !length_app. simpl. lia. }
      destruct (nth_error G (List.length (group_of k before))) as [x|] eqn:X.
      * rewrite (@skipn_nth_error _ G _ x X). cbn [map].
        rewrite Nat.add_1_r. reflexivity.
      * apply nth_error_None in X. lia.
    + rewrite app_nil_r. reflexivity.
Qed.

Lemma per_group_select {B} (f : list AttRow -> list B)
    (Hf : forall g, List.length (f g) = List.length g)
    (k : cell) (Hk : isna k = false) (rs : list AttRow) :
  map snd (filter (fun p => cell_eqb (emp (fst p)) k)
             (combine rs (per_group f rs)))
  = map Some (f (group_of k rs)).
Proof.
  unfold per_group.
  pose proof (per_group_from_select f Hf k Hk [] rs) as H.
  simpl in H. exact H.
Qed.

(** A row whose identifier is missing receives nothing. *)
Lemma per_group_from_missing {B} (f : list AttRow -> list B)
    (all before rest : list AttRow) (r : AttRow) (v : option B) :
  In (r, v) (combine rest (per_group_from f all before rest)) ->
  isna (emp r) = true -> v = None.
Proof.
  revert before. induction rest as [|r0 rest IH]; intros before; simpl;
    [tauto|].
  intros [E|I] N.
  - injection E as <- <-. rewrite N. reflexivity.
  - apply (IH _ I N).
Qed.

(** A row with an identifier receives a value. *)
Lemma per_group_from_present {B} (f : list AttRow -> list B)
    (Hf : forall g, List.length (f g) = List.length g)
    (before rest : list AttRow) (r : AttRow) (v : option B) :
  In (r, v) (combine rest (per_group_from f (before ++ rest) before rest)) ->
  isna (emp r) = false -> exists b, v = Some b.
Proof.
  revert before. induction rest as [|r0 rest IH]; intros before;
    [intros []|].
  cbn [per_group_from combine]. intros [E|I] N.
  - injection E as <- <-. rewrite N.
    destruct (nth_error _ _) as [b|] eqn:X; [eauto|].
    apply nth_error_None in X. rewrite Hf in X.
    rewrite group_of_app, length_app in X. cbn [group_of filter] in X.
    rewrite cell_eqb_refl in X. simpl in X. lia.
  - replace (before ++ r0 :: rest)%list with ((before ++ [r0]) ++ rest)%list
      in I by (rewrite <- app_assoc; reflexivity).
    apply (IH _ I N).
Qed.

End Groups.

(** ** The frame with its flag columns *)

Section FlaggedFrame.

Import Utils AttendanceCheck.

Lemma mapM_in {A B} (f : A -> result B) (l : list A) (ys : list B) :
  mapM f l = Ok ys ->
  (forall y, In y ys -> exists x, In x l /\ f x = Ok y)
  /\ (forall x y, In x l -> f x = Ok y -> In y ys).
Proof.
  revert ys. induction l as [|a l IH]; intros ys; simpl.
  - intros E. injection E as <-. split; [intros y []|intros x y []].
  - destruct (f a) as [b|e] eqn:Fa; [|discriminate]. cbn [bind].
    destruct (mapM f l) as [bs|e]; [|discriminate]. cbn [bind].
    intros E. injection E as <-. destruct (IH bs eq_refl) as [I1 I2]. split.
    + intros y [<-|I]; [exists a; auto|].
      destruct (I1 y I) as [x [Ix Fx]]. exists x. auto.
    + intros x y [<-|I] Fx; [left; congruence|right; apply (I2 x y I Fx)].
Qed.

Lemma three_columns {A B C} (P : A -> bool) (l : list A) (m1 : list B)
    (m2 : list C) :
  List.length m1 = List.length l -> List.length m2 = List.length l ->
  let sel := filter (fun p => P (fst p)) (combine l (combine m1 m2)) in
  map fst sel = filter P l
  /\ map (fun e => fst (snd e)) sel
     = map snd (filter (fun p => P (fst p)) (combine l m1))
  /\ map (fun e => snd (snd e)) sel
     = map snd (filter (fun p => P (fst p)) (combine l m2)).
Proof.
  revert m1 m2. induction l as [|a l IH]; intros [|b m1] [|c m2] L1 L2;
    simpl in *; try discriminate; [repeat split|].
  injection L1 as L1. injection L2 as L2.
  destruct (IH m1 m2 L1 L2) as [E1 [E2 E3]].
  destruct (P a); simpl; rewrite E1, E2, E3; repeat split.
Qed.

Lemma in_three_columns {A B C} (l : list A) (m1 : list B) (m2 : list C)
    (a : A) (b : B) (c : C) :
  In (a, (b, c)) (combine l (combine m1 m2)) ->
  In (a, b) (combine l m1) /\ In (a, c) (combine l m2).
Proof.
  revert m1 m2. induction l as [|x l IH]; intros [|y m1] [|z m2]; simpl;
    try tauto.
  intros [E|I].
  - injection E as -> -> ->. auto.
  - destruct (IH m1 m2 I). auto.
Qed.

Lemma covered_by_columns {A B C} (l : list A) (m1 : list B) (m2 : list C)
    (a : A) :
  List.length m1 = List.length l -> List.length m2 = List.length l ->
  In a l -> exists b c, In (a, (b, c)) (combine l (combine m1 m2)).
Proof.
  revert m1 m2. induction l as [|x l IH]; intros [|y m1] [|z m2] L1 L2;
    simpl in *; try discriminate; [tauto|].
  injection L1 as L1. injection L2 as L2. intros [<-|I].
  - exists y, z. left. reflexivity.
  - destruct (IH m1 m2 L1 L2 I) as [b [c H]]. exists b, c. right. exact H.
Qed.

Lemma length_filter_fst {A B} (P : A -> bool) (l : list A) (m : list B) :
  List.length m = List.length l ->
  List.length (filter (fun p => P (fst p)) (combine l m))
  = List.length (filter P l).
Proof.
  revert m. induction l as [|a l IH]; intros [|b m] L; simpl in *;
    try discriminate; [reflexivity|].
  injection L as L. destruct (P a); simpl; rewrite IH by exact L; reflexivity.
Qed.

Lemma length_filter_ext_in {A} (P Q : A -> bool) (l : list A) :
  (forall x, In x l -> P x = Q x) ->
  List.length (filter P l) = List.length (filter Q l).
Proof.
  induction l as [|a l IH]; intros H; [reflexivity|].
  simpl. rewrite (H a (or_introl eq_refl)).
  destruct (Q a); simpl; rewrite IH; auto; intros x I; apply H; right; exact I.
Qed.

Lemma filter_map_comm {A B} (P : B -> bool) (f : A -> B) (l : list A) :
  filter P (map f l) = map f (filter (fun a => P (f a)) l).
Proof.
  induction l as [|a l IH]; [reflexivity|].
  simpl. destruct (P (f a)); simpl; rewrite IH; reflexivity.
Qed.

Variable parse_datetime : cell -> option Z.
Variable f64 : R -> float.
Variable df : DataFrame.
Variable z_thresh long_hours_threshold : R.
Variable streak_threshold : Z.

(** The two per-group functions of the source. *)
Let fz (g : list AttRow) : list bool :=
  flags (z_anom (f64 z_thresh) (map (fun r => to_f64 f64 (overtime r)) g)).
Let fs (g : list AttRow) : list Z :=
  longest_streak (map date g) (map hours g).

Lemma length_fz (g : list AttRow) : List.length (fz g) = List.length g.
Proof.
  unfold fz, z_anom. destruct (PrimFloat.eqb _ _); cbn [flags];
    rewrite !length_map; reflexivity.
Qed.

Lemma length_fs (g : list AttRow) : List.length (fs g) = List.length g.
Proof.
  unfold fs, longest_streak.
  rewrite length_streak_loop, length_combine, !length_map. lia.
Qed.

Lemma length_assign_per_group {B} (f : list AttRow -> list B)
    (labels : list nat) (rs : list AttRow) (st : list (option B)) :
  List.length labels = List.length rs ->
  assign_per_group f labels rs = Ok st -> List.length st = List.length rs.
Proof.
  intros L. unfold assign_per_group.
  destruct (group_keys rs) as [|k [|k2 ks]]; [discriminate| |].
  - destruct (group_of k rs) as [|r [|r2 g]]; try discriminate.
    intros E. injection E as <-. rewrite length_map. exact L.
  - intros E. injection E as <-. apply length_per_group_from.
Qed.

(** What a returned frame is made of. *)
Lemma flagged_frame_inv (t : list Anomaly) (fig : list (Z * R)) :
  flagged_frame parse_datetime f64 df z_thresh long_hours_threshold
    streak_threshold = Ok (t, fig) ->
  exists rs labels streaks,
    mapM (read_row parse_datetime) (rows df) = Ok rs
    /\ List.length labels = List.length rs
    /\ assign_per_group fs labels (sort_by row_leb rs) = Ok streaks
    /\ fig = overview (sort_by row_leb rs)
    /\ t = map (flag_row long_hours_threshold streak_threshold)
             (combine (sort_by row_leb rs)
                (combine (per_group fz (sort_by row_leb rs)) streaks)).
Proof.
  unfold flagged_frame.
  destruct (ensure_columns df REQ) as [[]|e]; [|discriminate]. cbn [bind].
  destruct (mapM (read_row parse_datetime) (rows df)) as [rs|e];
    [|discriminate]. cbn [bind].
  destruct (negb (sortable (map emp rs))); [discriminate|]. cbv zeta.
  rewrite map_snd_sort_by, map_snd_combine by (apply length_seq).
  fold fz fs.
  destruct (assign_per_group fs _ (sort_by row_leb rs)) as [streaks|e] eqn:A;
    [|discriminate].
  cbn [bind]. intros E. injection E as <- <-.
  exists rs. eexists. exists streaks. split; [reflexivity|].
  split; [|split; [exact A|split; reflexivity]].
  rewrite length_map, length_sort_by, length_combine, length_seq. lia.
Qed.

Lemma detect_inv (out : list Anomaly) (fig : list (Z * R)) :
  detect_attendance_anomalies parse_datetime f64 df z_thresh
    long_hours_threshold streak_threshold = Ok (out, fig) ->
  exists t,
    flagged_frame parse_datetime f64 df z_thresh long_hours_threshold
      streak_threshold = Ok (t, fig)
    /\ out = sort_by (fun a b => key_leb (a_emp a, a_date a)
                                         (a_emp b, a_date b))
                     (filter is_anomaly t).
Proof.
  unfold detect_attendance_anomalies.
  destruct (flagged_frame _ _ _ _ _ _) as [[t fig']|e]; [|discriminate].
  cbn [bind fst snd]. intros E. injection E as <- <-.
  exists t. split; reflexivity.
Qed.

(** With two employees or more the frame is returned, the streak column
    aligned like the z-score flags. *)
Lemma flagged_frame_two_groups (rs : list AttRow) (k1 k2 : cell)
    (ks : list cell) :
  ensure_columns df REQ = Ok tt ->
  mapM (read_row parse_datetime) (rows df) = Ok rs ->
  sortable (map emp rs) = true ->
  group_keys (sort_by row_leb rs) = k1 :: k2 :: ks ->
  flagged_frame parse_datetime f64 df z_thresh long_hours_threshold
    streak_threshold
  = Ok (map (flag_row long_hours_threshold streak_threshold)
          (combine (sort_by row_leb rs)
             (combine (per_group fz (sort_by row_leb rs))
                      (per_group fs (sort_by row_leb rs)))),
        overview (sort_by row_leb rs)).
Proof.
  intros E M S G. unfold flagged_frame.
  rewrite E. cbn [bind]. rewrite M. cbn [bind]. rewrite S. cbn [negb].
  cbv zeta. rewrite map_snd_sort_by, map_snd_combine by (apply length_seq).
  unfold assign_per_group. rewrite G. reflexivity.
Qed.

(** A returned frame that holds two employees was assigned its streak
    column group by group. *)
Lemma flagged_frame_streaks (t : list Anomaly) (fig : list (Z * R))
    (a1 a2 : Anomaly) :
  flagged_frame parse_datetime f64 df z_thresh long_hours_threshold
    streak_threshold = Ok (t, fig) ->
  In a1 t -> In a2 t ->
  isna (a_emp a1) = false -> isna (a_emp a2) = false ->
  a_emp a1 <> a_emp a2 ->
  exists rs,
    mapM (read_row parse_datetime) (rows df) = Ok rs
    /\ fig = overview (sort_by row_leb rs)
    /\ t = map (flag_row long_hours_threshold streak_threshold)
             (combine (sort_by row_leb rs)
                (combine (per_group fz (sort_by row_leb rs))
                         (per_group fs (sort_by row_leb rs)))).
Proof.
  intros F I1 I2 N1 N2 D.
  destruct (flagged_frame_inv t fig F) as [rs [labels [st [M [L [A [Ef Et]]]]]]].
  exists rs. split; [exact M|]. split; [exact Ef|].
  assert (Hrow : forall a, In a t -> exists r, In r (sort_by row_leb rs)
                                              /\ a_emp a = emp r).
  { intros a I. rewrite Et in I. apply in_map_iff in I.
    destruct I as [[r [z s]] [<- I]]. apply in_combine_l in I.
    exists r. split; [exact I|reflexivity]. }
  destruct (Hrow a1 I1) as [r1 [J1 E1]]. destruct (Hrow a2 I2) as [r2 [J2 E2]].
  rewrite E1 in N1, D. rewrite E2 in N2, D.
  destruct (two_groups _ r1 r2 J1 J2 N1 N2 D) as [k1 [k2 [ks G]]].
  unfold assign_per_group in A. rewrite G in A. injection A as <-.
  exact Et.
Qed.

End FlaggedFrame.

(** ** The streak column *)

Section StreakColumn.

Import Utils AttendanceCheck.

Lemma read_row_emp (parse_datetime : cell -> option Z) (r : Row) (a : AttRow) :
  read_row parse_datetime r = Ok a -> emp a = cell_at r "社員ID".
Proof.
  unfold read_row.
  destruct (to_datetime parse_datetime (cell_at r "日付")); [|discriminate].
  destruct (as_float (cell_at r "勤務時間h")); [|discriminate].
  destruct (as_float (cell_at r "残業時間h")); [|discriminate].
  cbn [bind]. intros E. injection E as <-. reflexivity.
Qed.

(** The rows of one employee in a frame, and what they came from. *)
Lemma flagged_group (long_hours_threshold : R) (streak_threshold : Z)
    (k : cell) (srs : list AttRow) (zs : list (option bool))
    (ss : list (option Z)) :
  List.length zs = List.length srs -> List.length ss = List.length srs ->
  let g := filter (fun a => cell_eqb (a_emp a) k)
             (map (flag_row long_hours_threshold streak_threshold)
                  (combine srs (combine zs ss))) in
  map a_date g = map date (group_of k srs)
  /\ map a_hours g = map hours (group_of k srs)
  /\ map a_streak g
     = map snd (filter (fun p => cell_eqb (emp (fst p)) k) (combine srs ss))
  /\ map a_z g
     = map snd (filter (fun p => cell_eqb (emp (fst p)) k) (combine srs zs)).
Proof.
  intros Lz Ls g. subst g. rewrite filter_map_comm.
  set (sel := filter _ (combine srs (combine zs ss))).
  destruct (three_columns (fun r => cell_eqb (emp r) k) srs zs ss Lz Ls)
    as [E1 [E2 E3]].
  cbv zeta in E1, E2, E3.
  assert (Esel : sel = filter (fun p => cell_eqb (emp (fst p)) k)
                         (combine srs (combine zs ss))).
  { unfold sel. apply filter_ext. intros [r [z s]]. reflexivity. }
  rewrite <- Esel in E1, E2, E3. unfold group_of. rewrite <- E1, <- E2, <- E3.
  rewrite !map_map.
  repeat split; apply map_ext; intros [r [z s]]; reflexivity.
Qed.

End StreakColumn.

(** C2.  The streak column of [detect_attendance_anomalies].  In a frame
    that holds two employees or more, the rows of each employee are in
    date order and their streak counters are those of [longest_streak] on
    these rows, which follow the rule of the specification
    ([counter_rule]); the long-streak flag of a row holds exactly when its
    counter is at least [streak_threshold]; and the table returned is made
    of the flagged rows of this frame.  In a frame of two rows or more that
    all belong to one employee no counter is assigned: the function
    raises. *)
Theorem streak_column_of_detect
    (parse_datetime : cell -> option Z) (f64 : R -> float) (df : DataFrame)
    (z_thresh long_hours_threshold : R) (streak_threshold : Z) :
  (forall table fig a1 a2,
      AttendanceCheck.flagged_frame parse_datetime f64 df z_thresh
        long_hours_threshold streak_threshold = Ok (table, fig) ->
      In a1 table -> In a2 table ->
      isna (AttendanceCheck.a_emp a1) = false ->
      isna (AttendanceCheck.a_emp a2) = false ->
      AttendanceCheck.a_emp a1 <> AttendanceCheck.a_emp a2 ->
      AttendanceCheck.detect_attendance_anomalies parse_datetime f64 df
        z_thresh long_hours_threshold streak_threshold
      = Ok (AttendanceCheck.sort_by
              (fun a b =>
                 AttendanceCheck.key_leb
                   (AttendanceCheck.a_emp a, AttendanceCheck.a_date a)
                   (AttendanceCheck.a_emp b, AttendanceCheck.a_date b))
              (filter AttendanceCheck.is_anomaly table), fig)
      /\ forall k, isna k = false ->
           let g := filter (fun a => cell_eqb (AttendanceCheck.a_emp a) k)
                           table in
           let rows := combine (map AttendanceCheck.a_date g)
                               (map AttendanceCheck.a_hours g) in
           let c := AttendanceCheck.longest_streak
                      (map AttendanceCheck.a_date g)
                      (map AttendanceCheck.a_hours g) in
           StronglySorted
             (fun a b => AttendanceCheck.ts_leb (AttendanceCheck.a_date a)
                           (AttendanceCheck.a_date b) = true) g
           /\ map AttendanceCheck.a_streak g = map Some c
           /\ (forall i dt h, nth_error rows i = Some (dt, h) ->
                 counter_rule rows c streak_threshold i dt h)
           /\ (forall i a, nth_error g i = Some a ->
                 (AttendanceCheck.a_run a = true
                  <-> (streak_threshold <= nth i c 0)%Z)))
  /\ (forall k,
        isna k = false ->
        (2 <= List.length (rows df))%nat ->
        (forall r, In r (rows df) -> cell_at r "社員ID" = k) ->
        exists e,
          AttendanceCheck.detect_attendance_anomalies parse_datetime f64 df
            z_thresh long_hours_threshold streak_threshold = Raise e).
Proof.
  split.
  - intros table fig a1 a2 F I1 I2 N1 N2 D. split.
    { unfold AttendanceCheck.detect_attendance_anomalies. rewrite F.
      reflexivity. }
    intros k Hk g rows c.
    destruct (flagged_frame_streaks parse_datetime f64 df z_thresh
                long_hours_threshold streak_threshold table fig a1 a2
                F I1 I2 N1 N2 D) as [rs [M [_ Et]]].
    cbv zeta in Et.
    set (srs := AttendanceCheck.sort_by AttendanceCheck.row_leb rs) in *.
    set (fz := fun g0 : list AttendanceCheck.AttRow =>
                 AttendanceCheck.flags
                   (AttendanceCheck.z_anom (f64 z_thresh)
                      (map (fun r => AttendanceCheck.to_f64 f64
                                       (AttendanceCheck.overtime r)) g0))) in *.
    set (fs := fun g0 : list AttendanceCheck.AttRow =>
                 AttendanceCheck.longest_streak
                   (map AttendanceCheck.date g0)
                   (map AttendanceCheck.hours g0)) in *.
    assert (Hfs : forall g0, List.length (fs g0) = List.length g0)
      by (intros g0; apply length_fs).
    destruct (flagged_group long_hours_threshold streak_threshold k srs
                (AttendanceCheck.per_group fz srs)
                (AttendanceCheck.per_group fs srs))
      as [Ed [Eh [Es _]]];
      [apply length_per_group_from|apply length_per_group_from|].
    rewrite <- Et in Ed, Eh, Es. fold g in Ed, Eh, Es.
    rewrite (per_group_select fs Hfs k Hk srs) in Es.
    assert (Ec : c = fs (AttendanceCheck.group_of k srs)).
    { unfold c, fs. rewrite Ed, Eh. reflexivity. }
    assert (Sg : StronglySorted
                   (fun a b => AttendanceCheck.ts_leb (AttendanceCheck.a_date a)
                                 (AttendanceCheck.a_date b) = true) g).
    { pose proof (group_sorted_by_date k rs) as S. fold srs in S.
      revert Ed. generalize (AttendanceCheck.group_of k srs) S.
      clear. induction g as [|a g IH]; intros [|r l] S Ed; try discriminate;
        [constructor|].
      simpl in Ed. injection Ed as Ea Ed.
      inversion S as [|? ? S' F]; subst. constructor; [apply (IH l S' Ed)|].
      rewrite Forall_forall in *. intros b Ib.
      apply (in_map AttendanceCheck.a_date) in Ib. rewrite Ed in Ib.
      apply in_map_iff in Ib. destruct Ib as [r' [Er Ir]].
      rewrite Ea, <- Er. apply F. exact Ir. }
    split; [exact Sg|]. split; [rewrite Es, Ec; reflexivity|]. split.
    + intros i dt h Hrow. apply longest_streak_counter_rule. exact Hrow.
    + intros i a Ha.
      assert (Erun : AttendanceCheck.a_run a
                     = AttendanceCheck.streak_flag streak_threshold
                         (AttendanceCheck.a_streak a)).
      { assert (Ia : In a table).
        { apply nth_error_In in Ha. unfold g in Ha. apply filter_In in Ha.
          tauto. }
        rewrite Et in Ia. apply in_map_iff in Ia.
        destruct Ia as [[r [z s]] [<- _]]. reflexivity. }
      assert (Est : AttendanceCheck.a_streak a = Some (nth i c 0%Z)).
      { pose proof (map_nth_error AttendanceCheck.a_streak i g Ha) as H1.
        rewrite Es, <- Ec in H1.
        destruct (nth_error c i) as [v|] eqn:Hc.
        - rewrite (map_nth_error Some i c Hc) in H1.
          rewrite (nth_error_nth c i 0%Z Hc). congruence.
        - apply nth_error_None in Hc.
          assert (i < List.length (map Some c))%nat
            by (apply nth_error_Some; congruence).
          rewrite length_map in *. lia. }
      rewrite Erun, Est. unfold AttendanceCheck.streak_flag.
      rewrite Z.geb_leb. apply Z.leb_le.
  - intros k Hk Hlen Hall.
    unfold AttendanceCheck.detect_attendance_anomalies,
      AttendanceCheck.flagged_frame.
    destruct (Utils.ensure_columns df AttendanceCheck.REQ) as [[]|e];
      [|exists e; reflexivity].
    cbn [bind].
    destruct (AttendanceCheck.mapM (AttendanceCheck.read_row parse_datetime)
                (rows df)) as [rs|e] eqn:M; [|exists e; reflexivity].
    cbn [bind].
    destruct (negb (AttendanceCheck.sortable (map AttendanceCheck.emp rs)));
      [exists LibraryError; reflexivity|].
    cbv zeta. rewrite map_snd_sort_by, map_snd_combine by (apply length_seq).
    set (srs := AttendanceCheck.sort_by AttendanceCheck.row_leb rs).
    assert (Hemp : forall r, In r srs -> AttendanceCheck.emp r = k).
    { intros r I. apply in_sort_by in I.
      destruct (proj1 (mapM_in _ _ _ M) r I) as [x [Ix Fx]].
      rewrite (read_row_emp parse_datetime x r Fx). apply Hall. exact Ix. }
    assert (Ls : List.length srs = List.length (rows df)).
    { unfold srs. rewrite length_sort_by. apply (mapM_length _ _ _ M). }
    assert (Hne : srs <> []).
    { intros E. rewrite E in Ls. simpl in Ls. lia. }
    destruct (one_group srs k Hk Hne Hemp) as [G1 G2].
    unfold AttendanceCheck.assign_per_group. rewrite G1, G2.
    destruct srs as [|r1 [|r2 srs']]; simpl in Ls; try lia.
    exists LibraryError. reflexivity.
Qed.

Lemma streak_column_of_detect_witness :
  let df2 := mkDF AttendanceCheck.REQ
               [[("社員ID", CStr "E1"); ("日付", CTime 1704067200000000000);
                 ("勤務時間h", CNum 8); ("残業時間h", CNum 1)];
                [("社員ID", CStr "E1"); ("日付", CTime 1704153600000000000);
                 ("勤務時間h", CNum 9); ("残業時間h", CNum 2)];
                [("社員ID", CStr "E2"); ("日付", CTime 1704067200000000000);
                 ("勤務時間h", CNum 8); ("残業時間h", CNum 0)]]%string in
  let df1 := mkDF AttendanceCheck.REQ
               [[("社員ID", CStr "E1"); ("日付", CTime 1704067200000000000);
                 ("勤務時間h", CNum 8); ("残業時間h", CNum 1)];
                [("社員ID", CStr "E1"); ("日付", CTime 1704153600000000000);
                 ("勤務時間h", CNum 9); ("残業時間h", CNum 2)]]%string in
  (exists table fig,
     AttendanceCheck.flagged_frame (fun _ => None) (fun _ => 0%float) df2
       2 11 12 = Ok (table, fig)
     /\ let g := filter (fun a => cell_eqb (AttendanceCheck.a_emp a)
                                    (CStr "E1")) table in
        map AttendanceCheck.a_streak g
        = map Some (AttendanceCheck.longest_streak
                      (map AttendanceCheck.a_date g)
                      (map AttendanceCheck.a_hours g)))
  /\ exists e,
       AttendanceCheck.detect_attendance_anomalies (fun _ => None)
         (fun _ => 0%float) df1 2 11 12 = Raise e.
Proof.
  intros df2 df1.
  pose (r1 := AttendanceCheck.mkAtt (CStr "E1")
                (Utils.TS 1704067200000000000) (Fin 8) (Fin 1)).
  pose (r2 := AttendanceCheck.mkAtt (CStr "E1")
                (Utils.TS 1704153600000000000) (Fin 9) (Fin 2)).
  pose (r3 := AttendanceCheck.mkAtt (CStr "E2")
                (Utils.TS 1704067200000000000) (Fin 8) (Fin 0)).
  pose proof (streak_column_of_detect (fun _ => None) (fun _ => 0%float) df2
                2 11 12%Z) as [A _].
  pose proof (streak_column_of_detect (fun _ => None) (fun _ => 0%float) df1
                2 11 12%Z) as [_ B].
  split.
  - pose proof (flagged_frame_two_groups (fun _ => None) (fun _ => 0%float)
                  df2 2 11 12%Z [r1; r2; r3] (CStr "E1") (CStr "E2") []
                  eq_refl eq_refl eq_refl eq_refl) as F.
    cbv zeta in F. eexists. eexists. split; [exact F|].
    refine (proj1 (proj2 (proj2 (A _ _ _ _ F _ _ _ _ _) (CStr "E1") eq_refl))).
    + left. reflexivity.
    + right. right. left. reflexivity.
    + reflexivity.
    + reflexivity.
    + discriminate.
  - apply (B (CStr "E1")).
    + reflexivity.
    + simpl. lia.
    + intros r [<-|[<-|[]]]; reflexivity.
Defined.

(** ** The z-score flag of a constant series *)

Section ConstantSeries.

Import Utils AttendanceCheck.

Lemma fge_8_11 : fge (Fin 8) (Fin 11) = false.
Proof. unfold fge, fle. apply Rleb_false. lra. Qed.

Lemma worked_8 : worked (Fin 8) = true.
Proof. unfold worked, fgt, flt. apply Rltb_true. lra. Qed.

End ConstantSeries.

(** C4.  Three equal overtime values of 0.7.  Their float64 mean is
    0.6999999999999998 and their standard deviation 2^-53, not 0: the test
    [s == 0] fails, the division is carried out, every z-score is 1.0, and
    with a threshold of 0.5 every row is flagged.  So it is in
    [detect_attendance_anomalies]: of the frame below, which holds the
    three rows of E1 and one row of E2, the three rows of E1 are returned
    with their z-score flag set, and nothing else flags them. *)
#[warnings="-inexact-float"]
Theorem constant_series_is_flagged :
  let x := [0.7; 0.7; 0.7]%float in
  AttendanceCheck.mean x = 0.69999999999999984%float
  /\ AttendanceCheck.std0 x = 0x1p-53%float
  /\ PrimFloat.eqb (AttendanceCheck.std0 x) 0 = false
  /\ AttendanceCheck.z_anom 0.5 x
     = AttendanceCheck.mkZ [true; true; true]
         [0x1p-53; 0x1p-53; 0x1p-53]%float
  /\ forall (parse_datetime : cell -> option Z) (f64 : R -> float),
       f64 (7 / 10)%R = 0.7%float ->
       f64 (1 / 2)%R = 0.5%float ->
       let row id day :=
         [("社員ID", CStr id); ("日付", CTime (day * 86400000000000));
          ("勤務時間h", CNum 8); ("残業時間h", CNum (7 / 10))]%string in
       let flagged day streak :=
         AttendanceCheck.mkAnomaly (CStr "E1")
           (Utils.TS (day * 86400000000000)) (Fin 8) (Fin (7 / 10))
           (Some streak) (Some true) false false in
       exists fig,
         AttendanceCheck.detect_attendance_anomalies parse_datetime f64
           (mkDF AttendanceCheck.REQ
              [row "E1" 19723; row "E1" 19724; row "E1" 19725;
               row "E2" 19723]%string%Z)
           (1 / 2) 11 12
         = Ok ([flagged 19723 1; flagged 19724 2; flagged 19725 3]%Z, fig).
Proof.
  intros x. split; [vm_compute; reflexivity|].
  split; [vm_compute; reflexivity|].
  split; [vm_compute; reflexivity|].
  split; [vm_compute; reflexivity|].
  intros parse_datetime f64 Hf Hz row flagged.
  pose (r (id : string) (day : Z) :=
          AttendanceCheck.mkAtt (CStr id) (Utils.TS (day * 86400000000000))
            (Fin 8) (Fin (7 / 10))).
  pose proof (flagged_frame_two_groups parse_datetime f64
                (mkDF AttendanceCheck.REQ
                   [row "E1" 19723; row "E1" 19724; row "E1" 19725;
                    row "E2" 19723]%string%Z)
                (1 / 2) 11 12%Z
                [r "E1" 19723; r "E1" 19724; r "E1" 19725; r "E2" 19723]%string%Z
                (CStr "E1") (CStr "E2") []
                eq_refl eq_refl eq_refl eq_refl) as F.
  cbv zeta in F.
  unfold AttendanceCheck.detect_attendance_anomalies. rewrite F.
  cbn [bind fst snd]. clear F.
  set (r1 := r "E1"%string 19723%Z). set (r2 := r "E1"%string 19724%Z).
  set (r3 := r "E1"%string 19725%Z). set (r4 := r "E2"%string 19723%Z).
  assert (Es : AttendanceCheck.sort_by AttendanceCheck.row_leb [r1; r2; r3; r4]
               = [r1; r2; r3; r4]) by reflexivity.
  rewrite Es. clear Es.
  set (fz := fun g : list AttendanceCheck.AttRow =>
               AttendanceCheck.flags
                 (AttendanceCheck.z_anom (f64 (1 / 2))
                    (map (fun r0 => AttendanceCheck.to_f64 f64
                                      (AttendanceCheck.overtime r0)) g))).
  set (fs := fun g : list AttendanceCheck.AttRow =>
               AttendanceCheck.longest_streak (map AttendanceCheck.date g)
                 (map AttendanceCheck.hours g)).
  assert (Pz : AttendanceCheck.per_group fz [r1; r2; r3; r4]
               = [nth_error (fz [r1; r2; r3]) 0; nth_error (fz [r1; r2; r3]) 1;
                  nth_error (fz [r1; r2; r3]) 2; nth_error (fz [r4]) 0])
    by reflexivity.
  assert (Ps : AttendanceCheck.per_group fs [r1; r2; r3; r4]
               = [nth_error (fs [r1; r2; r3]) 0; nth_error (fs [r1; r2; r3]) 1;
                  nth_error (fs [r1; r2; r3]) 2; nth_error (fs [r4]) 0])
    by reflexivity.
  assert (Z1 : fz [r1; r2; r3] = [true; true; true]).
  { unfold fz, r1, r2, r3, r. cbn [map AttendanceCheck.overtime
                                    AttendanceCheck.to_f64].
    rewrite Hf, Hz. vm_compute. reflexivity. }
  assert (Z4 : fz [r4] = [false]).
  { unfold fz, r4, r. cbn [map AttendanceCheck.overtime AttendanceCheck.to_f64].
    rewrite Hf, Hz. vm_compute. reflexivity. }
  assert (S1 : fs [r1; r2; r3] = [1; 2; 3]%Z).
  { unfold fs, r1, r2, r3, r, AttendanceCheck.longest_streak.
    cbn [map AttendanceCheck.date AttendanceCheck.hours combine
           AttendanceCheck.streak_loop AttendanceCheck.streak_step fst snd].
    rewrite worked_8. reflexivity. }
  assert (S4 : fs [r4] = [1]%Z).
  { unfold fs, r4, r, AttendanceCheck.longest_streak.
    cbn [map AttendanceCheck.date AttendanceCheck.hours combine
           AttendanceCheck.streak_loop AttendanceCheck.streak_step fst snd].
    rewrite worked_8. reflexivity. }
  rewrite Pz, Ps, Z1, Z4, S1, S4.
  cbn [nth_error combine map AttendanceCheck.flag_row].
  unfold r1, r2, r3, r4, r.
  cbn [AttendanceCheck.emp AttendanceCheck.date AttendanceCheck.hours
         AttendanceCheck.overtime].
  rewrite fge_8_11.
  eexists. reflexivity.
Qed.

#[warnings="-inexact-float"]
Lemma constant_series_is_flagged_witness :
  let f64 := fun x : R => if Rlt_dec x (6 / 10) then 0.5%float else 0.7%float in
  let row id day :=
    [("社員ID", CStr id); ("日付", CTime (day * 86400000000000));
     ("勤務時間h", CNum 8); ("残業時間h", CNum (7 / 10))]%string in
  let flagged day streak :=
    AttendanceCheck.mkAnomaly (CStr "E1")
      (Utils.TS (day * 86400000000000)) (Fin 8) (Fin (7 / 10))
      (Some streak) (Some true) false false in
  exists fig,
    AttendanceCheck.detect_attendance_anomalies (fun _ => None) f64
      (mkDF AttendanceCheck.REQ
         [row "E1" 19723; row "E1" 19724; row "E1" 19725;
          row "E2" 19723]%string%Z)
      (1 / 2) 11 12
    = Ok ([flagged 19723 1; flagged 19724 2; flagged 19725 3]%Z, fig).
Proof.
  intros f64 row flagged.
  destruct constant_series_is_flagged as [_ [_ [_ [_ H]]]].
  apply (H (fun _ => None) f64); unfold f64.
  - destruct (Rlt_dec (7 / 10) (6 / 10)); [lra|reflexivity].
  - destruct (Rlt_dec (1 / 2) (6 / 10)); [reflexivity|lra].
Defined.

(** ** The score of a row without usable features *)

Section UnusableFeatures.

Import RiskModel AttendanceCheck.
Open Scope R_scope.

Lemma zip_outer_combine (ids : list cell) (ps : list pyfloat) :
  List.length ps = List.length ids -> zip_outer ids ps = combine ids ps.
Proof.
  revert ps. induction ids as [|i ids IH]; intros [|p ps] L; simpl in *;
    try discriminate; [reflexivity|].
  injection L as L. rewrite IH by exact L. reflexivity.
Qed.

Lemma nth_error_combine_map {A B C} (f : A -> B) (ids : list C) (l : list A)
    (i : nat) (a : A) (d : C) :
  List.length ids = List.length l -> nth_error l i = Some a ->
  nth_error (combine ids (map f l)) i = Some (nth i ids d, f a).
Proof.
  revert l i. induction ids as [|c ids IH]; intros [|x l] [|i] L H;
    simpl in *; try discriminate.
  - injection H as ->. reflexivity.
  - injection L as L. apply IH; assumption.
Qed.

Lemma nth_error_combine_self {A B} (f : A -> B) (l : list A) (i : nat)
    (a : A) :
  nth_error l i = Some a ->
  nth_error (combine l (map f l)) i = Some (a, f a).
Proof.
  revert i. induction l as [|x l IH]; intros [|i] N; simpl in *;
    try discriminate.
  - injection N as ->. reflexivity.
  - apply IH. exact N.
Qed.

Lemma merge_left_covers (left : list RiskResult)
    (right : list (cell * list (string * cell))) (ref_cols : list string)
    (l : RiskResult) :
  In l left ->
  exists y, In y (merge_left left right ref_cols)
            /\ r_emp y = r_emp l /\ r_prob y = r_prob l /\ r_tier y = r_tier l.
Proof.
  intros Hl. unfold merge_left.
  destruct (filter (fun r => cell_eqb (fst r) (r_emp l)) right) as [|m ms] eqn:F.
  - eexists. split; [apply in_flat_map; exists l; split; [exact Hl|]|].
    + rewrite F. left. reflexivity.
    + repeat split.
  - exists (mkRisk (r_emp l) (r_prob l) (r_tier l) (snd m)).
    split; [apply in_flat_map; exists l; split; [exact Hl|]|].
    + rewrite F. left. reflexivity.
    + repeat split.
Qed.

(** NaN is absorbing in the builtin [sum]. *)
Lemma fold_fadd_nan (l : list pyfloat) : fold_left fadd l NaN = NaN.
Proof. induction l as [|x l IH]; simpl; [reflexivity|exact IH]. Qed.

Lemma py_sum_nan (l : list pyfloat) (a : pyfloat) :
  In NaN l -> fold_left fadd l a = NaN.
Proof.
  revert a. induction l as [|x l IH]; intros a; simpl; [tauto|].
  intros [->|H]; [|apply IH; exact H].
  replace (fadd a NaN) with NaN by (destruct a; reflexivity).
  apply fold_fadd_nan.
Qed.

Lemma contribution_nan (w : R) (norm : R -> R) :
  contribution w norm (Some NaN) = [NaN].
Proof. reflexivity. Qed.

(** A feature that converts to NaN (a missing cell, or the text "nan")
    makes the whole score NaN. *)
Lemma score_with_nan_feature (float_of_str : string -> option pyfloat)
    (row : Row) (c : string) :
  In c PREFERRED_FEATURES -> get float_of_str row c = Some NaN ->
  rule_based_score float_of_str row = NaN.
Proof.
  intros Hc G.
  assert (Hn : In NaN (contributions float_of_str row)).
  { unfold contributions. cbv zeta. simpl in Hc.
    repeat (destruct Hc as [<-|Hc];
            [rewrite G, contribution_nan, !in_app_iff; simpl; tauto|]).
    destruct Hc. }
  unfold rule_based_score. cbv zeta.
  destruct (contributions float_of_str row) as [|x l] eqn:E; [destruct Hn|].
  unfold py_sum. rewrite (py_sum_nan (x :: l) (Fin 0) Hn). reflexivity.
Qed.

Lemma tier_of_50 : cut1 default_bins tier_labels (Fin 50) = Some Medium.
Proof. unfold default_bins. rewrite cut1_tier_bins by lra. rcases; reflexivity. Qed.

(** On the rule-based path every input row has a result row with its
    identifier, its score as a percentage rounded to one decimal, and the
    tier of that percentage. *)
Lemma predict_attrition_rule_row
    (float_of_str : string -> option pyfloat)
    (logreg_proba : list string -> DataFrame -> result (list pyfloat))
    (df : DataFrame) :
  has_column df "attrition"
  && (0 <? List.length (filter (has_column df) PREFERRED_FEATURES))%nat = false ->
  exists res,
    predict_attrition float_of_str logreg_proba df = Ok (res, "Rule-Based"%string)
    /\ forall i r, nth_error (rows df) i = Some r ->
       exists y, In y res
         /\ r_emp y = nth i (if has_column df "社員ID" then column df "社員ID"
                             else arange1 (List.length (rows df))) CNaN
         /\ r_prob y = np_round1 (fmul (rule_based_score float_of_str
                                          (row_view df r)) (Fin 100))
         /\ r_tier y = cut1 default_bins tier_labels (r_prob y).
Proof.
  intros B. unfold predict_attrition. rewrite B. cbn [bind].
  unfold cut. rewrite increasing_default_bins. cbn [bind].
  eexists. split; [reflexivity|]. cbv zeta.
  intros i r Hr.
  set (ids := if has_column df "社員ID" then column df "社員ID"
              else arange1 (List.length (rows df))) in *.
  set (score := fun r => rule_based_score float_of_str (row_view df r)).
  set (pct := map (fun p => np_round1 (fmul p (Fin 100))) (map score (rows df))).
  assert (Li : List.length ids = List.length (rows df)).
  { unfold ids. destruct (has_column df "社員ID");
      [unfold column; rewrite length_map|rewrite length_arange1]; reflexivity. }
  assert (Lp : List.length pct = List.length ids).
  { unfold pct. rewrite !length_map. symmetry. exact Li. }
  rewrite (zip_outer_combine ids pct Lp).
  set (p := np_round1 (fmul (score r) (Fin 100))).
  set (l := mkRisk (nth i ids CNaN) p (cut1 default_bins tier_labels p) []).
  assert (Hl : In l (map (fun e => mkRisk (fst (fst e)) (snd (fst e)) (snd e) [])
                       (combine (combine ids pct)
                          (map (cut1 default_bins tier_labels)
                             (map snd (combine ids pct)))))).
  { apply in_map_iff.
    exists ((nth i ids CNaN, p), cut1 default_bins tier_labels p).
    split; [reflexivity|].
    assert (N : nth_error (combine ids pct) i = Some (nth i ids CNaN, p)).
    { unfold pct. rewrite map_map.
      apply (nth_error_combine_map
               (fun x => np_round1 (fmul (score x) (Fin 100))) ids (rows df)
               i r CNaN Li Hr). }
    rewrite map_map.
    apply (nth_error_In _ i).
    apply (nth_error_combine_self
             (fun x : cell * pyfloat => cut1 default_bins tier_labels (snd x))
             _ i _ N). }
  destruct (filter (has_column df) ref_candidates) as [|c cs].
  - exists l. split; [apply in_sort_by_back; exact Hl|]. repeat split.
  - destruct (merge_left_covers _
                (combine ids
                   (map (fun r0 => map (fun c0 => (c0, cell_at r0 c0)) (c :: cs))
                      (rows df))) (c :: cs) l Hl) as [y [Hy [E1 [E2 E3]]]].
    exists y. split; [apply in_sort_by_back; exact Hy|].
    rewrite E1, E2, E3. repeat split.
Qed.

End UnusableFeatures.

(** C7 (the code departs from it).  On the rule-based path of
    [predict_attrition] every input row is reported on a result row with its
    identifier.  Where [get] finds no value for any of the seven preferred
    features (the label is absent, or [float] raises on the cell),
    [rule_based_score] is exactly 0.5 and the row is reported with 50.0
    percent, tier Medium, as the claim says.  But a feature cell that is
    present and missing is the float NaN, on which [float] does not raise:
    [get] returns NaN, not the default, the contribution is appended, and
    the score of the row is NaN, reported as a missing probability with no
    tier, although the row yields no numeric value either. *)
Theorem rule_based_score_without_usable_features
    (float_of_str : string -> option pyfloat)
    (logreg_proba : list string -> DataFrame -> result (list pyfloat))
    (df : DataFrame)
    (Hpath : has_column df "attrition"
             && (0 <? List.length (filter (has_column df)
                                     RiskModel.PREFERRED_FEATURES))%nat
             = false) :
  exists res,
    RiskModel.predict_attrition float_of_str logreg_proba df
    = Ok (res, "Rule-Based"%string)
    /\ forall i r, nth_error (rows df) i = Some r ->
       let id := nth i (if has_column df "社員ID" then column df "社員ID"
                        else RiskModel.arange1 (List.length (rows df))) CNaN in
       let score := RiskModel.rule_based_score float_of_str
                      (RiskModel.row_view df r) in
       ((forall c, In c RiskModel.PREFERRED_FEATURES ->
           RiskModel.get float_of_str (RiskModel.row_view df r) c = None) ->
        score = Fin (1 / 2)
        /\ exists y, In y res /\ RiskModel.r_emp y = id
             /\ RiskModel.r_prob y = Fin 50
             /\ RiskModel.r_tier y = Some Medium)
       /\ ((exists c, In c RiskModel.PREFERRED_FEATURES
              /\ RiskModel.get float_of_str (RiskModel.row_view df r) c
                 = Some NaN) ->
           score = NaN
           /\ exists y, In y res /\ RiskModel.r_emp y = id
                /\ RiskModel.r_prob y = NaN
                /\ RiskModel.r_tier y = None).
Proof.
  destruct (predict_attrition_rule_row float_of_str logreg_proba df Hpath)
    as [res [E H]].
  exists res. split; [exact E|]. intros i r Hr id score.
  destruct (H i r Hr) as [y [Hy [Ee [Ep Et]]]]. fold score in Ep.
  split.
  - intros Hn.
    assert (S : score = Fin (1 / 2))
      by apply (score_without_features float_of_str _ Hn).
    split; [exact S|]. exists y. rewrite S, percent_of_half in Ep.
    rewrite Ep in Et. rewrite tier_of_50 in Et. auto.
  - intros [c [Hc G]].
    assert (S : score = NaN)
      by apply (score_with_nan_feature float_of_str _ c Hc G).
    split; [exact S|]. exists y. rewrite S in Ep. cbn in Ep.
    rewrite Ep in Et. cbn in Et. auto.
Qed.

(** Two employees with the seven feature columns: the cells of E1 are all
    missing, those of E2 hold text that does not convert. *)
Lemma rule_based_score_without_usable_features_witness :
  let features := RiskModel.PREFERRED_FEATURES in
  let df := mkDF ("社員ID"%string :: features)
              [("社員ID"%string, CStr "E1") :: map (fun c => (c, CNaN)) features;
               ("社員ID"%string, CStr "E2")
                 :: map (fun c => (c, CStr "-")) features] in
  exists res,
    RiskModel.predict_attrition (fun _ => None) (fun _ _ => Raise LibraryError)
      df = Ok (res, "Rule-Based"%string)
    /\ (exists y, In y res /\ RiskModel.r_emp y = CStr "E1"
          /\ RiskModel.r_prob y = NaN /\ RiskModel.r_tier y = None)
    /\ (exists y, In y res /\ RiskModel.r_emp y = CStr "E2"
          /\ RiskModel.r_prob y = Fin 50
          /\ RiskModel.r_tier y = Some Medium).
Proof.
  intros features df.
  destruct (rule_based_score_without_usable_features (fun _ => None)
              (fun _ _ => Raise LibraryError) df eq_refl) as [res [E H]].
  exists res. split; [exact E|]. split.
  - destruct (H 0%nat _ eq_refl) as [_ P].
    destruct P as [_ P].
    + exists "年齢"%string. split; [left; reflexivity|reflexivity].
    + exact P.
  - destruct (H 1%nat _ eq_refl) as [P _].
    destruct P as [_ P].
    + intros c Hc. simpl in Hc.
      repeat (destruct Hc as [<-|Hc]; [reflexivity|]). destruct Hc.
    + exact P.
Defined.

(** ** The anomaly table *)

Section DetectOutput.

Import Utils AttendanceCheck.

Lemma flag_row_entries (long_hours_threshold : R) (streak_threshold : Z)
    (rs : list AttRow) (zs : list (option bool)) (ss : list (option Z))
    (a : Anomaly) :
  In a (map (flag_row long_hours_threshold streak_threshold)
            (combine rs (combine zs ss))) ->
  exists r, In r rs
    /\ a_emp a = emp r /\ a_date a = date r /\ a_hours a = hours r
    /\ a_overtime a = overtime r
    /\ a_long a = fge (hours r) (Fin long_hours_threshold)
    /\ a_run a = streak_flag streak_threshold (a_streak a).
Proof.
  intros I. apply in_map_iff in I. destruct I as [[r [z st]] [<- I]].
  apply in_combine_l in I. exists r. repeat split. exact I.
Qed.

Lemma filter_filter_andb {A} (P Q : A -> bool) (l : list A) :
  filter P (filter Q l) = filter (fun x => P x && Q x) l.
Proof.
  induction l as [|x l IH]; [reflexivity|].
  cbn [filter]. destruct (Q x); cbn [filter];
    destruct (P x); cbn [andb]; rewrite IH; reflexivity.
Qed.

Variable parse_datetime : cell -> option Z.
Variable f64 : R -> float.
Variable df : DataFrame.
Variable z_thresh long_hours_threshold : R.
Variable streak_threshold : Z.

Let fz (g : list AttRow) : list bool :=
  flags (z_anom (f64 z_thresh) (map (fun r => to_f64 f64 (overtime r)) g)).
Let fs (g : list AttRow) : list Z :=
  longest_streak (map date g) (map hours g).

(** The frame and the table of a file that holds two employees. *)
Lemma detect_two_employees (rs : list AttRow) (r1 r2 : AttRow) :
  ensure_columns df REQ = Ok tt ->
  mapM (read_row parse_datetime) (rows df) = Ok rs ->
  sortable (map emp rs) = true ->
  In r1 rs -> In r2 rs ->
  isna (emp r1) = false -> isna (emp r2) = false -> emp r1 <> emp r2 ->
  let srs := sort_by row_leb rs in
  let t := map (flag_row long_hours_threshold streak_threshold)
             (combine srs (combine (per_group fz srs) (per_group fs srs))) in
  flagged_frame parse_datetime f64 df z_thresh long_hours_threshold
    streak_threshold = Ok (t, overview srs)
  /\ detect_attendance_anomalies parse_datetime f64 df z_thresh
       long_hours_threshold streak_threshold
     = Ok (sort_by (fun a b => key_leb (a_emp a, a_date a)
                                       (a_emp b, a_date b))
                   (filter is_anomaly t), overview srs).
Proof.
  intros E M S I1 I2 N1 N2 D srs t.
  destruct (two_groups srs r1 r2) as [k1 [k2 [ks G]]];
    try assumption; try (apply in_sort_by_back; assumption).
  pose proof (flagged_frame_two_groups parse_datetime f64 df z_thresh
                long_hours_threshold streak_threshold rs k1 k2 ks E M S G)
    as F.
  split; [exact F|].
  unfold detect_attendance_anomalies. rewrite F. reflexivity.
Qed.

(** The z-score flag and the streak counter of a row of the frame, by
    whether the row has an identifier, when the frame holds two employees. *)
Lemma flagged_by_identifier (rs : list AttRow) (a : Anomaly) :
  In a (map (flag_row long_hours_threshold streak_threshold)
          (combine rs (combine (per_group fz rs) (per_group fs rs)))) ->
  if isna (a_emp a) then a_z a = None /\ a_streak a = None
  else exists z s, a_z a = Some z /\ a_streak a = Some s.
Proof.
  intros I. apply in_map_iff in I. destruct I as [[r [z st]] [<- I]].
  apply in_three_columns in I. destruct I as [Iz Is].
  cbn [flag_row a_emp a_z a_streak].
  destruct (isna (emp r)) eqn:N.
  - split.
    + apply (per_group_from_missing fz rs [] rs r z Iz N).
    + apply (per_group_from_missing fs rs [] rs r st Is N).
  - destruct (per_group_from_present fz (length_fz f64 z_thresh) [] rs r z Iz N)
      as [b ->].
    destruct (per_group_from_present fs length_fs [] rs r st Is N) as [c ->].
    exists b, c. split; reflexivity.
Qed.

End DetectOutput.

(** X3.  A frame that [validate_attendance] passes without error, that
    holds two employees or more, whose hours and overtime cells are numbers
    and whose identifiers can be ordered, is processed by
    [detect_attendance_anomalies] without any exception: neither the column
    check nor the date conversion can fail after validation, and with two
    employees the streak column is assigned. *)
Theorem detect_returns_on_validated_frame
    (numeric_of_str : string -> option R) (parse_datetime : cell -> option Z)
    (f64 : R -> float)
    (df : DataFrame) (z_thresh long_hours_threshold : R) (streak_threshold : Z)
    (Hvalid : Utils.errors
                (Utils.validate_attendance numeric_of_str parse_datetime df) = [])
    (Hnum : forall r, In r (rows df) ->
              exists h ot, cell_at r "勤務時間h" = CNum h
                           /\ cell_at r "残業時間h" = CNum ot)
    (Hids : AttendanceCheck.sortable (column df "社員ID") = true)
    (Htwo : exists r1 r2, In r1 (rows df) /\ In r2 (rows df)
              /\ cell_at r1 "社員ID" <> cell_at r2 "社員ID") :
  exists anomalies overview,
    AttendanceCheck.detect_attendance_anomalies parse_datetime f64 df z_thresh
      long_hours_threshold streak_threshold = Ok (anomalies, overview)
    /\ (List.length anomalies <= List.length (rows df))%nat.
Proof.
  apply validate_attendance_no_errors_iff in Hvalid.
  destruct Hvalid as [Hcols Hdates].
  assert (E : Utils.ensure_columns df AttendanceCheck.REQ = Ok tt).
  { unfold Utils.ensure_columns.
    replace (Utils.missing_columns df AttendanceCheck.REQ) with (@nil string);
      [reflexivity|].
    symmetry. apply missing_columns_nil. intros c Hc. apply (Hcols c Hc). }
  set (g := fun r : Row =>
         AttendanceCheck.mkAtt (cell_at r "社員ID")
           (Utils.to_datetime_coerce parse_datetime (cell_at r "日付"))
           (match cell_at r "勤務時間h" with CNum x => Fin x | _ => NaN end)
           (match cell_at r "残業時間h" with CNum x => Fin x | _ => NaN end)).
  assert (R : AttendanceCheck.mapM (AttendanceCheck.read_row parse_datetime) (rows df)
              = Ok (map g (rows df))).
  { apply mapM_ok. intros r Hr. unfold AttendanceCheck.read_row.
    rewrite (to_datetime_of_coerce parse_datetime)
      by (apply Hdates; unfold column; apply in_map_iff; exists r; auto).
    destruct (Hnum r Hr) as [h [ot [Eh Eo]]]. unfold g. rewrite Eh, Eo.
    reflexivity. }
  assert (Eids : map AttendanceCheck.emp (map g (rows df)) = column df "社員ID").
  { rewrite map_map. reflexivity. }
  assert (Hid : forall r, In r (rows df) -> isna (cell_at r "社員ID") = false).
  { intros r Hr. apply (proj2 (Hcols "社員ID"%string (or_introl eq_refl))).
    unfold column. apply in_map_iff. exists r. auto. }
  destruct Htwo as [r1 [r2 [I1 [I2 D]]]].
  rewrite <- Eids in Hids.
  destruct (detect_two_employees parse_datetime f64 df z_thresh
              long_hours_threshold streak_threshold (map g (rows df))
              (g r1) (g r2) E R Hids (in_map g _ _ I1) (in_map g _ _ I2)
              (Hid r1 I1) (Hid r2 I2) D) as [_ F].
  rewrite F. eexists. eexists. split; [reflexivity|].
  rewrite length_sort_by.
  eapply Nat.le_trans; [apply filter_length_le|].
  rewrite length_map, length_combine, length_sort_by, length_map. lia.
Qed.

Lemma detect_returns_on_validated_frame_witness :
  let df := mkDF AttendanceCheck.REQ
              [[("社員ID", CStr "E1"); ("日付", CTime 1704067200000000000);
                ("勤務時間h", CNum 12); ("残業時間h", CNum 4)];
               [("社員ID", CStr "E2"); ("日付", CTime 1704067200000000000);
                ("勤務時間h", CNum 8); ("残業時間h", CNum 0)]]%string in
  exists anomalies overview,
    AttendanceCheck.detect_attendance_anomalies (fun _ => None)
      (fun _ => 0%float) df 2 11 12
    = Ok (anomalies, overview)
    /\ (List.length anomalies <= List.length (rows df))%nat.
Proof.
  intro df.
  apply (detect_returns_on_validated_frame (fun _ => None) (fun _ => None)
           (fun _ => 0%float) df 2 11 12%Z).
  - reflexivity.
  - intros r [<-|[<-|[]]]; eexists; eexists; split; reflexivity.
  - reflexivity.
  - eexists. eexists. split; [left; reflexivity|].
    split; [right; left; reflexivity|]. discriminate.
Defined.

(** X19.  Every row that [detect_attendance_anomalies] returns is a row of
    the input, is selected by the flag mask, and its long-hours and streak
    flags say what they stand for: hours at or above the long-hours
    threshold, and a streak count that is present and at or above the
    streak threshold. *)
Theorem detect_reports_only_flagged_rows
    (parse_datetime : cell -> option Z) (f64 : R -> float) (df : DataFrame)
    (z_thresh long_hours_threshold : R) (streak_threshold : Z)
    (out : list AttendanceCheck.Anomaly) (fig : list (Z * R))
    (a : AttendanceCheck.Anomaly) :
  AttendanceCheck.detect_attendance_anomalies parse_datetime f64 df z_thresh
    long_hours_threshold streak_threshold = Ok (out, fig) ->
  In a out ->
  (exists r, In r (rows df)
     /\ AttendanceCheck.read_row parse_datetime r
        = Ok (AttendanceCheck.mkAtt (AttendanceCheck.a_emp a)
                (AttendanceCheck.a_date a) (AttendanceCheck.a_hours a)
                (AttendanceCheck.a_overtime a)))
  /\ AttendanceCheck.is_anomaly a = true
  /\ AttendanceCheck.a_long a
     = fge (AttendanceCheck.a_hours a) (Fin long_hours_threshold)
  /\ AttendanceCheck.a_run a
     = match AttendanceCheck.a_streak a with
       | Some s => (s >=? streak_threshold)%Z
       | None => false
       end.
Proof.
  intros E I. apply detect_inv in E. destruct E as [t [F ->]].
  apply flagged_frame_inv in F.
  destruct F as [rs [labels [streaks [M [_ [_ [_ ->]]]]]]].
  apply in_sort_by in I. apply filter_In in I. destruct I as [I F].
  apply flag_row_entries in I.
  destruct I as [r [Ir [E1 [E2 [E3 [E4 [E5 E6]]]]]]].
  apply in_sort_by in Ir.
  destruct (proj1 (mapM_in _ _ _ M) r Ir) as [x [Ix Fx]].
  split; [|split; [exact F|split]].
  - exists x. split; [exact Ix|]. rewrite Fx, E1, E2, E3, E4.
    destruct r; reflexivity.
  - rewrite E5, E3. reflexivity.
  - exact E6.
Qed.

Lemma detect_reports_only_flagged_rows_witness :
  let df := mkDF AttendanceCheck.REQ
              [[("社員ID", CStr "E1"); ("日付", CTime 1704067200000000000);
                ("勤務時間h", CNum 12); ("残業時間h", CNum 4)];
               [("社員ID", CStr "E2"); ("日付", CTime 1704067200000000000);
                ("勤務時間h", CNum 8); ("残業時間h", CNum 0)]]%string in
  exists out fig,
    AttendanceCheck.detect_attendance_anomalies (fun _ => None)
      (fun _ => 0%float) df 2 11 12
    = Ok (out, fig)
    /\ forall a, In a out ->
         AttendanceCheck.is_anomaly a = true
         /\ AttendanceCheck.a_long a = fge (AttendanceCheck.a_hours a) (Fin 11).
Proof.
  intro df.
  destruct (detect_two_employees (fun _ => None) (fun _ => 0%float) df 2 11
              12%Z
              [AttendanceCheck.mkAtt (CStr "E1")
                 (Utils.TS 1704067200000000000) (Fin 12) (Fin 4);
               AttendanceCheck.mkAtt (CStr "E2")
                 (Utils.TS 1704067200000000000) (Fin 8) (Fin 0)]
              _ _ eq_refl eq_refl eq_refl (or_introl eq_refl)
              (or_intror (or_introl eq_refl)) eq_refl eq_refl)
    as [_ E]; [discriminate|].
  eexists. eexists. split; [exact E|]. intros a Ia.
  pose proof (detect_reports_only_flagged_rows (fun _ => None)
                (fun _ => 0%float) df 2 11 12%Z _ _ a E Ia) as [_ [F [L _]]].
  split; [exact F|exact L].
Defined.

(** X20.  No long day of an identified employee is lost: every input row
    that has an identifier and whose hours are at or above the long-hours
    threshold is in the table that [detect_attendance_anomalies] returns,
    with its long-hours flag set.  (A row without identifier belongs to no
    group: its z-score flag is missing and the mask leaves it out.) *)
Theorem detect_reports_every_long_day
    (parse_datetime : cell -> option Z) (f64 : R -> float) (df : DataFrame)
    (z_thresh long_hours_threshold : R) (streak_threshold : Z)
    (out : list AttendanceCheck.Anomaly) (fig : list (Z * R))
    (r : Row) (ar : AttendanceCheck.AttRow) :
  AttendanceCheck.detect_attendance_anomalies parse_datetime f64 df z_thresh
    long_hours_threshold streak_threshold = Ok (out, fig) ->
  In r (rows df) ->
  AttendanceCheck.read_row parse_datetime r = Ok ar ->
  isna (AttendanceCheck.emp ar) = false ->
  fge (AttendanceCheck.hours ar) (Fin long_hours_threshold) = true ->
  exists a, In a out
    /\ AttendanceCheck.a_emp a = AttendanceCheck.emp ar
    /\ AttendanceCheck.a_date a = AttendanceCheck.date ar
    /\ AttendanceCheck.a_hours a = AttendanceCheck.hours ar
    /\ AttendanceCheck.a_overtime a = AttendanceCheck.overtime ar
    /\ AttendanceCheck.a_long a = true.
Proof.
  intros E Ir Fr N L. apply detect_inv in E. destruct E as [t [F ->]].
  apply flagged_frame_inv in F.
  destruct F as [rs [labels [streaks [M [Ll [A [_ ->]]]]]]].
  pose proof (proj2 (mapM_in _ _ _ M) r ar Ir Fr) as Ia.
  apply (in_sort_by_back AttendanceCheck.row_leb) in Ia.
  set (srs := AttendanceCheck.sort_by AttendanceCheck.row_leb rs) in *.
  set (fz := fun g : list AttendanceCheck.AttRow =>
               AttendanceCheck.flags
                 (AttendanceCheck.z_anom (f64 z_thresh)
                    (map (fun r => AttendanceCheck.to_f64 f64
                                     (AttendanceCheck.overtime r)) g))) in *.
  assert (Ls : List.length streaks = List.length srs).
  { refine (length_assign_per_group _ labels srs streaks _ A).
    unfold srs. rewrite length_sort_by. exact Ll. }
  assert (Lz : List.length (AttendanceCheck.per_group fz srs)
               = List.length srs) by apply length_per_group_from.
  destruct (covered_by_columns srs _ streaks ar Lz Ls Ia) as [z [st I]].
  pose proof (proj1 (in_three_columns _ _ _ _ _ _ I)) as Iz.
  destruct (per_group_from_present fz (length_fz f64 z_thresh) [] srs ar z
              Iz N) as [b ->].
  exists (AttendanceCheck.flag_row long_hours_threshold streak_threshold
            (ar, (Some b, st))).
  cbn [AttendanceCheck.flag_row AttendanceCheck.a_emp AttendanceCheck.a_date
       AttendanceCheck.a_hours AttendanceCheck.a_overtime
       AttendanceCheck.a_long].
  rewrite L. repeat split.
  apply in_sort_by_back. apply filter_In. split.
  - apply in_map_iff. exists (ar, (Some b, st)). split; [|exact I].
    cbn [AttendanceCheck.flag_row]. rewrite L. reflexivity.
  - unfold AttendanceCheck.is_anomaly.
    cbn [AttendanceCheck.a_z AttendanceCheck.a_long].
    rewrite orb_true_r. reflexivity.
Qed.

Lemma detect_reports_every_long_day_witness :
  let df := mkDF AttendanceCheck.REQ
              [[("社員ID", CStr "E1"); ("日付", CTime 1704067200000000000);
                ("勤務時間h", CNum 12); ("残業時間h", CNum 4)];
               [("社員ID", CStr "E2"); ("日付", CTime 1704067200000000000);
                ("勤務時間h", CNum 8); ("残業時間h", CNum 0)]]%string in
  exists out fig,
    AttendanceCheck.detect_attendance_anomalies (fun _ => None)
      (fun _ => 0%float) df 2 11 12
    = Ok (out, fig)
    /\ exists a, In a out
         /\ AttendanceCheck.a_emp a = CStr "E1"
         /\ AttendanceCheck.a_long a = true.
Proof.
  intro df.
  destruct (detect_two_employees (fun _ => None) (fun _ => 0%float) df 2 11
              12%Z
              [AttendanceCheck.mkAtt (CStr "E1")
                 (Utils.TS 1704067200000000000) (Fin 12) (Fin 4);
               AttendanceCheck.mkAtt (CStr "E2")
                 (Utils.TS 1704067200000000000) (Fin 8) (Fin 0)]
              _ _ eq_refl eq_refl eq_refl (or_introl eq_refl)
              (or_intror (or_introl eq_refl)) eq_refl eq_refl)
    as [_ E]; [discriminate|].
  eexists. eexists. split; [exact E|].
  destruct (detect_reports_every_long_day (fun _ => None) (fun _ => 0%float)
              df 2 11 12%Z _ _
              [("社員ID", CStr "E1"); ("日付", CTime 1704067200000000000);
               ("勤務時間h", CNum 12); ("残業時間h", CNum 4)]%string
              (AttendanceCheck.mkAtt (CStr "E1")
                 (Utils.TS 1704067200000000000) (Fin 12) (Fin 4)) E)
    as [a [Ia [E1 [_ [_ [_ E5]]]]]].
  - left. reflexivity.
  - reflexivity.
  - reflexivity.
  - unfold fge, fle. apply Rleb_true. lra.
  - exists a. auto.
Defined.

(** X21.  The overview series that [detect_attendance_anomalies] returns
    beside the table has one point per timestamp of the data, in
    chronological order, and the value of a point is the sum of the
    overtime of all rows of that timestamp, missing overtime left out. *)
Theorem detect_overview_totals
    (parse_datetime : cell -> option Z) (f64 : R -> float) (df : DataFrame)
    (z_thresh long_hours_threshold : R) (streak_threshold : Z)
    (out : list AttendanceCheck.Anomaly) (fig : list (Z * R)) :
  AttendanceCheck.detect_attendance_anomalies parse_datetime f64 df z_thresh
    long_hours_threshold streak_threshold = Ok (out, fig) ->
  exists rs,
    AttendanceCheck.mapM (AttendanceCheck.read_row parse_datetime) (rows df)
    = Ok rs
    /\ StronglySorted Z.lt (map fst fig)
    /\ (forall t, In t (map fst fig)
                  <-> exists r, In r rs /\ AttendanceCheck.date r = Utils.TS t)
    /\ (forall t v, In (t, v) fig ->
          v = AttendanceCheck.Rsum
                (AttendanceCheck.dropna
                   (map AttendanceCheck.overtime
                      (filter (fun r => AttendanceCheck.ts_eqb
                                          (AttendanceCheck.date r) (Utils.TS t))
                              rs)))).
Proof.
  intros E. apply detect_inv in E. destruct E as [t [F _]].
  apply flagged_frame_inv in F.
  destruct F as [rs [labels [streaks [M [_ [_ [-> _]]]]]]].
  exists rs. split; [exact M|]. rewrite overview_dates. split; [|split].
  - apply strictly_sorted.
    + apply sort_by_sorted.
      * intros a b H. apply Z.leb_gt in H. apply Z.leb_le. lia.
      * intros a b c H1 H2. apply Z.leb_le in H1. apply Z.leb_le in H2.
        apply Z.leb_le. lia.
    + apply NoDup_sort_by. apply NoDup_distinct_dates.
  - intros t'. split.
    + intros I. apply in_sort_by in I. apply distinct_dates_in in I.
      destruct I as [r [Ir Er]]. apply in_sort_by in Ir. exists r. auto.
    + intros [r [Ir Er]]. apply in_sort_by_back. apply distinct_dates_in.
      exists r. split; [apply in_sort_by_back; exact Ir|exact Er].
  - intros t' v I. unfold AttendanceCheck.overview in I.
    apply in_map_iff in I. destruct I as [t'' [Et _]].
    injection Et as -> <-. apply date_total_sort_by.
Qed.

Lemma detect_overview_totals_witness :
  let df := mkDF AttendanceCheck.REQ
              [[("社員ID", CStr "E1"); ("日付", CTime 1704067200000000000);
                ("勤務時間h", CNum 12); ("残業時間h", CNum 4)];
               [("社員ID", CStr "E2"); ("日付", CTime 1704067200000000000);
                ("勤務時間h", CNum 8); ("残業時間h", CNum 0)]]%string in
  exists out fig,
    AttendanceCheck.detect_attendance_anomalies (fun _ => None)
      (fun _ => 0%float) df 2 11 12
    = Ok (out, fig)
    /\ StronglySorted Z.lt (map fst fig).
Proof.
  intro df.
  destruct (detect_two_employees (fun _ => None) (fun _ => 0%float) df 2 11
              12%Z
              [AttendanceCheck.mkAtt (CStr "E1")
                 (Utils.TS 1704067200000000000) (Fin 12) (Fin 4);
               AttendanceCheck.mkAtt (CStr "E2")
                 (Utils.TS 1704067200000000000) (Fin 8) (Fin 0)]
              _ _ eq_refl eq_refl eq_refl (or_introl eq_refl)
              (or_intror (or_introl eq_refl)) eq_refl eq_refl)
    as [_ E]; [discriminate|].
  eexists. eexists. split; [exact E|].
  destruct (detect_overview_totals (fun _ => None) (fun _ => 0%float) df 2 11
              12%Z _ _ E) as [rs [_ [S _]]].
  exact S.
Defined.

Section ReportedCounts.

Import Utils AttendanceCheck Report.

Lemma build_pdf_attendance_returns
    (font_name generated : string)
    (attendance_line : Anomaly -> result string) (line : Anomaly -> string)
    (str_of_cell : cell -> string) (sha256_hexdigest : string -> string)
    (env : environ) (df : list Anomaly) (anonymize : bool) :
  (forall a, attendance_line a = Ok (line a)) ->
  exists ops,
    build_pdf_attendance font_name generated attendance_line str_of_cell
      sha256_hexdigest env df anonymize = Ok ops.
Proof.
  intros H. unfold build_pdf_attendance. cbv zeta.
  rewrite (mapM_ok attendance_line line) by (intros a _; apply H).
  cbn [bind]. eexists. reflexivity.
Qed.

(** The long days of the table are the long days of the identified
    employees, when the file holds two employees. *)
Lemma long_days_of_table (f64 : R -> float)
    (z_thresh long_hours_threshold : R) (streak_threshold : Z)
    (rs : list AttRow) :
  let fz := fun g : list AttRow =>
              flags (z_anom (f64 z_thresh)
                       (map (fun r => to_f64 f64 (overtime r)) g)) in
  let fs := fun g : list AttRow => longest_streak (map date g) (map hours g) in
  let t := map (flag_row long_hours_threshold streak_threshold)
             (combine rs (combine (per_group fz rs) (per_group fs rs))) in
  List.length (filter a_long (filter is_anomaly t))
  = List.length
      (filter (fun r => negb (isna (emp r))
                        && fge (hours r) (Fin long_hours_threshold)) rs).
Proof.
  intros fz fs t. rewrite filter_filter_andb.
  rewrite (length_filter_ext_in _
             (fun a => negb (isna (a_emp a)) && a_long a) t).
  - unfold t. rewrite filter_map_comm, length_map.
    rewrite (filter_ext _
               (fun p => (fun r => negb (isna (emp r))
                                   && fge (hours r) (Fin long_hours_threshold))
                           (fst p)))
      by (intros [r [z st]]; reflexivity).
    apply (length_filter_fst
             (fun r => negb (isna (emp r))
                       && fge (hours r) (Fin long_hours_threshold))).
    rewrite length_combine. unfold per_group.
    rewrite !length_per_group_from. lia.
  - intros a Ia.
    pose proof (flagged_by_identifier f64 z_thresh long_hours_threshold
                  streak_threshold rs a Ia) as H.
    assert (Er : a_run a = streak_flag streak_threshold (a_streak a)).
    { unfold t in Ia. apply flag_row_entries in Ia.
      destruct Ia as [r [_ [_ [_ [_ [_ [_ E]]]]]]]. exact E. }
    unfold is_anomaly. destruct (isna (a_emp a)).
    + destruct H as [-> Hs]. rewrite Er, Hs. cbn.
      rewrite andb_false_r. reflexivity.
    + destruct H as [z [s [-> _]]]. cbn [negb andb].
      destruct (a_long a); [|reflexivity].
      rewrite orb_true_r. reflexivity.
Qed.

End ReportedCounts.

(** X23.  From the data to the report, for a file that holds two
    employees: the long-hours count that [build_pdf_attendance] prints for
    the table returned by [detect_attendance_anomalies] is the number of
    input rows that have an identifier and whose hours are at or above the
    long-hours threshold. *)
Theorem reported_long_hours_count
    (parse_datetime : cell -> option Z) (f64 : R -> float) (df : DataFrame)
    (z_thresh long_hours_threshold : R) (streak_threshold : Z)
    (out : list AttendanceCheck.Anomaly) (fig : list (Z * R))
    (rs : list AttendanceCheck.AttRow) (r1 r2 : AttendanceCheck.AttRow)
    (font_name generated : string)
    (attendance_line : AttendanceCheck.Anomaly -> result string)
    (str_of_cell : cell -> string) (sha256_hexdigest : string -> string)
    (env : Utils.environ) (anonymize : bool) (ops : list Report.op) :
  AttendanceCheck.detect_attendance_anomalies parse_datetime f64 df z_thresh
    long_hours_threshold streak_threshold = Ok (out, fig) ->
  AttendanceCheck.mapM (AttendanceCheck.read_row parse_datetime) (rows df)
  = Ok rs ->
  In r1 rs -> In r2 rs ->
  isna (AttendanceCheck.emp r1) = false ->
  isna (AttendanceCheck.emp r2) = false ->
  AttendanceCheck.emp r1 <> AttendanceCheck.emp r2 ->
  Report.build_pdf_attendance font_name generated attendance_line str_of_cell
    sha256_hexdigest env out anonymize = Ok ops ->
  In (Report.DrawString 20 262
        ("長時間勤務フラグ: "
         ++ Utils.str_of_nat
              (List.length
                 (filter (fun r => negb (isna (AttendanceCheck.emp r))
                                   && fge (AttendanceCheck.hours r)
                                          (Fin long_hours_threshold)) rs))
         ++ " / 連続勤務フラグ: "
         ++ Utils.str_of_nat
              (List.length (filter AttendanceCheck.a_run out)))%string)
     ops.
Proof.
  intros E M I1 I2 N1 N2 D B.
  assert (C : List.length (filter AttendanceCheck.a_long out)
              = List.length
                  (filter (fun r => negb (isna (AttendanceCheck.emp r))
                                    && fge (AttendanceCheck.hours r)
                                           (Fin long_hours_threshold)) rs)).
  { unfold AttendanceCheck.detect_attendance_anomalies in E.
    destruct (AttendanceCheck.flagged_frame _ _ _ _ _ _) as [[t fig']|e] eqn:F;
      [|discriminate].
    cbn [bind fst snd] in E. apply Ok_inj in E. injection E as <- _.
    pose proof F as F0. unfold AttendanceCheck.flagged_frame in F0.
    destruct (Utils.ensure_columns df AttendanceCheck.REQ) as [[]|e] eqn:Ec;
      [|discriminate].
    cbn [bind] in F0. rewrite M in F0. cbn [bind] in F0.
    destruct (AttendanceCheck.sortable (map AttendanceCheck.emp rs)) eqn:S;
      [|discriminate].
    clear F0.
    destruct (detect_two_employees parse_datetime f64 df z_thresh
                long_hours_threshold streak_threshold rs r1 r2 Ec M S I1 I2
                N1 N2 D) as [F' _].
    rewrite F' in F. apply Ok_inj in F. injection F as <- _.
    rewrite length_filter_sort_by, long_days_of_table.
    apply length_filter_sort_by. }
  unfold Report.build_pdf_attendance in B. cbv zeta in B.
  destruct (AttendanceCheck.mapM attendance_line _) as [lines|e];
    [|discriminate].
  cbn [bind] in B. apply Ok_inj in B. subst ops.
  rewrite C. apply in_or_app. right. apply in_or_app. left.
  right. right. left. reflexivity.
Qed.

Lemma reported_long_hours_count_witness :
  let df := mkDF AttendanceCheck.REQ
              [[("社員ID", CStr "E1"); ("日付", CTime 1704067200000000000);
                ("勤務時間h", CNum 12); ("残業時間h", CNum 4)];
               [("社員ID", CStr "E2"); ("日付", CTime 1704067200000000000);
                ("勤務時間h", CNum 8); ("残業時間h", CNum 0)]]%string in
  let rs := [AttendanceCheck.mkAtt (CStr "E1")
               (Utils.TS 1704067200000000000) (Fin 12) (Fin 4);
             AttendanceCheck.mkAtt (CStr "E2")
               (Utils.TS 1704067200000000000) (Fin 8) (Fin 0)] in
  exists out fig ops n,
    AttendanceCheck.detect_attendance_anomalies (fun _ => None)
      (fun _ => 0%float) df 2 11 12
    = Ok (out, fig)
    /\ Report.build_pdf_attendance "Helvetica"%string
         "2024-01-01 00:00"%string (fun _ => Ok "line"%string)
         (fun _ => "E1"%string) (fun s => s) [] out false = Ok ops
    /\ In (Report.DrawString 20 262
             ("長時間勤務フラグ: "
              ++ Utils.str_of_nat
                   (List.length
                      (filter (fun r => negb (isna (AttendanceCheck.emp r))
                                        && fge (AttendanceCheck.hours r)
                                               (Fin 11)) rs))
              ++ " / 連続勤務フラグ: " ++ Utils.str_of_nat n)%string) ops.
Proof.
  intros df rs.
  destruct (detect_two_employees (fun _ => None) (fun _ => 0%float) df 2 11
              12%Z rs _ _ eq_refl eq_refl eq_refl (or_introl eq_refl)
              (or_intror (or_introl eq_refl)) eq_refl eq_refl)
    as [_ E]; [discriminate|].
  match type of E with _ = Ok (?o, ?f) => set (out := o) in *; set (fig := f) in * end.
  destruct (build_pdf_attendance_returns "Helvetica"%string
              "2024-01-01 00:00"%string (fun _ => Ok "line"%string)
              (fun _ => "line"%string) (fun _ => "E1"%string) (fun s => s) []
              out false) as [ops B]; [reflexivity|].
  exists out, fig, ops, (List.length (filter AttendanceCheck.a_run out)).
  split; [exact E|]. split; [exact B|].
  apply (reported_long_hours_count (fun _ => None) (fun _ => 0%float) df 2 11
           12%Z out fig rs _ _
           "Helvetica"%string "2024-01-01 00:00"%string
           (fun _ => Ok "line"%string) (fun _ => "E1"%string) (fun s => s) []
           false ops E eq_refl (or_introl eq_refl)
           (or_intror (or_introl eq_refl)) eq_refl eq_refl); [discriminate|].
  exact B.
Defined.
